(** * The activity bot: field parsers, session table and dialogue handlers

    A shallow embedding of the guided-input Telegram bot of
    [src/unnamed/part_005] (the first of the two versions there): the
    field parsers, the session table and the handlers registered on the
    transport, with the properties the specification states about them.

    Conventions of the embedding.
    - A JavaScript string is a [string]; a character is a code unit below
      256, read as Latin-1 (the ASCII range and its Latin-1 extension).
    - A property that may be absent is an [option]: [None] is
      [undefined].  A field the code also assigns [null] to has a type
      with a constructor for [null].
    - A number the code only carries around or parses from decimal digits
      is the exact rational it denotes ([Q], kept reduced); the engine
      stores the nearest double, which is the same number for every
      integer of magnitude up to 2^53.
    - An ISO instant string, as produced by [toISOString], is the time
      value (milliseconds since the epoch, a [Z]) it prints.
    - A handler is a function from the state of the process and the
      inbound event to the new state and the list of calls made on the
      transport.  What the collaborators answer during the handler (the
      clock, the geocoder, a download, the storage) comes with the event.
      A handler runs to its end before the next event is handled, and the
      calls it makes on the transport succeed.
*)

From Stdlib Require Import ZArith QArith Ascii String List Bool Lia DecimalString.
From stdpp Require Import base option gmap.
Import ListNotations.

Local Open Scope string_scope.
Local Open Scope Z_scope.

(** ** Characters and strings *)

Module Str.

Definition code (c : ascii) : Z := Z.of_N (N_of_ascii c).

Definition of_code (n : Z) : ascii := ascii_of_N (Z.to_N n).

(** [\d] *)
Definition is_digit (c : ascii) : bool :=
  (48 <=? code c) && (code c <=? 57).

(** [\s], and the characters [trim] strips: TAB, LF, VT, FF, CR, space
    and the no-break space. *)
Definition is_space (c : ascii) : bool :=
  ((9 <=? code c) && (code c <=? 13)) || (code c =? 32) || (code c =? 160).

(** [[0-9a-f]] under the [i] flag *)
Definition is_hex (c : ascii) : bool :=
  is_digit c
  || ((97 <=? code c) && (code c <=? 102))
  || ((65 <=? code c) && (code c <=? 70)).

(** [\w] *)
Definition is_word (c : ascii) : bool :=
  is_digit c
  || ((97 <=? code c) && (code c <=? 122))
  || ((65 <=? code c) && (code c <=? 90))
  || (code c =? 95).

Definition lower_char (c : ascii) : ascii :=
  let n := code c in
  if ((65 <=? n) && (n <=? 90))
     || ((192 <=? n) && (n <=? 222) && negb (n =? 215))
  then of_code (n + 32) else c.

Fixpoint toLowerCase (s : string) : string :=
  match s with
  | EmptyString => EmptyString
  | String c r => String (lower_char c) (toLowerCase r)
  end.

Fixpoint trimStart (s : string) : string :=
  match s with
  | EmptyString => EmptyString
  | String c r => if is_space c then trimStart r else s
  end.

(** [trimEnd] keeps a character when it is not a space or something
    remains after it. *)
Fixpoint trimEnd (s : string) : string :=
  match s with
  | EmptyString => EmptyString
  | String c r =>
      match trimEnd r with
      | EmptyString => if is_space c then EmptyString else String c EmptyString
      | r' => String c r'
      end
  end.

Definition trim (s : string) : string := trimEnd (trimStart s).

Definition is_empty (s : string) : bool :=
  match s with EmptyString => true | _ => false end.

(** [s.startsWith(p)] *)
Fixpoint startsWith (p s : string) : bool :=
  match p, s with
  | EmptyString, _ => true
  | String a p', String b s' => Ascii.eqb a b && startsWith p' s'
  | String _ _, EmptyString => false
  end.

Fixpoint drop (n : nat) (s : string) : string :=
  match n, s with
  | O, _ => s
  | S n', String _ r => drop n' r
  | S _, EmptyString => EmptyString
  end.

Fixpoint take (n : nat) (s : string) : string :=
  match n, s with
  | O, _ => EmptyString
  | S n', String c r => String c (take n' r)
  | S _, EmptyString => EmptyString
  end.

(** [s.replace(pat, repl)] with a string pattern: the first occurrence
    only. *)
Fixpoint replaceFirst (pat repl s : string) : string :=
  if startsWith pat s then repl ++ drop (String.length pat) s
  else match s with
       | EmptyString => EmptyString
       | String c r => String c (replaceFirst pat repl r)
       end.

(** [s.replace(/[class]/g, '')] *)
Fixpoint remove (cls : ascii -> bool) (s : string) : string :=
  match s with
  | EmptyString => EmptyString
  | String c r => if cls c then remove cls r else String c (remove cls r)
  end.

Fixpoint all (cls : ascii -> bool) (s : string) : bool :=
  match s with
  | EmptyString => true
  | String c r => cls c && all cls r
  end.

(** the longest prefix in a class, and what follows it *)
Fixpoint span (cls : ascii -> bool) (s : string) : string * string :=
  match s with
  | EmptyString => (EmptyString, EmptyString)
  | String c r =>
      if cls c then let '(a, b) := span cls r in (String c a, b)
      else (EmptyString, s)
  end.

(** the suffix that starts at the first character in a class *)
Fixpoint seek (cls : ascii -> bool) (s : string) : option string :=
  match s with
  | EmptyString => None
  | String c r => if cls c then Some s else seek cls r
  end.

Definition is_char (a : ascii) (c : ascii) : bool := Ascii.eqb a c.

(** the value of a run of decimal digits, most significant first *)
Fixpoint digits_value (acc : Z) (s : string) : Z :=
  match s with
  | EmptyString => acc
  | String c r => digits_value (10 * acc + (code c - 48)) r
  end.

End Str.

(** the double quote, as a string *)
Definition dquote : string := String "034"%char EmptyString.

(** ** Field parsers *)

(** [String(s || '').trim()] *)
Definition normalizeText (s : option string) : string :=
  Str.trim (default EmptyString s).

Definition isSkipText (text : option string) : bool :=
  let t := Str.toLowerCase (normalizeText text) in
  if Str.is_empty t then false
  else String.eqb t "skip" || String.eqb t "/skip" || Str.startsWith "/skip@" t.

(** What the count field holds once it is set: [null], a number, or the
    text as typed. *)
Inductive count : Type :=
| CNull
| CNum (n : Q)
| CText (t : string).

(** 10^k as a denominator *)
Fixpoint pow10 (k : nat) : positive :=
  match k with
  | O => 1%positive
  | S k' => (10 * pow10 k')%positive
  end.

(** [Number(numStr)] where [numStr] is made of digits and dots and starts
    with a digit: the decimal literals [d+], [d+.] and [d+.d+]; anything
    with a second dot is [NaN] ([None]). *)
Definition Number_decimal (numStr : string) : option Q :=
  let '(ip, rest) := Str.span Str.is_digit numStr in
  match rest with
  | EmptyString => Some (Qred (Str.digits_value 0 ip # 1))
  | String c fp =>
      if Str.is_char "." c && Str.all Str.is_digit fp
      then Some (Qred (Str.digits_value 0 (ip ++ fp) # pow10 (String.length fp)))
      else None
  end.

(** [Number.isFinite]: a decimal literal becomes [Infinity] from the
    midpoint between the largest double and 2^1024 on. *)
Definition Number_isFinite (q : Q) : bool :=
  negb (Qle_bool (2 ^ 1024 - 2 ^ 970 # 1) q).

(** the character classes of [parseCountInput] *)
Definition count_separator (c : ascii) : bool :=
  Str.is_space c || Str.is_char "," c || Str.is_char "." c
  || Str.is_char "_" c || Str.is_char "-" c.

Definition count_run (c : ascii) : bool :=
  Str.is_digit c || Str.is_char "," c || Str.is_char "." c
  || Str.is_char "_" c || Str.is_space c.

Definition not_digit_or_dot (c : ascii) : bool :=
  negb (Str.is_digit c || Str.is_char "." c).

Definition is_zero_char (c : ascii) : bool := Str.is_char "0" c.

(** [/^0+$/.test(s)] *)
Definition all_zeros (s : string) : bool :=
  negb (Str.is_empty s) && Str.all is_zero_char s.

(** [t.match(/\d[\d,._\s]*/)]: the match starts at the first digit and
    runs as far as the class allows. *)
Definition count_digitMatch (t : string) : option string :=
  match Str.seek Str.is_digit t with
  | None => None
  | Some r => Some (fst (Str.span count_run r))
  end.

Definition parseCountInput (raw : option string) : count :=
  let t := normalizeText raw in
  if Str.is_empty t || isSkipText (Some t) then CNull
  else if all_zeros (Str.remove count_separator t) then CNull
  else
    match count_digitMatch t with
    | Some m =>
        let numStr := Str.remove not_digit_or_dot m in
        match Number_decimal numStr with
        | Some n =>
            if Number_isFinite n then
              let remainder := Str.toLowerCase (Str.trim (Str.replaceFirst m EmptyString t)) in
              if Str.is_empty remainder || String.eqb remainder "mushaf"
                 || String.eqb remainder "mushafs"
              then CNum n
              else CText t
            else CText t
        | None => CText t
        end
    | None => CText t
    end.

(** [normalizeActivityType]: a fixed vocabulary of synonyms, and
    otherwise the lower-cased text with every run of spaces turned into
    one underscore. *)
Fixpoint replace_space_runs_from (in_run : bool) (s : string) : string :=
  match s with
  | EmptyString => EmptyString
  | String c r =>
      if Str.is_space c
      then if in_run then replace_space_runs_from true r
           else String "_" (replace_space_runs_from true r)
      else String c (replace_space_runs_from false r)
  end.

(** [t.replace(/\s+/g, '_')] *)
Definition replace_space_runs (s : string) : string :=
  replace_space_runs_from false s.

Definition one_of (t : string) (l : list string) : bool :=
  existsb (String.eqb t) l.

Definition normalizeActivityType (raw : option string) : string :=
  let t := Str.toLowerCase (normalizeText raw) in
  if Str.is_empty t then EmptyString
  else if one_of t ["transit"; "journey"; "movement"] then "transit"
  else if one_of t ["arrival"; "arrive"; "tiba"] then "arrival"
  else if one_of t ["distribution"; "agihan"; "distribute"] then "distribution"
  else if one_of t ["class"; "lesson"; "huffaz"] then "class"
  else if one_of t ["delivery"; "completion"; "complete"; "selesai"] then "completion"
  else if one_of t ["update"; "status"] then "update"
  else replace_space_runs t.

(** ** Dates *)

(** What a call returns: a value, or the exception it throws. *)
Inductive outcome (A : Type) : Type :=
| Returns (a : A)
| Throws (e : string).
Arguments Returns {A} a.
Arguments Throws {A} e.

#[global] Instance outcome_ret : MRet outcome := fun A a => Returns a.

#[global] Instance outcome_bind : MBind outcome := fun A B k m =>
  match m with
  | Returns a => k a
  | Throws e => Throws e
  end.

Module JsDate.

(** A [Date] object is its time value; [None] is the invalid date,
    whose time value is [NaN]. *)
Definition t : Type := option Z.

Definition isNaN_getTime (d : t) : bool :=
  match d with Some _ => false | None => true end.

(** [d.toISOString()] throws a [RangeError] on the invalid date. *)
Definition toISOString (d : t) : outcome Z :=
  match d with
  | Some v => Returns v
  | None => Throws "RangeError: Invalid time value"
  end.

Definition msPerDay : Z := 86400000.

Definition DayFromYear (y : Z) : Z :=
  365 * (y - 1970) + (y - 1969) / 4 - (y - 1901) / 100 + (y - 1601) / 400.

Definition InLeapYear (y : Z) : bool :=
  (y mod 4 =? 0) && (negb (y mod 100 =? 0) || (y mod 400 =? 0)).

(** the day of the year on which month [mn] (0 to 11) starts *)
Definition MonthStart (leap : bool) (mn : Z) : Z :=
  let base := nth (Z.to_nat mn) [0; 31; 59; 90; 120; 151; 181; 212; 243; 273; 304; 334] 0 in
  if leap && (2 <=? mn) then base + 1 else base.

Definition MakeDay (year month date : Z) : Z :=
  let ym := year + month / 12 in
  let mn := month mod 12 in
  DayFromYear ym + MonthStart (InLeapYear ym) mn + date - 1.

Definition MakeTime (hour min sec ms : Z) : Z :=
  hour * 3600000 + min * 60000 + sec * 1000 + ms.

Definition MakeDate (day time : Z) : Z := day * msPerDay + time.

Definition TimeClip (time : Z) : t :=
  if 8640000000000000 <? Z.abs time then None else Some time.

Definition MakeFullYear (y : Z) : Z :=
  if (0 <=? y) && (y <=? 99) then 1900 + y else y.

(** [new Date(Date.UTC(Y, Mo, D, hh, mm))] on integer arguments *)
Definition UTC (Y Mo D hh mm : Z) : t :=
  TimeClip (MakeDate (MakeDay (MakeFullYear Y) Mo D) (MakeTime hh mm 0 0)).

End JsDate.

(** What [new Date(x)] is called on. *)
Inductive dateArg : Type :=
| DUndefined
| DText (s : string)
| DIso (v : Z).

(** A string that is either an ISO instant or empty. *)
Inductive isoText : Type :=
| Iso (v : Z)
| EmptyText.

(** at most [n] leading digits, and what follows them *)
Fixpoint digits_upto (n : nat) (s : string) : string * string :=
  match n, s with
  | S n', String c r =>
      if Str.is_digit c then let '(a, b) := digits_upto n' r in (String c a, b)
      else (EmptyString, s)
  | _, _ => (EmptyString, s)
  end.

Definition date_sep (c : ascii) : bool := Str.is_char "-" c || Str.is_char "/" c.

Definition date_time_sep (c : ascii) : bool := Str.is_char " " c || Str.is_char "T" c.

(** [(?:[ T](\d{1,2}):(\d{2}))?] on what follows the day *)
Definition match_hm (s : string) : option (string * string) :=
  match s with
  | String c r =>
      if date_time_sep c then
        let '(hh, r1) := digits_upto 2 r in
        if Str.is_empty hh then None
        else match r1 with
             | String c1 r2 =>
                 if Str.is_char ":" c1 then
                   let '(mm, _) := digits_upto 2 r2 in
                   if (String.length mm =? 2)%nat then Some (hh, mm) else None
                 else None
             | EmptyString => None
             end
      else None
  | EmptyString => None
  end.

(** [s.match(/^(\d{4})[-\/](\d{1,2})[-\/](\d{1,2})(?:[ T](\d{1,2}):(\d{2}))?/)]:
    the groups 1 to 3 and, when the optional part matched, 4 and 5.  Every
    digit group is followed by a character that is no digit or by a part
    that may be empty, so the greedy choice is the only one that can
    match. *)
Definition match_ymd (s : string)
  : option (string * string * string * option (string * string)) :=
  let '(y, r1) := digits_upto 4 s in
  if negb (String.length y =? 4)%nat then None
  else match r1 with
       | String c1 r2 =>
           if date_sep c1 then
             let '(mo, r3) := digits_upto 2 r2 in
             if Str.is_empty mo then None
             else match r3 with
                  | String c2 r4 =>
                      if date_sep c2 then
                        let '(d, r5) := digits_upto 2 r4 in
                        if Str.is_empty d then None
                        else Some (y, mo, d, match_hm r5)
                      else None
                  | EmptyString => None
                  end
           else None
       | EmptyString => None
       end.

(** [Number(g)] on a group of digits *)
Definition Number_digits (g : string) : Z := Str.digits_value 0 g.

Definition is_now_keyword (t : string) : bool :=
  one_of t ["now"; "current"; "current time"; "today"; "today now"].

Section Dates.

(** The engine's [Date.parse]: the time value of [new Date(s)] for a
    string [s], [None] when it is [NaN]. *)
Variable dateParse : string -> option Z.

Definition Date_new (x : dateArg) : JsDate.t :=
  match x with
  | DUndefined => None
  | DText s => dateParse s
  | DIso v => Some v
  end.

(** [safeDateISO], at clock reading [now] *)
Definition safeDateISO (now : Z) (s : dateArg) : outcome Z :=
  let d := Date_new s in
  if JsDate.isNaN_getTime d then JsDate.toISOString (Some now)
  else JsDate.toISOString d.

(** what [safeDateISO] returns: its guard leaves [toISOString] a valid
    date on both sides, so that it never throws ([safeDateISO_returns]
    below) *)
Definition safeDateISO_value (now : Z) (s : dateArg) : Z :=
  match Date_new s with
  | Some v => v
  | None => now
  end.

(** the body of the [try] block of [parseFlexibleDate]: [Some] when it
    returns from the function *)
Definition parseFlexibleDate_try (s : string) : outcome (option isoText) :=
  let d := Date_new (DText (Str.replaceFirst " " "T" s)) in
  if negb (JsDate.isNaN_getTime d)
  then v ← JsDate.toISOString d; Returns (Some (Iso v))
  else Returns None.

Definition parseFlexibleDate_regex (s : string) : outcome isoText :=
  match match_ymd s with
  | Some (g1, g2, g3, g45) =>
      let Y := Number_digits g1 in
      let Mo := Number_digits g2 - 1 in
      let D := Number_digits g3 in
      let hh := match g45 with Some (g4, _) => Number_digits g4 | None => 0 end in
      let mm := match g45 with Some (_, g5) => Number_digits g5 | None => 0 end in
      let d := JsDate.UTC Y Mo D hh mm in
      if negb (JsDate.isNaN_getTime d)
      then v ← JsDate.toISOString d; Returns (Iso v)
      else Returns EmptyText
  | None => Returns EmptyText
  end.

(** [parseFlexibleDate], at clock reading [now] *)
Definition parseFlexibleDate (now : Z) (s : string) : outcome isoText :=
  if Str.is_empty s then Returns EmptyText
  else
    let t := Str.toLowerCase (Str.trim s) in
    if is_now_keyword t
    then v ← JsDate.toISOString (Some now); Returns (Iso v)
    else
      let d := Date_new (DText s) in
      if negb (JsDate.isNaN_getTime d)
      then v ← JsDate.toISOString d; Returns (Iso v)
      else
        match parseFlexibleDate_try s with
        | Returns (Some r) => Returns r
        | Returns None | Throws _ => parseFlexibleDate_regex s
        end.

End Dates.

Definition DaysInMonth (leap : bool) (M : Z) : Z :=
  if M =? 2 then (if leap then 29 else 28)
  else if (M =? 4) || (M =? 6) || (M =? 9) || (M =? 11) then 30
  else 31.

(** A reference [Date.parse] for concrete runs: the date-only ISO form
    [YYYY-MM-DD] of a day that exists, read as UTC midnight, and nothing
    else.  Engines accept more. *)
Definition refDateParse (s : string) : option Z :=
  let '(y, r1) := digits_upto 4 s in
  match r1 with
  | String "-" r2 =>
      let '(mo, r3) := digits_upto 2 r2 in
      match r3 with
      | String "-" r4 =>
          let '(d, r5) := digits_upto 2 r4 in
          let M := Number_digits mo in
          let D := Number_digits d in
          if (String.length y =? 4)%nat && (String.length mo =? 2)%nat
             && (String.length d =? 2)%nat && Str.is_empty r5
             && (1 <=? M) && (M <=? 12) && (1 <=? D)
             && (D <=? DaysInMonth (JsDate.InLeapYear (Number_digits y)) M)
          then JsDate.TimeClip
                 (JsDate.MakeDate (JsDate.MakeDay (Number_digits y) (M - 1) D) 0)
          else None
      | _ => None
      end
  | _ => None
  end.

(** ** Records, sessions and the state of the process *)

(** A value the code may set to [null]. *)
Inductive nullable (A : Type) : Type :=
| null
| value (a : A).
Arguments null {A}.
Arguments value {A} a.

(** Truthiness of strings and [a || b] on them *)
Definition truthy (s : option string) : bool :=
  match s with
  | Some x => negb (Str.is_empty x)
  | None => false
  end.

Definition or_else (a : option string) (b : string) : string :=
  match a with
  | Some x => if Str.is_empty x then b else x
  | None => b
  end.

Module Attachment.
Record t : Type := mk {
  type : option string;
  path : option string;
  fileId : option string;
  webPath : option string
}.

Definition set_webPath (w : string) (a : t) : t :=
  mk (type a) (path a) (fileId a) (Some w).
End Attachment.

(** The draft of a session, [s.data]. *)
Module Data.
Record t : Type := mk {
  id : option string;
  title : option string;
  activity_type : option string;
  date : option Z;
  dateRaw : option string;
  count : option count;
  location : option string;
  lat : option (nullable Q);
  lng : option (nullable Q);
  note : option string;
  attachment : option (nullable Attachment.t)
}.

(** [{}] *)
Definition empty : t :=
  mk None None None None None None None None None None None.

Definition set_id v d :=
  mk v (title d) (activity_type d) (date d) (dateRaw d) (count d)
     (location d) (lat d) (lng d) (note d) (attachment d).
Definition set_title v d :=
  mk (id d) v (activity_type d) (date d) (dateRaw d) (count d)
     (location d) (lat d) (lng d) (note d) (attachment d).
Definition set_activity_type v d :=
  mk (id d) (title d) v (date d) (dateRaw d) (count d)
     (location d) (lat d) (lng d) (note d) (attachment d).
Definition set_date v d :=
  mk (id d) (title d) (activity_type d) v (dateRaw d) (count d)
     (location d) (lat d) (lng d) (note d) (attachment d).
Definition set_dateRaw v d :=
  mk (id d) (title d) (activity_type d) (date d) v (count d)
     (location d) (lat d) (lng d) (note d) (attachment d).
Definition set_count v d :=
  mk (id d) (title d) (activity_type d) (date d) (dateRaw d) v
     (location d) (lat d) (lng d) (note d) (attachment d).
Definition set_location v d :=
  mk (id d) (title d) (activity_type d) (date d) (dateRaw d) (count d)
     v (lat d) (lng d) (note d) (attachment d).
Definition set_lat v d :=
  mk (id d) (title d) (activity_type d) (date d) (dateRaw d) (count d)
     (location d) v (lng d) (note d) (attachment d).
Definition set_lng v d :=
  mk (id d) (title d) (activity_type d) (date d) (dateRaw d) (count d)
     (location d) (lat d) v (note d) (attachment d).
Definition set_note v d :=
  mk (id d) (title d) (activity_type d) (date d) (dateRaw d) (count d)
     (location d) (lat d) (lng d) v (attachment d).
Definition set_attachment v d :=
  mk (id d) (title d) (activity_type d) (date d) (dateRaw d) (count d)
     (location d) (lat d) (lng d) (note d) v.
End Data.

(** The record built for the preview, [s.pending], which the confirm
    callback stores. *)
Module Item.
Record t : Type := mk {
  id : string;
  title : option string;
  activity_type : option string;
  date : Z;
  count : option count;
  location : option string;
  lat : option (nullable Q);
  lng : option (nullable Q);
  note : option string;
  attachment : nullable Attachment.t;
  attachment_url : option string;
  attachment_type : option string
}.

Definition set_id v i :=
  mk v (title i) (activity_type i) (date i) (count i) (location i)
     (lat i) (lng i) (note i) (attachment i) (attachment_url i) (attachment_type i).
Definition set_attachment v i :=
  mk (id i) (title i) (activity_type i) (date i) (count i) (location i)
     (lat i) (lng i) (note i) v (attachment_url i) (attachment_type i).
Definition set_public v ty i :=
  mk (id i) (title i) (activity_type i) (date i) (count i) (location i)
     (lat i) (lng i) (note i) (attachment i) (Some v) (Some ty).
End Item.

(** A stored activity as the bot reads it back, from the JSON file or
    from a row of the table: the properties [beginEditFlow] looks at. *)
Module Activity.
Record t : Type := mk {
  id : option string;
  title : option string;
  note : option string;
  desc : option string;
  activity_type : option string;
  raw_activity_type : option string;
  date : option dateArg;
  activity_date : option dateArg;
  count : option count;
  location : option string;
  lat : option (nullable Q);
  latitude : option (nullable Q);
  lng : option (nullable Q);
  longitude : option (nullable Q);
  attachment_url : option string;
  attachment_type : option string;
  attachment : option (nullable Attachment.t)
}.
End Activity.

Module Step.
Inductive t : Type :=
| title | type | date | count | location | attachment | note
| confirming | edit_menu.

Definition eqb (a b : t) : bool :=
  match a, b with
  | title, title | type, type | date, date | count, count
  | location, location | attachment, attachment | note, note
  | confirming, confirming | edit_menu, edit_menu => true
  | _, _ => false
  end.
End Step.

Inductive mode : Type := create | edit.

Inductive editMode : Type := menu | guided.

Module Session.
Record t : Type := mk {
  userId : Z;
  mode : mode;
  editMode : option editMode;
  step : Step.t;
  data : Data.t;
  pending : option Item.t
}.

Definition set_step v s :=
  mk (userId s) (mode s) (editMode s) v (data s) (pending s).
Definition set_data v s :=
  mk (userId s) (mode s) (editMode s) (step s) v (pending s).
Definition set_editMode v s :=
  mk (userId s) (mode s) v (step s) (data s) (pending s).
Definition set_pending v s :=
  mk (userId s) (mode s) (editMode s) (step s) (data s) v.

(** [s.data.f = v] *)
Definition update (f : Data.t -> Data.t) (s : t) : t := set_data (f (data s)) s.
End Session.

Inductive menuAction : Type := menu_edit | menu_delete.

(** The state of the process: the session table, the table of pending
    menu prompts (an entry set to [null] is an entry removed: the table
    is only ever tested for truthiness), the contents of
    [activities.json] and the rows of the table [activities]. *)
Record state : Type := mkState {
  sessions : gmap Z Session.t;
  pendingMenuActionByChatId : gmap Z menuAction;
  activities : list Activity.t;
  db : list Activity.t
}.

Definition set_sessions v st :=
  mkState v (pendingMenuActionByChatId st) (activities st) (db st).
Definition set_pendingMenu v st :=
  mkState (sessions st) v (activities st) (db st).
Definition set_activities v st :=
  mkState (sessions st) (pendingMenuActionByChatId st) v (db st).
Definition set_db v st :=
  mkState (sessions st) (pendingMenuActionByChatId st) (activities st) v.

(** [startSession] and [endSession] *)
Definition startSession (chatId userId : Z) (m : mode) (st : state) : state :=
  set_sessions
    (<[chatId := Session.mk userId m None Step.title Data.empty None]> (sessions st)) st.

Definition endSession (chatId : Z) (st : state) : state :=
  set_sessions (delete chatId (sessions st)) st.

(** [sessions[chatId] = s] after the handler mutated [s] in place *)
Definition putSession (chatId : Z) (s : Session.t) (st : state) : state :=
  set_sessions (<[chatId := s]> (sessions st)) st.

Definition isEditMenuMode (s : Session.t) : bool :=
  match Session.mode s, Session.editMode s with
  | edit, Some menu => true
  | _, _ => false
  end.

Definition stepPrev (st : Step.t) : option Step.t :=
  match st with
  | Step.confirming => Some Step.note
  | Step.note => Some Step.attachment
  | Step.attachment => Some Step.location
  | Step.location => Some Step.count
  | Step.count => Some Step.date
  | Step.date => Some Step.type
  | Step.type => Some Step.title
  | _ => None
  end.

(** ** Events and calls *)

(** An inbound message of the transport. *)
Module Msg.
Record t : Type := mk {
  chat_id : Z;
  from_id : Z;
  text : option string;
  caption : option string;
  location : option (Q * Q);
  photo : list string;
  document : option (string * option string);
  edit_date : bool
}.
End Msg.

(** An inbound button press. *)
Module Callback.
Record t : Type := mk {
  chat_id : Z;
  from_id : Z;
  message_id : Z;
  data : string
}.
End Callback.

(** What the geocoder answers. *)
Record geo : Type := mkGeo { geo_lat : Q; geo_lng : Q; display_name : string }.

(** What the collaborators answer while one event is handled. *)
Record env : Type := mkEnv {
  now : Z;
  random_id : string;
  geocodeLocation : string -> option geo;
  downloadFile : string -> bool;
  existsSync : string -> bool;
  db_error : option string;
  db_new_id : string;
  r2_upload : string -> option string
}.

(** The calls a handler makes on the transport.  The text of a prompt, of
    the preview, of the confirmation and of the lists is not rendered: the
    call carries what the text is made of.  A prompt is made of the step,
    the mode and, where it shows current values (in edit mode and in the
    field menu), the draft.  The ellipsis that ends three of the toasts is
    left out. *)
Inductive call : Type :=
| sendMessage (chatId : Z) (text : string)
| sendPrompt (chatId : Z) (st : Step.t) (m : mode) (shown : option Data.t)
| sendPreviewMessage (chatId : Z) (item : Item.t) (photo : bool)
| sendMainMenu (chatId : Z)
| sendRecentListPage (chatId : Z) (page : Q) (editMessageId : option Z)
| answerCallbackQuery (text : string)
| editMessageReplyMarkup (chatId : Z) (messageId : Z)
| deleteMessage (chatId : Z) (messageId : Z)
| announceToChannelIfConfigured (item : Item.t) (tag : string)
| console_error (what : string)

| sendLocationResolved (chatId : Z) (g : geo)
| sendSavedMessage (chatId : Z) (item : Item.t) (m : mode)
| sendHelp (chatId : Z).

(** ** Identifiers *)

(** [n] hexadecimal digits, then the rest *)
Fixpoint hex_group (n : nat) (s : string) : option string :=
  match n, s with
  | O, _ => Some s
  | S n', String c r => if Str.is_hex c then hex_group n' r else None
  | S _, EmptyString => None
  end.

Definition dash_then (k : string -> option string) (s : string) : option string :=
  match s with
  | String "-" r => k r
  | _ => None
  end.

(** [isUuidLike] *)
Definition isUuidLike (s : option string) : bool :=
  match hex_group 8 (normalizeText s) with
  | Some r1 =>
      match dash_then (hex_group 4) r1 with
      | Some r2 =>
          match dash_then (hex_group 4) r2 with
          | Some r3 =>
              match dash_then (hex_group 4) r3 with
              | Some r4 =>
                  match dash_then (hex_group 12) r4 with
                  | Some r5 => Str.is_empty r5
                  | None => false
                  end
              | None => false
              end
          | None => false
          end
      | None => false
      end
  | None => false
  end.

Definition not_hex (c : ascii) : bool := negb (Str.is_hex c).

(** [raw.replace(/[^0-9a-f]/gi, '').slice(0, 32)] *)
Definition hex_prefix (raw : string) : string :=
  Str.take 32 (Str.remove not_hex raw).

(** [id::text ILIKE prefix || '%'] for a prefix of hexadecimal digits; a
    row without an id does not match. *)
Definition id_ilike (prefix : string) (a : Activity.t) : bool :=
  match Activity.id a with
  | Some i => Str.startsWith (Str.toLowerCase prefix) (Str.toLowerCase i)
  | None => false
  end.

(** [String(a.id)] *)
Definition String_id (i : option string) : string := default "undefined" i.

Definition id_is (i : string) (a : Activity.t) : bool :=
  String.eqb (String_id (Activity.id a)) i.

(** [/^https?:\/\//i.test(s)] *)
Definition is_http_url (s : string) : bool :=
  let l := Str.toLowerCase s in
  Str.startsWith "http://" l || Str.startsWith "https://" l.

(** ** The handlers *)

(** What the bot takes from its surroundings: the engine's [Date.parse]
    (the time value of [new Date(s)], [None] when it is [NaN]),
    [Number::toString] and [Number] on a string ([None] when the result is
    [NaN]); Node's [path.join] on the uploads directory and, for the web
    path, on the base name; the engine's sort of the file by date; and
    the configuration read from the environment at start-up.  An entry of
    [ALLOWED] is the number [Number] made of it: [None] is an entry that
    is no integer ([NaN] or a fraction), which no sender id equals. *)
Module Config.
Record t : Type := mk {
  dateParse : string -> option Z;
  Number_toString : Q -> string;
  jsNumber : string -> option Q;
  uploads_path : string -> string;
  uploads_webPath : string -> string;
  sort_by_date : list Activity.t -> list Activity.t;
  ALLOWED : list (option Z);
  dbEnabled : bool;
  r2Enabled : bool
}.
End Config.

Section Bot.

Variable cfg : Config.t.

Local Abbreviation dateParse := (Config.dateParse cfg).
Local Abbreviation Number_toString := (Config.Number_toString cfg).
Local Abbreviation jsNumber := (Config.jsNumber cfg).
Local Abbreviation uploads_path := (Config.uploads_path cfg).
Local Abbreviation uploads_webPath := (Config.uploads_webPath cfg).
Local Abbreviation sort_by_date := (Config.sort_by_date cfg).
Local Abbreviation ALLOWED := (Config.ALLOWED cfg).
Local Abbreviation dbEnabled := (Config.dbEnabled cfg).
Local Abbreviation r2Enabled := (Config.r2Enabled cfg).

(** [safeDateISO] while the event of [e] is handled *)
Definition safeDateISO_at (e : env) (x : dateArg) : Z :=
  safeDateISO_value dateParse (now e) x.

Definition isAllowed (userId : Z) : bool :=
  match ALLOWED with
  | [] => true
  | _ => existsb (fun a => match a with Some z => Z.eqb z userId | None => false end) ALLOWED
  end.

(** [promptForStep]; there is no prompt for the confirming step. *)
Definition promptForStep (chatId : Z) (s : Session.t) : list call :=
  match Session.step s, Session.mode s with
  | Step.confirming, _ => []
  | Step.edit_menu, m => [sendPrompt chatId Step.edit_menu m (Some (Session.data s))]
  | st, edit => [sendPrompt chatId st edit (Some (Session.data s))]
  | st, create => [sendPrompt chatId st create None]
  end.

(** [s.data.attachment || null] *)
Definition attachment_or_null (a : option (nullable Attachment.t)) : nullable Attachment.t :=
  match a with
  | Some (value x) => value x
  | _ => null
  end.

Definition is_photo (a : Attachment.t) : bool :=
  match Attachment.type a with
  | Some ty => String.eqb ty "photo"
  | None => false
  end.

(** [sendPreview].  The attachment of the item is the object the draft
    holds, so the [webPath] written on it shows in both. *)
Definition sendPreview (e : env) (chatId : Z) (s : Session.t) : Session.t * list call :=
  let d := Session.data s in
  let att := attachment_or_null (Data.attachment d) in
  let att' :=
    match att with
    | value a =>
        if truthy (Attachment.path a)
        then value (Attachment.set_webPath
                      (uploads_webPath (default EmptyString (Attachment.path a))) a)
        else att
    | null => null
    end in
  let item :=
    Item.mk (or_else (Data.id d) (random_id e)) (Data.title d) (Data.activity_type d)
            (safeDateISO_at e match Data.date d with
                              | Some v => DIso v
                              | None => DUndefined
                              end)
            (Data.count d) (Data.location d) (Data.lat d) (Data.lng d) (Data.note d)
            att' None None in
  let d' := match att' with
            | value a => Data.set_attachment (Some (value a)) d
            | null => d
            end in
  let s' := Session.set_step Step.confirming
              (Session.set_pending (Some item) (Session.set_data d' s)) in
  let photo := match att with
               | value a => is_photo a && truthy (Attachment.path a)
                            && existsSync e (default EmptyString (Attachment.path a))
               | null => false
               end in
  (s', [sendPreviewMessage chatId item photo]).

(** [handleSkip].  Its three prompts are, word for word, those of
    [promptForStep] in create mode, whatever the mode of the session. *)
Definition handleSkip (e : env) (chatId : Z) (s : Session.t) : Session.t * list call :=
  if isEditMenuMode s then
    let s' := Session.set_step Step.edit_menu s in (s', promptForStep chatId s')
  else
    match Session.step s with
    | Step.type =>
        (Session.set_step Step.date
           (Session.update
              (Data.set_activity_type
                 (Some (or_else (Data.activity_type (Session.data s)) EmptyString))) s),
         [sendPrompt chatId Step.date create None])
    | Step.date =>
        (Session.set_step Step.count
           (Session.update (Data.set_date (Some (safeDateISO_at e (DText EmptyString)))) s),
         [sendPrompt chatId Step.count create None])
    | Step.count =>
        (Session.set_step Step.location (Session.update (Data.set_count (Some CNull)) s),
         [sendPrompt chatId Step.location create None])
    | Step.location =>
        (Session.set_step Step.attachment
           (Session.update (Data.set_location
                              (Some (or_else (Data.location (Session.data s)) EmptyString))) s),
         [sendMessage chatId "Skipping location. Attach a photo/doc or type /skip"])
    | Step.attachment =>
        (Session.set_step Step.note (Session.update (Data.set_attachment (Some null)) s),
         [sendMessage chatId "Skipping attachment. Any note? (or /skip)"])
    | Step.note =>
        sendPreview e chatId (Session.update (Data.set_note (Some EmptyString)) s)
    | _ => (s, [])
    end.

(** [beginGuidedFlow]; the message sent is the create-mode prompt for
    the title. *)
Definition beginGuidedFlow (chatId fromId : Z) (st : state) : state * list call :=
  if negb (isAllowed fromId)
  then (st, [sendMessage chatId "You are not authorized to use guided input."])
  else (startSession chatId fromId create st,
        [sendPrompt chatId Step.title create None]).

(** *** The table [activities] *)

(** [pool.query] rejects when the database does *)
Definition query {A : Type} (e : env) (rows : A) : outcome A :=
  match db_error e with
  | Some err => Throws err
  | None => Returns rows
  end.

(** [resolveDbIdFromPrefix].  The query fetches at most two of the rows
    whose id starts with the prefix; which two [ORDER BY] picks among
    more makes no difference to a function that only counts them and
    reads the first of exactly one. *)
Definition resolveDbIdFromPrefix (e : env) (st : state) (idOrPrefix : option string)
  : outcome string :=
  let raw := normalizeText idOrPrefix in
  if Str.is_empty raw then Returns EmptyString
  else if isUuidLike (Some raw) then Returns raw
  else if negb dbEnabled then Returns raw
  else
    let prefix := hex_prefix raw in
    if (String.length prefix <? 6)%nat then Returns raw
    else
      rows ← query e (take 2 (filter (fun a => id_ilike prefix a = true) (db st)));
      match rows with
      | [r] => Returns (String_id (Activity.id r))
      | _ :: _ :: _ =>
          Throws "Multiple activities match that ID prefix. Please copy the full ID from /list."
      | [] => Returns EmptyString
      end.

Definition getActivityFromDbById (e : env) (st : state) (i : string)
  : outcome (option Activity.t) :=
  if negb dbEnabled then Throws "DB is not configured"
  else query e (find (id_is i) (db st)).

Definition deleteActivityFromDb (e : env) (st : state) (i : string)
  : outcome (state * option string) :=
  if negb dbEnabled then Throws "DB is not configured"
  else
    _ ← query e tt;
    match find (id_is i) (db st) with
    | Some _ => Returns (set_db (filter (fun a => id_is i a = false) (db st)) st, Some i)
    | None => Returns (st, None)
    end.

Definition number_or_null (x : option (nullable Q)) : nullable Q :=
  match x with
  | Some (value q) => value q
  | _ => null
  end.

Definition string_or_null (x : option string) : option string :=
  if truthy x then x else None.

Definition count_as_text (c : option count) : option count :=
  match c with
  | None | Some CNull => Some CNull
  | Some (CNum q) => Some (CText (Number_toString q))
  | Some (CText t) => Some (CText t)
  end.

Definition public_webPath (a : nullable Attachment.t) : option string :=
  match a with
  | value x =>
      if truthy (Attachment.webPath x) && is_http_url (default EmptyString (Attachment.webPath x))
      then Attachment.webPath x else None
  | null => None
  end.

Definition attachment_type_of (a : nullable Attachment.t) : option string :=
  match a with
  | value x => string_or_null (Attachment.type x)
  | null => None
  end.

Definition first_some {A : Type} (a b : option A) : option A :=
  match a with Some _ => a | None => b end.

(** the row written for an item: the values of the statement, and the
    item itself in [raw], of which the type is read back *)
Definition row_of_item (i : string) (item : Item.t) (on_update : bool) : Activity.t :=
  Activity.mk
    (Some i)
    (Some (or_else (Item.title item) "Activity"))
    (string_or_null (Item.note item))
    None
    None
    (string_or_null (Item.activity_type item))
    (Some (DIso (Item.date item)))
    None
    (count_as_text (Item.count item))
    (string_or_null (Item.location item))
    (Some (number_or_null (Item.lat item)))
    None
    (Some (number_or_null (Item.lng item)))
    None
    (first_some (public_webPath (Item.attachment item))
                (if on_update then string_or_null (Item.attachment_url item) else None))
    (first_some (attachment_type_of (Item.attachment item))
                (if on_update then string_or_null (Item.attachment_type item) else None))
    None.

Definition insertActivityToDb (e : env) (st : state) (item : Item.t)
  : outcome (state * option string) :=
  if negb dbEnabled then Throws "DB is not configured"
  else
    _ ← query e tt;
    Returns (set_db (db st ++ [row_of_item (db_new_id e) item false]) st,
             Some (db_new_id e)).

Definition updateActivityInDb (e : env) (st : state) (i : string) (item : Item.t)
  : outcome (state * option string) :=
  if negb dbEnabled then Throws "DB is not configured"
  else
    _ ← query e tt;
    match find (id_is i) (db st) with
    | Some _ =>
        Returns (set_db (map (fun a => if id_is i a then row_of_item i item true else a)
                             (db st)) st,
                 Some i)
    | None => Returns (st, None)
    end.

(** *** Edit and delete *)

Definition dateArg_truthy (x : option dateArg) : bool :=
  match x with
  | Some (DText t) => negb (Str.is_empty t)
  | Some (DIso _) => true
  | Some DUndefined | None => false
  end.

Definition number_truthy (x : option (nullable Q)) : bool :=
  match x with
  | Some (value q) => negb (Qeq_bool q 0)
  | _ => false
  end.

(** the draft seeded from the stored record *)
Definition seed (e : env) (existing : Activity.t) : Data.t :=
  Data.mk
    (Activity.id existing)
    (Some (or_else (Activity.title existing) EmptyString))
    (if truthy (Activity.raw_activity_type existing)
     then Activity.raw_activity_type existing else None)
    (Some (if dateArg_truthy (Activity.date existing)
           then safeDateISO_at e (default DUndefined (Activity.date existing))
           else if dateArg_truthy (Activity.activity_date existing)
                then safeDateISO_at e (default DUndefined (Activity.activity_date existing))
                else safeDateISO_at e (DText EmptyString)))
    None
    (Some (default CNull (Activity.count existing)))
    (Some (or_else (Activity.location existing) EmptyString))
    (Some (match Activity.lat existing with
           | Some (value q) => value q
           | _ => if number_truthy (Activity.latitude existing)
                  then number_or_null (Activity.latitude existing) else null
           end))
    (Some (match Activity.lng existing with
           | Some (value q) => value q
           | _ => if number_truthy (Activity.longitude existing)
                  then number_or_null (Activity.longitude existing) else null
           end))
    (Some (if truthy (Activity.note existing) then default EmptyString (Activity.note existing)
           else or_else (Activity.desc existing) EmptyString))
    (if truthy (Activity.attachment_url existing) || truthy (Activity.attachment_type existing)
     then Some (value (Attachment.mk
                         (Some (or_else (Activity.attachment_type existing) "photo"))
                         None None
                         (Some (or_else (Activity.attachment_url existing) EmptyString))))
     else match Activity.attachment existing with
          | Some (value a) => Some (value a)
          | _ => None
          end).

Definition beginEditFlow (e : env) (chatId fromId : Z) (id : option string) (st : state)
  : state * list call :=
  if negb (isAllowed fromId) then (st, [sendMessage chatId "Not authorized"])
  else if bool_decide (is_Some (sessions st !! chatId))
  then (st, [sendMessage chatId "You are already in a session. Type /cancel to stop it first."])
  else
    let activityId := normalizeText id in
    if Str.is_empty activityId
    then (st, [sendMessage chatId "Usage: /edit <id> (get the id from /list)"])
    else
      let resolved :=
        if dbEnabled && negb (isUuidLike (Some activityId))
        then resolveDbIdFromPrefix e st (Some activityId)
        else Returns activityId in
      match resolved with
      | Throws err => (st, [sendMessage chatId err])
      | Returns activityId' =>
          if Str.is_empty activityId'
          then (st, [sendMessage chatId ("Not found: " ++ activityId)])
          else
            let existing :=
              if dbEnabled then getActivityFromDbById e st activityId'
              else Returns (find (id_is activityId') (activities st)) in
            match existing with
            | Throws err =>
                (st, [console_error "edit flow begin failed";
                      sendMessage chatId ("Edit failed: " ++ err)])
            | Returns None => (st, [sendMessage chatId ("Not found: " ++ activityId')])
            | Returns (Some x) =>
                let s := Session.mk fromId edit (Some menu) Step.edit_menu (seed e x) None in
                (putSession chatId s (startSession chatId fromId edit st),
                 promptForStep chatId s)
            end
      end.

Definition handleDeleteById (e : env) (chatId userId : Z) (id : option string) (st : state)
  : state * list call :=
  if negb (isAllowed userId) then (st, [sendMessage chatId "Not authorized"])
  else if bool_decide (is_Some (sessions st !! chatId))
  then (st, [sendMessage chatId "You are in a session. Type /cancel first."])
  else
    let normalizedId := normalizeText id in
    if Str.is_empty normalizedId
    then (st, [sendMessage chatId "Usage: delete needs an id (get the id from /list)"])
    else
      let failed err := (st, [console_error "Delete failed";
                              sendMessage chatId ("Delete failed: " ++ err)]) in
      if dbEnabled then
        let resolved :=
          if negb (isUuidLike (Some normalizedId))
          then resolveDbIdFromPrefix e st (Some normalizedId)
          else Returns normalizedId in
        match resolved with
        | Throws err => failed err
        | Returns normalizedId' =>
            if Str.is_empty normalizedId'
            then (st, [sendMessage chatId ("Not found: " ++ normalizedId)])
            else
              match deleteActivityFromDb e st normalizedId' with
              | Throws err => failed err
              | Returns (st', None) =>
                  (st', [sendMessage chatId ("Not found: " ++ normalizedId')])
              | Returns (st', Some deleted) =>
                  (st', [sendMessage chatId ("Deleted: " ++ deleted ++ " (Neon)")])
              end
        end
      else
        let next := filter (fun a => id_is normalizedId a = false) (activities st) in
        if (length next =? length (activities st))%nat
        then (st, [sendMessage chatId ("Not found: " ++ normalizedId)])
        else (set_activities next st,
              [sendMessage chatId ("Deleted: " ++ normalizedId ++ " (local file)")]).

(** *** Commands *)

Definition command_words : list string :=
  ["start"; "help"; "menu"; "new"; "cancel"; "skip"; "back"; "edit"; "delete"; "add"; "list"].

(** [\b] after a word: the end of the text, or a character that is no
    word character *)
Definition at_word_boundary (s : string) : bool :=
  match s with
  | EmptyString => true
  | String c _ => negb (Str.is_word c)
  end.

(** [/^\/(start|help|menu|new|cancel|skip|back|edit|delete|add|list)\b/i.test(text)] *)
Definition is_command_text (text : string) : bool :=
  existsb (fun w => Str.startsWith ("/" ++ w) (Str.toLowerCase text)
                    && at_word_boundary (Str.drop (S (String.length w)) text))
          command_words.

(** [msg.text && /^\/(...)\b/i.test(msg.text)] *)
Definition is_command (text : option string) : bool :=
  match text with
  | Some x => is_command_text x
  | None => false
  end.

Fixpoint last_char (s : string) : string :=
  match s with
  | EmptyString => EmptyString
  | String c EmptyString => s
  | String _ r => last_char r
  end.

(** [normalized.match(/^\/([a-zA-Z0-9_]+)(?:\s+([\s\S]+))?$/)] on the
    text after its first character: the command and its argument.  All
    of the spaces go to [\s+] unless nothing follows them, in which
    case the last one is the argument. *)
Definition parse_backslash (rest : string) : option (string * string) :=
  let '(w, r) := Str.span Str.is_word rest in
  if Str.is_empty w then None
  else if Str.is_empty r then Some (w, EmptyString)
  else
    let '(ws, tl) := Str.span Str.is_space r in
    if Str.is_empty ws then None
    else if negb (Str.is_empty tl) then Some (w, tl)
    else if (2 <=? String.length ws)%nat then Some (w, last_char ws)
    else None.

(** the handler of [/back], also run by the backslash form *)
Definition goBack (chatId : Z) (s : Session.t) : Session.t * list call :=
  if isEditMenuMode s && negb (Step.eqb (Session.step s) Step.edit_menu) then
    let s' := Session.set_step Step.edit_menu s in (s', promptForStep chatId s')
  else
    match stepPrev (Session.step s) with
    | None => (s, [sendMessage chatId "Already at the first step."])
    | Some prev =>
        let s' := Session.set_step prev s in (s', promptForStep chatId s')
    end.

Definition cancelCommand (chatId : Z) (st : state) : state * list call :=
  (endSession chatId (set_pendingMenu (delete chatId (pendingMenuActionByChatId st)) st),
   [sendMessage chatId "Canceled."]).

(** [/^\d+$/.test(n) ? (Math.max(1, Number(n)) - 1) : 0] *)
Definition list_page (n : string) : Q :=
  if negb (Str.is_empty n) && Str.all Str.is_digit n
  then inject_Z (Z.max 1 (Number_digits n) - 1)
  else 0%Q.

Definition geocode_failed_text : string :=
  "Location saved as text (could not geocode). Example formats: "
  ++ dquote ++ "Kuala Lumpur, Malaysia" ++ dquote ++ " or "
  ++ dquote ++ "Bukit Bintang, Kuala Lumpur" ++ dquote
  ++ ". You can send a Telegram location instead to set coords, "
  ++ "or continue and attach photo/doc. Type /skip to continue.".

Definition slash_tip_text : string :=
  "Tip: Telegram commands use " ++ dquote ++ "/" ++ dquote ++ " (slash), e.g. /menu.".

(** *** The step machine of the message handler *)

Definition goto (chatId : Z) (next : Step.t) (s : Session.t) : Session.t * list call :=
  let s' := Session.set_step next s in (s', promptForStep chatId s').

(** after a field is written: back to the menu in menu mode, on to
    [next] with [reply] otherwise *)
Definition advance (chatId : Z) (next : Step.t) (reply : list call) (s : Session.t)
  : Session.t * list call :=
  if isEditMenuMode s then goto chatId Step.edit_menu s
  else (Session.set_step next s, reply).

Definition advance_prompt (chatId : Z) (next : Step.t) (s : Session.t)
  : Session.t * list call :=
  if isEditMenuMode s then goto chatId Step.edit_menu s
  else goto chatId next s.

Definition is_edit (s : Session.t) : bool :=
  match Session.mode s with edit => true | create => false end.

Definition text_trim (m : Msg.t) : string := Str.trim (default EmptyString (Msg.text m)).

Definition stepMachine (e : env) (chatId : Z) (m : Msg.t) (s : Session.t)
  : outcome (Session.t * list call) :=
  let d := Session.data s in
  match Session.step s with
  | Step.title =>
      let s1 :=
        if isSkipText (Msg.text m) && is_edit s then s
        else Session.update
               (Data.set_title
                  (Some (if truthy (Msg.text m) then default EmptyString (Msg.text m)
                         else if truthy (Msg.caption m) then default EmptyString (Msg.caption m)
                         else or_else (Data.title d) "Untitled"))) s in
      Returns (advance_prompt chatId Step.type s1)
  | Step.type =>
      let raw := text_trim m in
      let s1 :=
        if isSkipText (Some raw)
        then if is_edit s then s
             else Session.update (Data.set_activity_type (Some EmptyString)) s
        else Session.update
               (Data.set_activity_type (Some (normalizeActivityType (Some raw)))) s in
      Returns (advance_prompt chatId Step.date s1)
  | Step.date =>
      let raw := text_trim m in
      if isSkipText (Some raw) then
        let s1 := if is_edit s then s
                  else Session.update
                         (Data.set_date (Some (safeDateISO_at e (DText EmptyString)))) s in
        Returns (advance_prompt chatId Step.count s1)
      else if Str.is_empty raw then
        Returns (advance_prompt chatId Step.count
                   (Session.update
                      (Data.set_date (Some (safeDateISO_at e (DText EmptyString)))) s))
      else
        parsed ← parseFlexibleDate dateParse (now e) raw;
        let s1 :=
          match parsed with
          | Iso v => Session.update (Data.set_date (Some v)) s
          | EmptyText =>
              Session.update (Data.set_dateRaw (Some raw))
                (Session.update (Data.set_date (Some (safeDateISO_at e (DText raw)))) s)
          end in
        Returns (advance_prompt chatId Step.count s1)
  | Step.count =>
      let s1 :=
        if isSkipText (Msg.text m)
        then if is_edit s then s else Session.update (Data.set_count (Some CNull)) s
        else Session.update (Data.set_count (Some (parseCountInput (Msg.text m)))) s in
      Returns (advance_prompt chatId Step.location s1)
  | Step.location =>
      if isSkipText (Msg.text m) then
        let s1 := if is_edit s then s
                  else Session.update (Data.set_location (Some EmptyString)) s in
        Returns (advance_prompt chatId Step.attachment s1)
      else
        match Msg.location m with
        | Some (latitude, longitude) =>
            let s1 := Session.update (Data.set_location (Some "Shared location"))
                        (Session.update (Data.set_lng (Some (value longitude)))
                           (Session.update (Data.set_lat (Some (value latitude))) s)) in
            Returns (advance chatId Step.attachment
                       [sendMessage chatId
                          ("Location set from your shared location. "
                           ++ "Attach a photo/doc or type /skip")]
                       s1)
        | None =>
            if truthy (Msg.text m)
               && negb (String.eqb (default EmptyString (Msg.text m)) "Send my location")
               && negb (String.eqb (default EmptyString (Msg.text m)) "Type location")
            then
              let typed := text_trim m in
              match geocodeLocation e typed with
              | Some g =>
                  let s1 := Session.update (Data.set_location (Some (display_name g)))
                              (Session.update (Data.set_lng (Some (value (geo_lng g))))
                                 (Session.update (Data.set_lat (Some (value (geo_lat g)))) s)) in
                  Returns (advance chatId Step.attachment [sendLocationResolved chatId g] s1)
              | None =>
                  let s1 := Session.update (Data.set_lng (Some null))
                              (Session.update (Data.set_lat (Some null))
                                 (Session.update (Data.set_location (Some typed)) s)) in
                  Returns (advance chatId Step.attachment
                             [sendMessage chatId geocode_failed_text]
                             s1)
              end
            else Returns (s, [sendMessage chatId "Tap Send my location or type location name"])
        end
  | Step.attachment =>
      match last (Msg.photo m) with
      | Some fileId =>
          let filename := uploads_path (fileId ++ ".jpg") in
          let a := if downloadFile e fileId
                   then Attachment.mk (Some "photo") (Some filename) (Some fileId) None
                   else Attachment.mk (Some "photo") None (Some fileId) None in
          Returns (advance chatId Step.note
                     [sendMessage chatId
                        ("Photo saved. Add an optional note (or type /skip). "
                         ++ "Tip: use full-resolution images for best results.")]
                     (Session.update (Data.set_attachment (Some (value a))) s))
      | None =>
          match Msg.document m with
          | Some (fileId, file_name) =>
              let filename := uploads_path (or_else file_name fileId) in
              let a := if downloadFile e fileId
                       then Attachment.mk (Some "doc") (Some filename) (Some fileId) None
                       else Attachment.mk (Some "doc") None (Some fileId) None in
              Returns (advance chatId Step.note
                         [sendMessage chatId "Document saved. Any note? (or /skip)"]
                         (Session.update (Data.set_attachment (Some (value a))) s))
          | None =>
              if truthy (Msg.text m) && isSkipText (Msg.text m) then
                let s1 := if is_edit s then s
                          else Session.update (Data.set_attachment (Some null)) s in
                Returns (advance chatId Step.note
                           [sendMessage chatId "Skipping attachment. Any note? (or /skip)"] s1)
              else Returns (s, [sendMessage chatId "Send a photo/document or type /skip"])
          end
      end
  | Step.note =>
      let s1 :=
        if truthy (Msg.text m) && isSkipText (Msg.text m)
        then if is_edit s then s else Session.update (Data.set_note (Some EmptyString)) s
        else match Msg.text m with
             | Some x => Session.update (Data.set_note (Some x)) s
             | None =>
                 match Msg.caption m with
                 | Some c => Session.update (Data.set_note (Some c)) s
                 | None =>
                     Session.update
                       (Data.set_note (Some (or_else (Data.note d) EmptyString))) s
                 end
             end in
      if isEditMenuMode s1 then Returns (goto chatId Step.edit_menu s1)
      else Returns (sendPreview e chatId s1)
  | Step.confirming | Step.edit_menu => Returns (s, [])
  end.

(** running a function of the session on the session of a chat *)
Definition onSession (chatId : Z) (st : state) (f : Session.t -> Session.t * list call)
  (absent : list call) : state * list call :=
  match sessions st !! chatId with
  | None => (st, absent)
  | Some s => let '(s', out) := f s in (putSession chatId s' st, out)
  end.

(** [bot.on('message', ...)] *)
Definition onMessage (e : env) (m : Msg.t) (st : state) : state * list call :=
  let chatId := Msg.chat_id m in
  if Msg.edit_date m then (st, [])
  else
    if Str.startsWith "\" (default EmptyString (Msg.text m)) then
        let '(cmd, arg) :=
          match parse_backslash (Str.drop 1 (default EmptyString (Msg.text m))) with
          | Some (c, a) => (Str.toLowerCase c, a)
          | None => (EmptyString, EmptyString)
          end in
        if String.eqb cmd "start" || String.eqb cmd "menu" then (st, [sendMainMenu chatId])
        else if String.eqb cmd "help" then (st, [sendHelp chatId])
        else if String.eqb cmd "new" then beginGuidedFlow chatId (Msg.from_id m) st
        else if String.eqb cmd "list"
        then (st, [sendRecentListPage chatId (list_page (Str.trim arg)) None])
        else if String.eqb cmd "cancel" then cancelCommand chatId st
        else if String.eqb cmd "skip"
        then onSession chatId st (handleSkip e chatId) [sendMessage chatId "No active session."]
        else if String.eqb cmd "back"
        then onSession chatId st (goBack chatId) [sendMessage chatId "No active session."]
        else if String.eqb cmd "edit"
        then beginEditFlow e chatId (Msg.from_id m) (Some arg) st
        else if String.eqb cmd "delete"
        then handleDeleteById e chatId (Msg.from_id m) (Some arg) st
        else (st, [sendMessage chatId slash_tip_text])
    else
        match sessions st !! chatId, pendingMenuActionByChatId st !! chatId with
        | None, Some pendingMenuAction =>
            if is_command (Msg.text m) then (st, [])
            else
              let raw := normalizeText (Msg.text m) in
              let st1 := set_pendingMenu (delete chatId (pendingMenuActionByChatId st)) st in
              if Str.is_empty raw
              then (st1, [sendMessage chatId
                            "Please send the activity ID (you can get it from /list)."])
              else
                match pendingMenuAction with
                | menu_edit => beginEditFlow e chatId (Msg.from_id m) (Some raw) st1
                | menu_delete => handleDeleteById e chatId (Msg.from_id m) (Some raw) st1
                end
        | None, None => (st, [])
        | Some s, _ =>
            if is_command (Msg.text m) then (st, [])
            else
              match stepMachine e chatId m s with
              | Returns (s', out) => (putSession chatId s' st, out)
              | Throws _ =>
                  (endSession chatId st,
                   [console_error "session error";
                    sendMessage chatId "Error occurred, session canceled"])
              end
        end.

(** *** Quick add *)

(** [s.split(c)] *)
Fixpoint split_char (c : ascii) (s : string) : list string :=
  match s with
  | EmptyString => [EmptyString]
  | String a r =>
      let l := split_char c r in
      if Ascii.eqb a c then EmptyString :: l
      else match l with
           | h :: t => String a h :: t
           | [] => [String a EmptyString]
           end
  end.

Definition latlng_sep (c : ascii) : bool :=
  Str.is_char " " c || Str.is_char "," c || Str.is_char ";" c.

Fixpoint split_runs_from (in_sep : bool) (s : string) : list string :=
  match s with
  | EmptyString => [EmptyString]
  | String a r =>
      if latlng_sep a
      then if in_sep then split_runs_from true r
           else EmptyString :: split_runs_from true r
      else match split_runs_from false r with
           | h :: t => String a h :: t
           | [] => [String a EmptyString]
           end
  end.

(** [latlng.split(/[ ,;]+/)] *)
Definition split_latlng (s : string) : list string := split_runs_from false s.

(** the record stored for an item: what [JSON] keeps of it *)
Definition Activity_of_item (item : Item.t) : Activity.t :=
  Activity.mk (Some (Item.id item)) (Item.title item) (Item.note item) None
              (Item.activity_type item) None (Some (DIso (Item.date item))) None
              (Item.count item) (Item.location item)
              (Item.lat item) None (Item.lng item) None
              (Item.attachment_url item) (Item.attachment_type item)
              (Some (Item.attachment item)).

(** a coordinate read by [Number]: [NaN] is kept as [null], which is
    what the JSON file holds for it *)
Definition coordinate (x : string) : nullable Q :=
  match jsNumber x with
  | Some q => value q
  | None => null
  end.

(** the item of [/add]; it has no type and no attachment *)
Definition add_item (e : env) (match1 : string) : Item.t :=
  let parts := map Str.trim (split_char "|" (Str.trim match1)) in
  let part k := nth_error parts k in
  let countStr := part 2%nat in
  let latlng := part 4%nat in
  let m := if truthy latlng then split_latlng (default EmptyString latlng) else [] in
  let has_coords := (2 <=? length m)%nat in
  Item.mk (random_id e)
          (Some (or_else (part 0%nat) "Activity"))
          None
          (safeDateISO_at e (DText (or_else (part 1%nat) EmptyString)))
          (Some (if truthy countStr
                 then match jsNumber (default EmptyString countStr) with
                      | Some q => CNum q
                      | None => CText (default EmptyString countStr)
                      end
                 else CNull))
          (Some (or_else (part 3%nat) EmptyString))
          (if has_coords then Some (coordinate (nth 0 m EmptyString)) else None)
          (if has_coords then Some (coordinate (nth 1 m EmptyString)) else None)
          (Some (or_else (part 5%nat) EmptyString))
          null None None.

(** [bot.onText(/\/add(\s+[\s\S]+)/i, ...)] with the group it captured *)
Definition onText_add (e : env) (m : Msg.t) (match1 : string) (st : state)
  : state * list call :=
  let chatId := Msg.chat_id m in
  if negb (isAllowed (Msg.from_id m)) then (st, [sendMessage chatId "Not authorized"])
  else
    let item := add_item e match1 in
    let added := [sendMessage chatId ("Added: " ++ default EmptyString (Item.title item))] in
    if dbEnabled then
      match insertActivityToDb e st item with
      | Returns (st', _) => (st', added)
      | Throws err =>
          (st, [console_error "Add failed"; sendMessage chatId ("Add failed: " ++ err)])
      end
    else
      (set_activities (sort_by_date (activities st ++ [Activity_of_item item])) st, added).

(** *** The other commands *)

Definition onText_start (m : Msg.t) (st : state) : state * list call :=
  (st, [sendMainMenu (Msg.chat_id m)]).

Definition onText_help (m : Msg.t) (st : state) : state * list call :=
  (st, [sendHelp (Msg.chat_id m)]).

Definition onText_new (m : Msg.t) (st : state) : state * list call :=
  beginGuidedFlow (Msg.chat_id m) (Msg.from_id m) st.

Definition onText_cancel (m : Msg.t) (st : state) : state * list call :=
  cancelCommand (Msg.chat_id m) st.

(** [bot.onText(/\/skip(?:@\w+)?/i, ...)] *)
Definition onText_skip (e : env) (m : Msg.t) (st : state) : state * list call :=
  onSession (Msg.chat_id m) st (handleSkip e (Msg.chat_id m)) [].

(** [bot.onText(/\/back(?:@\w+)?/i, ...)] *)
Definition onText_back (m : Msg.t) (st : state) : state * list call :=
  onSession (Msg.chat_id m) st (goBack (Msg.chat_id m)) [].

Definition onText_edit (e : env) (m : Msg.t) (match1 : option string) (st : state)
  : state * list call :=
  beginEditFlow e (Msg.chat_id m) (Msg.from_id m) match1 st.

Definition onText_delete (e : env) (m : Msg.t) (match1 : option string) (st : state)
  : state * list call :=
  handleDeleteById e (Msg.chat_id m) (Msg.from_id m) match1 st.

(** [bot.onText(/\/list(?:\s+(\d+))?\b/i, ...)] with the digits it
    captured, if any *)
Definition onText_list (m : Msg.t) (match1 : option string) (st : state)
  : state * list call :=
  (st, [sendRecentListPage (Msg.chat_id m)
          (if truthy match1
           then inject_Z (Z.max 1 (Number_digits (default EmptyString match1)) - 1)
           else 0%Q)
          None]).

(** *** Commit *)

(** [ensurePublicAttachmentUrl]: best effort; a failed upload is
    logged and changes nothing. *)
Definition ensurePublicAttachmentUrl (e : env) (item : Item.t) : Item.t :=
  match Item.attachment item with
  | null => item
  | value att =>
      if truthy (Attachment.webPath att)
         && is_http_url (default EmptyString (Attachment.webPath att))
      then item
      else if negb (truthy (Attachment.path att))
              || negb (existsSync e (default EmptyString (Attachment.path att)))
      then item
      else if negb r2Enabled then item
      else match r2_upload e (default EmptyString (Attachment.path att)) with
           | Some url =>
               Item.set_public url (or_else (Attachment.type att) "photo")
                 (Item.set_attachment (value (Attachment.set_webPath url att)) item)
           | None => item
           end
  end.

(** the [webPath] the confirm callback makes sure of first *)
Definition ensure_webPath (item : Item.t) : Item.t :=
  match Item.attachment item with
  | value att =>
      if truthy (Attachment.path att) && negb (truthy (Attachment.webPath att))
      then Item.set_attachment
             (value (Attachment.set_webPath
                       (uploads_webPath (default EmptyString (Attachment.path att))) att))
             item
      else item
  | null => item
  end.

(** [arr[idx] = x] at the first index that satisfies [p] *)
Fixpoint replace_first (p : Activity.t -> bool) (x : Activity.t) (l : list Activity.t)
  : list Activity.t :=
  match l with
  | [] => []
  | a :: r => if p a then x :: r else a :: replace_first p x r
  end.

(** the file after the confirm callback *)
Definition commit_file (m : mode) (item : Item.t) (arr : list Activity.t)
  : list Activity.t :=
  let x := Activity_of_item item in
  sort_by_date
    match m with
    | edit =>
        if existsb (id_is (Item.id item)) arr
        then replace_first (id_is (Item.id item)) x arr
        else arr ++ [x]
    | create => arr ++ [x]
    end.

(** the store after the confirm callback, and the item as announced *)
Definition persist (e : env) (m : mode) (item : Item.t) (st : state)
  : outcome (state * Item.t) :=
  if dbEnabled then
    match m with
    | edit =>
        r ← updateActivityInDb e st (Item.id item) item;
        Returns (fst r, item)
    | create =>
        r ← insertActivityToDb e st item;
        Returns (fst r, match snd r with
                        | Some newId => Item.set_id newId item
                        | None => item
                        end)
    end
  else Returns (set_activities (commit_file m item (activities st)) st, item).

Definition confirm (e : env) (cq : Callback.t) (session : Session.t) (st : state)
  : state * list call :=
  let chatId := Callback.chat_id cq in
  match Session.pending session with
  | None => (st, [answerCallbackQuery "Nothing to confirm."])
  | Some item0 =>
      let item := ensurePublicAttachmentUrl e (ensure_webPath item0) in
      match persist e (Session.mode session) item st with
      | Returns (st', item') =>
          (endSession chatId st',
           [editMessageReplyMarkup chatId (Callback.message_id cq);
            announceToChannelIfConfigured item'
              (match Session.mode session with edit => "#AU" | create => "#NA" end);
            sendSavedMessage chatId item' (Session.mode session);
            answerCallbackQuery "Saved"])
      | Throws err =>
          (putSession chatId (Session.set_pending (Some item) session) st,
           [console_error "callback_query error"])
      end
  end.

(** *** Button presses *)

Definition after (p s : string) : string := Str.drop (String.length p) s.

(** [Number(String(data.split(':')[1] || '').trim())], or 0 when that
    is no finite number *)
Definition callback_page (data : string) : Q :=
  default 0%Q (jsNumber (Str.trim (or_else (nth_error (split_char ":" data) 1) EmptyString))).

Definition edit_field (data : string) : option Step.t :=
  if String.eqb data "_edit_field_title" then Some Step.title
  else if String.eqb data "_edit_field_type" then Some Step.type
  else if String.eqb data "_edit_field_date" then Some Step.date
  else if String.eqb data "_edit_field_count" then Some Step.count
  else if String.eqb data "_edit_field_location" then Some Step.location
  else if String.eqb data "_edit_field_attachment" then Some Step.attachment
  else if String.eqb data "_edit_field_note" then Some Step.note
  else None.

Definition field_label (st : Step.t) : string :=
  match st with
  | Step.title => "Title" | Step.type => "Type" | Step.date => "Date"
  | Step.count => "Count" | Step.location => "Location"
  | Step.attachment => "Attachment" | Step.note => "Note"
  | Step.confirming | Step.edit_menu => EmptyString
  end.

Definition with_answer (text : string) (r : state * list call) : state * list call :=
  (fst r, answerCallbackQuery text :: snd r).

(** the part of the callback handler that needs a session *)
Definition onSessionCallback (e : env) (cq : Callback.t) (session : Session.t) (st : state)
  : state * list call :=
  let chatId := Callback.chat_id cq in
  let data := Callback.data cq in
  if Str.startsWith "_set_type:" data then
    let t := normalizeActivityType (Some (Str.trim (after "_set_type:" data))) in
    let s1 := Session.update (Data.set_activity_type (Some t)) session in
    let s2 := if Step.eqb (Session.step s1) Step.type
              then Session.set_step Step.date s1 else s1 in
    (putSession chatId s2 st,
     answerCallbackQuery (if Str.is_empty t then "Type cleared" else "Type: " ++ t)
     :: promptForStep chatId s2)
  else if String.eqb data "_edit_cancel" then
    (endSession chatId st, [answerCallbackQuery "Canceled"; sendMessage chatId "Edit canceled."])
  else if String.eqb data "_edit_all" then
    let s1 := Session.set_step Step.title (Session.set_editMode (Some guided) session) in
    (putSession chatId s1 st, answerCallbackQuery "Edit all" :: promptForStep chatId s1)
  else if String.eqb data "_edit_preview" then
    let '(s1, out) := sendPreview e chatId session in
    (putSession chatId s1 st, answerCallbackQuery "Preview" :: out)
  else
    match edit_field data with
    | Some field =>
        let s1 := Session.set_step field (Session.set_editMode (Some menu) session) in
        (putSession chatId s1 st,
         answerCallbackQuery (field_label field) :: promptForStep chatId s1)
    | None =>
        if String.eqb data "_confirm" then confirm e cq session st
        else if String.eqb data "_cancel" then
          (endSession chatId st,
           [editMessageReplyMarkup chatId (Callback.message_id cq);
            sendMessage chatId "Activity creation canceled.";
            answerCallbackQuery "Canceled"])
        else (st, [answerCallbackQuery "Unknown action"])
    end.

(** [bot.on('callback_query', ...)] *)
Definition onCallback (e : env) (cq : Callback.t) (st : state) : state * list call :=
  let chatId := Callback.chat_id cq in
  let data := Callback.data cq in
  if String.eqb data "_menu_new"
  then with_answer "New activity" (beginGuidedFlow chatId (Callback.from_id cq) st)
  else if String.eqb data "_menu_list"
  then (st, [answerCallbackQuery "Listing"; sendRecentListPage chatId 0%Q None])
  else if String.eqb data "_menu_help"
  then (st, [answerCallbackQuery "Help"; sendHelp chatId])
  else if String.eqb data "_menu_edit"
  then (set_pendingMenu (<[chatId := menu_edit]> (pendingMenuActionByChatId st)) st,
        [answerCallbackQuery "Edit";
         sendMessage chatId "Send the activity ID to edit (get it from /list)."])
  else if String.eqb data "_menu_delete"
  then (set_pendingMenu (<[chatId := menu_delete]> (pendingMenuActionByChatId st)) st,
        [answerCallbackQuery "Delete";
         sendMessage chatId "Send the activity ID to delete (get it from /list)."])
  else if String.eqb data "_menu_cancel"
  then with_answer "Canceled" (cancelCommand chatId st)
  else if Str.startsWith "_list_page:" data
  then (st, [answerCallbackQuery "Loading";
             sendRecentListPage chatId (callback_page data) (Some (Callback.message_id cq))])
  else if Str.startsWith "_list_refresh:" data
  then (st, [answerCallbackQuery "Refreshing";
             sendRecentListPage chatId (callback_page data) (Some (Callback.message_id cq))])
  else if String.eqb data "_list_close"
  then (st, [answerCallbackQuery "Closed"; deleteMessage chatId (Callback.message_id cq)])
  else if Str.startsWith "_list_edit:" data
  then with_answer "Edit"
         (beginEditFlow e chatId (Callback.from_id cq)
            (Some (Str.trim (after "_list_edit:" data))) st)
  else if Str.startsWith "_list_delete:" data
  then with_answer "Deleting"
         (handleDeleteById e chatId (Callback.from_id cq)
            (Some (Str.trim (after "_list_delete:" data))) st)
  else
    match sessions st !! chatId with
    | None => (st, [answerCallbackQuery "Session expired."])
    | Some session => onSessionCallback e cq session st
    end.

End Bot.

(** ** Notions of the specification *)

Module Spec.
Import Str.

Definition no_digit (c : ascii) : bool := negb (is_digit c).

(** the string is empty or starts outside the class *)
Definition stops (cls : ascii -> bool) (s : string) : bool :=
  match s with
  | EmptyString => true
  | String c _ => negb (cls c)
  end.

(** the remainder is empty or a unit *)
Definition unit_only (remainder : string) : bool :=
  is_empty remainder || String.eqb remainder "mushaf" || String.eqb remainder "mushafs".

(** [t] is [pre], then a run that starts at the first digit of [t] and
    goes on as long as digits, commas, dots, underscores and spaces do,
    then [post]. *)
Definition digit_run (t pre run post : string) : Prop :=
  t = pre ++ run ++ post
  /\ all no_digit pre = true
  /\ stops is_digit run = false
  /\ all count_run run = true
  /\ stops count_run post = true.

(** the instant the groups of the regex stage denote *)
Definition ymd_time (g : string * string * string * option (string * string)) : Z :=
  let '(g1, g2, g3, g45) := g in
  JsDate.MakeDate
    (JsDate.MakeDay (JsDate.MakeFullYear (Number_digits g1))
                    (Number_digits g2 - 1) (Number_digits g3))
    (JsDate.MakeTime
       (match g45 with Some (g4, _) => Number_digits g4 | None => 0 end)
       (match g45 with Some (_, g5) => Number_digits g5 | None => 0 end)
       0 0).

(** The order of resolution, in the words of the specification: the
    keyword, then the direct parse, then the parse with the first space
    turned into [T], then the structured form, then failure. *)
Definition resolution_order (dateParse : string -> option Z) (now : Z) (s : string)
  : isoText :=
  if is_now_keyword (toLowerCase (trim s)) then Iso now
  else match dateParse s with
       | Some v => Iso v
       | None =>
           match dateParse (replaceFirst " " "T" s) with
           | Some v => Iso v
           | None =>
               match match_ymd s with
               | Some g => Iso (ymd_time g)
               | None => EmptyText
               end
           end
       end.

(** The button presses that act on the session of the chat. *)
Definition acts_on_session (data : string) : bool :=
  String.eqb data "_menu_new" || String.eqb data "_menu_cancel"
  || Str.startsWith "_set_type:" data
  || String.eqb data "_edit_cancel" || String.eqb data "_edit_all"
  || String.eqb data "_edit_preview"
  || bool_decide (is_Some (edit_field data))
  || String.eqb data "_confirm" || String.eqb data "_cancel".

(** A message that reaches the step machine: new (not an edit of an
    earlier one) and neither a backslash command nor a slash command. *)
Definition reaches_step_machine (m : Msg.t) : bool :=
  negb (Msg.edit_date m)
  && negb (Str.startsWith "\" (default EmptyString (Msg.text m)))
  && negb (is_command (Msg.text m)).

(** A text typed in answer to the date prompt: not empty once trimmed,
    and not the skip token. *)
Definition date_text (m : Msg.t) : bool :=
  reaches_step_machine m
  && negb (Str.is_empty (text_trim m))
  && negb (isSkipText (Some (text_trim m))).

(** A location typed as free text: a text that is not the skip token nor
    one of the two labels of the location keyboard, in a message that
    shares no location. *)
Definition free_text_location (m : Msg.t) : bool :=
  reaches_step_machine m
  && negb (isSkipText (Msg.text m))
  && bool_decide (Msg.location m = None)
  && truthy (Msg.text m)
  && negb (String.eqb (default EmptyString (Msg.text m)) "Send my location")
  && negb (String.eqb (default EmptyString (Msg.text m)) "Type location").

(** A text the date step resolves without the clock: not blank, not the
    skip token, not a keyword of the current time, and one the parser
    finds a date in. *)
Definition dated_without_clock (dateParse : string -> option Z) (m : Msg.t) : bool :=
  let raw := text_trim m in
  negb (Str.is_empty raw)
  && negb (isSkipText (Some raw))
  && negb (is_now_keyword (Str.toLowerCase (Str.trim raw)))
  && match parseFlexibleDate dateParse 0 raw with
     | Returns (Iso _) => true
     | _ => false
     end.

(** What the step machine reads of the collaborators for the draft, and
    that they answer [e'] as they answered [e]: the clock at the date
    step, unless the text is resolved without it; the geocoder, asked
    for the typed text, at the location step; the download at the
    attachment step; nothing at the other steps. *)
Definition draft_answers_alike (dateParse : string -> option Z) (m : Msg.t)
  (stp : Step.t) (e e' : env) : Prop :=
  match stp with
  | Step.date => dated_without_clock dateParse m = true \/ now e' = now e
  | Step.location => geocodeLocation e' (text_trim m) = geocodeLocation e (text_trim m)
  | Step.attachment => forall f, downloadFile e' f = downloadFile e f
  | _ => True
  end.

(** The same, and what the preview that ends the note step reads
    besides: the clock, the random id and the file system. *)
Definition answers_alike (dateParse : string -> option Z) (m : Msg.t)
  (stp : Step.t) (e e' : env) : Prop :=
  draft_answers_alike dateParse m stp e e'
  /\ (stp = Step.note ->
      now e' = now e /\ random_id e' = random_id e
      /\ forall p, existsSync e' p = existsSync e p).

End Spec.

(** ** Concrete runs *)

Module Run.

(** what follows the last slash of [p] *)
Fixpoint basename (acc p : string) : string :=
  match p with
  | EmptyString => acc
  | String "/" r => basename EmptyString r
  | String c r => basename (acc ++ String c EmptyString) r
  end.

(** insertion into a list sorted by [key], after the equal keys *)
Fixpoint insert_by_date (key : Activity.t -> Z) (a : Activity.t) (l : list Activity.t)
  : list Activity.t :=
  match l with
  | [] => [a]
  | b :: r => if key a <? key b then a :: l else b :: insert_by_date key a r
  end.

Definition date_key (a : Activity.t) : Z :=
  match Activity.date a with
  | Some (DIso v) => v
  | _ => 0
  end.

(** A configuration to run the handlers on: the reference [Date.parse],
    numbers printed and read as plain decimal digits, the uploads
    directory as a relative path, a stable sort of the file by date, no
    object storage. *)
Definition config (allowed : list (option Z)) (db : bool) : Config.t :=
  Config.mk refDateParse
            (fun q => DecimalString.NilZero.string_of_int (Z.to_int (Qnum q)))
            (fun x => if Str.is_empty x then Some 0%Q
                      else if Str.all Str.is_digit x then Number_decimal x else None)
            (fun name => "uploads/" ++ name)
            (fun p => "telegram-bot/uploads/" ++ basename EmptyString p)
            (fun l => fold_right (insert_by_date date_key) [] l)
            allowed db false.

(** The clock reads 2026-01-01T00:00:00Z; the geocoder finds nothing. *)
Definition world : env :=
  mkEnv 1767225600000 "a-k3v9x2p1" (fun _ => None) (fun _ => true) (fun _ => true)
        None "0b5e3c1a-7d24-4f6e-9a10-5c2d8e7f4b31" (fun _ => None).

Definition text (chat from : Z) (t : string) : Msg.t :=
  Msg.mk chat from (Some t) None None [] None false.

Definition press (chat from : Z) (data : string) : Callback.t :=
  Callback.mk chat from 100 data.

(** A stored activity with a count of 1200 and coordinates. *)
Definition stored : Activity.t :=
  Activity.mk (Some "a-1") (Some "Quran distribution") None None None None
              (Some (DIso 1766188800000)) None (Some (CNum (1200 # 1)))
              (Some "Kuala Lumpur") (Some (value (3 # 1))) None
              (Some (value (101 # 1))) None None None None.

Definition start : state := mkState ∅ ∅ [stored] [].

(** The draft [/edit a-1] seeds. *)
Definition seeded : Data.t :=
  Data.mk (Some "a-1") (Some "Quran distribution") None (Some 1766188800000) None
          (Some (CNum (1200 # 1))) (Some "Kuala Lumpur")
          (Some (value (3 # 1))) (Some (value (101 # 1))) (Some EmptyString) None.

(** The session of chat 7, owned by sender 42, editing the stored
    activity step by step. *)
Definition editing (st : Step.t) : Session.t :=
  Session.mk 42 edit (Some guided) st seeded None.

Definition at_step (st : Step.t) : state := mkState {[7 := editing st]} ∅ [stored] [].

Definition open_to_all : Config.t := config [] false.

(** [/edit a-1], then the button [Edit all (guided)]: the session is at
    the title step. *)
Definition after_edit_all : state :=
  fst (onCallback open_to_all world (press 7 42 "_edit_all")
         (fst (onText_edit open_to_all world (text 7 42 "/edit a-1") (Some "a-1") start))).

(** the text [skip] typed [n] times *)
Fixpoint skips (n : nat) (st : state) : state :=
  match n with
  | O => st
  | S k => fst (onMessage open_to_all world (text 7 42 "skip") (skips k st))
  end.

(** the session of chat 7 after the preview: confirming *)
Definition previewed : Session.t :=
  Session.mk 42 edit (Some guided) Step.confirming seeded
    (Some (Item.mk "a-1" (Some "Quran distribution") None 1766188800000
                   (Some (CNum (1200 # 1))) (Some "Kuala Lumpur")
                   (Some (value (3 # 1))) (Some (value (101 # 1))) (Some EmptyString)
                   null None None)).

Definition confirming_state : state := mkState {[7 := previewed]} ∅ [stored] [].

(** a row of the table with the id [i] *)
Definition row (i : string) : Activity.t :=
  Activity.mk (Some i) (Some "Activity") None None None None
              (Some (DIso 1766188800000)) None (Some CNull) None
              (Some null) None (Some null) None None None None.

(** two rows whose ids share their first five digits *)
Definition two_rows : state :=
  mkState ∅ ∅ []
    [row "abcde111-1111-4111-8111-111111111111";
     row "abcde222-2222-4222-8222-222222222222"].

(** two rows whose ids share their first six digits *)
Definition two_rows_6 : state :=
  mkState ∅ ∅ []
    [row "abcdef11-1111-4111-8111-111111111111";
     row "abcdef22-2222-4222-8222-222222222222"].

(** the same collaborators one minute later *)
Definition later : env :=
  mkEnv 1767225660000 "a-k3v9x2p1" (fun _ => None) (fun _ => true) (fun _ => true)
        None "0b5e3c1a-7d24-4f6e-9a10-5c2d8e7f4b31" (fun _ => None).

End Run.

(** ** Keyboards, the recent list and the rendering helpers *)

(** The [callback_data] of the buttons of an inline keyboard, row by
    row.  The labels of the buttons are not rendered. *)
Definition keyboard : Type := list (list string).

(** the keyboard of [sendMainMenu] *)
Definition mainMenuKeyboard : keyboard :=
  [["_menu_new"; "_menu_list"];
   ["_menu_edit"; "_menu_delete"];
   ["_menu_help"];
   ["_menu_cancel"]].

(** [activityTypeKeyboard], which [promptForStep] sends with the prompt
    of the type step *)
Definition activityTypeKeyboard : keyboard :=
  [["_set_type:transit"; "_set_type:arrival"];
   ["_set_type:distribution"; "_set_type:class"];
   ["_set_type:completion"; "_set_type:update"]].

(** the keyboard of the field menu, in [promptForStep] *)
Definition editMenuKeyboard : keyboard :=
  [["_edit_field_title"; "_edit_field_type"; "_edit_field_date"];
   ["_edit_field_count"; "_edit_field_location"; "_edit_field_attachment"];
   ["_edit_field_note"];
   ["_edit_preview"];
   ["_edit_all"; "_edit_cancel"]].

(** the keyboard of [sendPreview] *)
Definition previewKeyboard : keyboard := [["_confirm"; "_cancel"]].

Definition RECENT_LIST_PAGE_SIZE : nat := 6.

(** [arr.slice(start, end)] on indices that are whole numbers *)
Definition slice {A : Type} (start stop : nat) (l : list A) : list A :=
  take (stop - start) (drop start l).

(** What [fetchRecentListPage] returns. *)
Module ListPage.
Record t : Type := mk {
  rows : list Activity.t;
  page : nat;
  hasNext : bool
}.
End ListPage.

(** the columns the list query selects *)
Definition listed (a : Activity.t) : Activity.t :=
  Activity.mk (Activity.id a) (Activity.title a) None None None None
              (Activity.date a) None (Activity.count a) (Activity.location a)
              None None None None None None None.

(** [String(r && r.id ? r.id : '').trim()] *)
Definition list_row_id (r : Activity.t) : string :=
  Str.trim (or_else (Activity.id r) EmptyString).

Section Lists.

Variable cfg : Config.t.

(** The order of the recent list, newest first: the engine's sort of the
    file with the comparator of [fetchRecentListPage], and the order the
    [ORDER BY] of its query gives the rows of the table. *)
Variable newest_first : list Activity.t -> list Activity.t.

(** [fetchRecentListPage], for a page index that is a whole number: the
    command [/list], the menu and the buttons of the list itself make no
    other. *)
Definition fetchRecentListPage (e : env) (st : state) (pageIndex : nat)
  : outcome ListPage.t :=
  let pageSize := RECENT_LIST_PAGE_SIZE in
  let offset := (pageIndex * pageSize)%nat in
  if Config.dbEnabled cfg then
    rowsAll ← query e (map listed (take (pageSize + 1) (drop offset (newest_first (db st)))));
    Returns (ListPage.mk (slice 0 pageSize rowsAll) pageIndex
                        (pageSize <? length rowsAll)%nat)
  else
    let sorted := newest_first (activities st) in
    let rowsAll := slice offset (offset + pageSize + 1) sorted in
    Returns (ListPage.mk (slice 0 pageSize rowsAll) pageIndex
                        (pageSize <? length rowsAll)%nat).

(** the number of a page, printed *)
Definition page_text (p : Z) : string := Config.Number_toString cfg (inject_Z p).

(** [buildRecentListKeyboard] *)
Definition buildRecentListKeyboard (rows : list Activity.t) (page : nat) (hasNext : bool)
  : keyboard :=
  let p := Z.of_nat page in
  let items :=
    flat_map (fun r =>
                let id := list_row_id r in
                if Str.is_empty id then []
                else [["_list_edit:" ++ id; "_list_delete:" ++ id]])
             rows in
  let prev := if 0 <? p then ["_list_page:" ++ page_text (p - 1)] else [] in
  let next := if hasNext then ["_list_page:" ++ page_text (p + 1)] else [] in
  let nav := app prev (app next ["_list_refresh:" ++ page_text p; "_list_close"]) in
  app items [nav].

End Lists.

(** [[_*\[\]()`~>#+-=|{}.!]]: in the class, [+-=] is the range from the
    plus sign to the equals sign, which holds the comma, the hyphen, the
    dot, the slash, the digits, the colon, the semicolon and the
    less-than sign. *)
Definition markdown_special (c : ascii) : bool :=
  existsb (Ascii.eqb c) (list_ascii_of_string "_*[]()`~>#|{}.!")
  || ((Str.code "+" <=? Str.code c) && (Str.code c <=? Str.code "=")).

(** [s.replace(/([class])/g, '\\$1')] *)
Fixpoint escape_class (cls : ascii -> bool) (s : string) : string :=
  match s with
  | EmptyString => EmptyString
  | String c r =>
      if cls c then String "\" (String c (escape_class cls r))
      else String c (escape_class cls r)
  end.

Definition escapeMarkdown (text : option string) : string :=
  if truthy text then escape_class markdown_special (default EmptyString text)
  else EmptyString.

(** [simplifyPlaceName] *)
Definition simplifyPlaceName (s : option string) : string :=
  let t := normalizeText s in
  if Str.is_empty t then EmptyString
  else Str.trim (hd EmptyString (split_char "," t)).

(** ** Notions of the further properties *)

Module Law.

(** The sessions and the pending menu prompts of the chats other than
    [chat] are the same in both states. *)
Definition local_to (chat : Z) (st st' : state) : Prop :=
  forall c, c <> chat ->
    sessions st' !! c = sessions st !! c
    /\ pendingMenuActionByChatId st' !! c = pendingMenuActionByChatId st !! c.

(** The attachment is the same but for its [webPath]. *)
Definition same_file (a a' : option (nullable Attachment.t)) : Prop :=
  a' = a
  \/ exists x w, a = Some (value x) /\ a' = Some (value (Attachment.set_webPath w x)).

(** The draft [d'] differs from [d] in the fields of the step only:
    the date step owns [date] and [dateRaw], the location step the
    location and the coordinates, and the note step, which ends in the
    preview, the note and the [webPath] of the attachment. *)
Definition writes (st : Step.t) (d d' : Data.t) : Prop :=
  match st with
  | Step.title => d' = Data.set_title (Data.title d') d
  | Step.type => d' = Data.set_activity_type (Data.activity_type d') d
  | Step.date => d' = Data.set_dateRaw (Data.dateRaw d') (Data.set_date (Data.date d') d)
  | Step.count => d' = Data.set_count (Data.count d') d
  | Step.location =>
      d' = Data.set_lng (Data.lng d')
             (Data.set_lat (Data.lat d') (Data.set_location (Data.location d') d))
  | Step.attachment => d' = Data.set_attachment (Data.attachment d') d
  | Step.note =>
      d' = Data.set_attachment (Data.attachment d') (Data.set_note (Data.note d') d)
      /\ same_file (Data.attachment d) (Data.attachment d')
  | Step.confirming | Step.edit_menu => d' = d
  end.

(** A session that is confirming has a pending record. *)
Definition session_ready (s : Session.t) : Prop :=
  Session.step s = Step.confirming -> is_Some (Session.pending s).

Definition pending_ready (st : state) : Prop :=
  map_Forall (fun _ s => session_ready s) (sessions st).

(** What the handler of an event of [chat] may do to the two tables:
    nothing outside the entries of the chat, and a session it writes
    there is ready if the one it found was. *)
Definition touches (chat : Z) (st st' : state) : Prop :=
  local_to chat st st'
  /\ forall s', sessions st' !! chat = Some s' ->
       (forall s, sessions st !! chat = Some s -> session_ready s) ->
       session_ready s'.

(** The file and the table are the same in both states, and a chat
    without a session in the first has none in the second. *)
Definition writes_nothing (chat : Z) (st st' : state) : Prop :=
  activities st' = activities st
  /\ db st' = db st
  /\ (sessions st !! chat = None -> sessions st' !! chat = None).

(** The handlers of the transport, but for the callback handler, on a
    message. *)
Definition message_handlers (cfg : Config.t) (e : env) (m : Msg.t)
  (arg : option string) (match1 : string) : list (state -> state * list call) :=
  [onMessage cfg e m; onText_add cfg e m match1; onText_start m; onText_help m;
   onText_new cfg m; onText_cancel m; onText_skip cfg e m; onText_back m;
   onText_edit cfg e m arg; onText_delete cfg e m arg; onText_list m arg].

Definition no_space (c : ascii) : bool := negb (Str.is_space c).

Definition not_char (a : ascii) (c : ascii) : bool := negb (Str.is_char a c).

Definition no_underscore (w : string) : bool :=
  Str.all (fun c => negb (Str.is_char "_" c)) w.

(** a backslash is dropped and the character after it kept *)
Fixpoint unescape (s : string) : string :=
  match s with
  | EmptyString => EmptyString
  | String c r =>
      if Str.is_char "\" c
      then match r with
           | EmptyString => EmptyString
           | String c' r' => String c' (unescape r')
           end
      else String c (unescape r)
  end.

End Law.

(** * Properties *)

(** ** Strings *)

Module StrFacts.
Import Str Spec.



Lemma startsWith_app (p s : string) : startsWith p (p ++ s) = true.
Proof.
  induction p as [|c p IH]; simpl; [reflexivity|].
  rewrite Ascii.eqb_refl. exact IH.
Qed.

Lemma drop_app (p s : string) : drop (String.length p) (p ++ s) = s.
Proof. induction p as [|c p IH]; simpl; [reflexivity|exact IH]. Qed.

Lemma seek_skip (cls : ascii -> bool) (pre s : string) :
  all (fun c => negb (cls c)) pre = true -> seek cls (pre ++ s) = seek cls s.
Proof.
  induction pre as [|c pre IH]; simpl; [reflexivity|].
  intros H. apply andb_prop in H as [Hc Hr].
  apply negb_true_iff in Hc. rewrite Hc. auto.
Qed.

Lemma seek_none (cls : ascii -> bool) (s : string) :
  all (fun c => negb (cls c)) s = true -> seek cls s = None.
Proof.
  induction s as [|c s IH]; simpl; [reflexivity|].
  intros H. apply andb_prop in H as [Hc Hr].
  apply negb_true_iff in Hc. rewrite Hc. auto.
Qed.

Lemma span_stops (cls : ascii -> bool) (s : string) :
  stops cls s = true -> span cls s = (EmptyString, s).
Proof.
  destruct s as [|c s]; simpl; [reflexivity|].
  intros H. apply negb_true_iff in H. rewrite H. reflexivity.
Qed.

Lemma span_app (cls : ascii -> bool) (run post : string) :
  all cls run = true -> stops cls post = true ->
  span cls (run ++ post) = (run, post).
Proof.
  intros Hrun Hpost. induction run as [|c run IH]; simpl.
  - apply span_stops, Hpost.
  - simpl in Hrun. apply andb_prop in Hrun as [Hc Hr].
    rewrite Hc, (IH Hr). reflexivity.
Qed.

Lemma replaceFirst_eq (pat repl s : string) :
  replaceFirst pat repl s =
    if startsWith pat s then repl ++ drop (String.length pat) s
    else match s with
         | EmptyString => EmptyString
         | String c r => String c (replaceFirst pat repl r)
         end.
Proof. destruct s; reflexivity. Qed.

(** the first occurrence of a run that starts with a digit cannot be
    inside a prefix without digits *)
Lemma replaceFirst_after (pre run post : string) :
  all no_digit pre = true -> stops is_digit run = false ->
  replaceFirst run EmptyString (pre ++ run ++ post) = pre ++ post.
Proof.
  intros Hpre Hrun. destruct run as [|d r]; [discriminate|].
  simpl in Hrun. apply negb_false_iff in Hrun.
  induction pre as [|c pre IH].
  - change (EmptyString ++ String d r ++ post) with (String d r ++ post).
    rewrite replaceFirst_eq, startsWith_app, drop_app. reflexivity.
  - simpl in Hpre. apply andb_prop in Hpre as [Hc Hp].
    change (String c pre ++ String d r ++ post)
      with (String c (pre ++ String d r ++ post)).
    rewrite replaceFirst_eq. cbn [startsWith].
    assert (Hne : Ascii.eqb d c = false).
    { apply Ascii.eqb_neq. intros Heq. subst c. unfold no_digit in Hc.
      rewrite Hrun in Hc. discriminate Hc. }
    rewrite Hne. simpl. rewrite (IH Hp). reflexivity.
Qed.

End StrFacts.

(** ** The count parser *)

Module CountFacts.
Import Str Spec StrFacts.



Lemma digit_run_match (t pre run post : string) :
  digit_run t pre run post ->
  count_digitMatch t = Some run
  /\ replaceFirst run EmptyString t = pre ++ post.
Proof.
  intros (-> & Hpre & Hd & Hrun & Hpost). split.
  - unfold count_digitMatch. rewrite (seek_skip is_digit pre _ Hpre).
    destruct run as [|d r]; [discriminate|].
    simpl in Hd. apply negb_false_iff in Hd.
    change (String d r ++ post) with (String d (r ++ post)).
    cbn [seek]. rewrite Hd.
    change (String d (r ++ post)) with (String d r ++ post).
    rewrite (span_app count_run _ _ Hrun Hpost). reflexivity.
  - apply replaceFirst_after; assumption.
Qed.

(** what the parser does once the input is neither empty, nor the skip
    token, nor all zeros *)
Lemma parseCountInput_run (raw : option string) (pre run post : string) :
  let t := normalizeText raw in
  isSkipText (Some t) = false ->
  all_zeros (remove count_separator t) = false ->
  digit_run t pre run post ->
  parseCountInput raw =
    match Number_decimal (remove not_digit_or_dot run) with
    | Some n =>
        if Number_isFinite n && unit_only (toLowerCase (trim (pre ++ post)))
        then CNum n else CText t
    | None => CText t
    end.
Proof.
  intros t Hskip Hzero Hrun.
  destruct (digit_run_match _ _ _ _ Hrun) as [Hm Hr].
  assert (Hne : is_empty t = false).
  { destruct Hrun as (Ht & _ & Hd & _). rewrite Ht.
    destruct pre; [destruct run; [discriminate|reflexivity]|reflexivity]. }
  unfold parseCountInput. fold t.
  rewrite Hne, Hskip, Hzero, Hm. cbn [orb].
  destruct (Number_decimal _) as [n|]; [|reflexivity].
  rewrite Hr. unfold unit_only.
  destruct (Number_isFinite n); reflexivity.
Qed.

Lemma parseCountInput_no_digit (raw : option string) :
  let t := normalizeText raw in
  is_empty t = false ->
  isSkipText (Some t) = false ->
  all no_digit t = true ->
  parseCountInput raw = CText t.
Proof.
  intros t Hne Hskip Hnd. unfold parseCountInput. fold t.
  rewrite Hne, Hskip. cbn [orb].
  destruct (all_zeros _) eqn:Hz.
  - exfalso. unfold all_zeros in Hz. apply andb_prop in Hz as [Hz1 Hz2].
    clear Hne Hskip. induction t as [|c t IH]; [discriminate|].
    simpl in Hnd. apply andb_prop in Hnd as [Hc Ht].
    simpl in Hz1, Hz2. destruct (count_separator c).
    + apply IH; assumption.
    + simpl in Hz2. apply andb_prop in Hz2 as [Hz2 _].
      unfold is_zero_char, is_char in Hz2. apply Ascii.eqb_eq in Hz2. subst c.
      discriminate.
  - unfold count_digitMatch. rewrite (seek_none is_digit t Hnd). reflexivity.
Qed.

Lemma parseCountInput_null (raw : option string) :
  let t := normalizeText raw in
  is_empty t || isSkipText (Some t) || all_zeros (remove count_separator t) = true ->
  parseCountInput raw = CNull.
Proof.
  intros t H. unfold parseCountInput. fold t.
  destruct (is_empty t || isSkipText (Some t)); [reflexivity|].
  simpl in H. rewrite H. reflexivity.
Qed.

End CountFacts.

(** ** The date parser *)

Module DateFacts.
Import Str Spec.

Lemma is_digit_code (c : ascii) : is_digit c = true -> 48 <= code c <= 57.
Proof. unfold is_digit. intros H. apply andb_prop in H as [H1 H2]. lia. Qed.

Lemma digits_value_bound (a : string) : forall acc : Z,
  all is_digit a = true -> 0 <= acc ->
  0 <= digits_value acc a < (acc + 1) * 10 ^ Z.of_nat (String.length a).
Proof.
  induction a as [|c a IH]; intros acc Hall Hacc.
  - simpl. lia.
  - simpl in Hall. apply andb_prop in Hall as [Hc Ha].
    apply is_digit_code in Hc.
    cbn [digits_value String.length].
    specialize (IH (10 * acc + (code c - 48)) Ha ltac:(lia)).
    rewrite Nat2Z.inj_succ, Z.pow_succ_r by lia.
    assert (0 < 10 ^ Z.of_nat (String.length a)) by (apply Z.pow_pos_nonneg; lia).
    nia.
Qed.

Lemma digits_upto_spec (n : nat) : forall s a b,
  digits_upto n s = (a, b) ->
  all is_digit a = true /\ (String.length a <= n)%nat.
Proof.
  induction n as [|n IH]; intros s a b H.
  - destruct s; injection H as <- <-; split; simpl; auto.
  - destruct s as [|c s]; [injection H as <- <-; split; simpl; auto with arith|].
    cbn [digits_upto] in H. destruct (is_digit c) eqn:Hc.
    + destruct (digits_upto n s) as [a' b'] eqn:E. injection H as <- <-.
      destruct (IH _ _ _ E) as [Ha Hl]. split; simpl.
      * rewrite Hc. exact Ha.
      * lia.
    + injection H as <- <-. split; simpl; auto with arith.
Qed.

(** a group of at most [n] digits reads as a number below [10^n] *)
Lemma Number_digits_upto (n : nat) (s a b : string) :
  digits_upto n s = (a, b) -> 0 <= Number_digits a < 10 ^ Z.of_nat n.
Proof.
  intros H. destruct (digits_upto_spec n s a b H) as [Ha Hl].
  pose proof (digits_value_bound a 0 Ha ltac:(lia)) as Hb.
  unfold Number_digits.
  assert (10 ^ Z.of_nat (String.length a) <= 10 ^ Z.of_nat n)
    by (apply Z.pow_le_mono_r; lia).
  lia.
Qed.

Lemma month_table_bound (k : nat) :
  0 <= nth k [0; 31; 59; 90; 120; 151; 181; 212; 243; 273; 304; 334] 0 <= 334.
Proof. do 12 (destruct k as [|k]; [simpl; lia|]). destruct k; simpl; lia. Qed.

Lemma MonthStart_bound (leap : bool) (mn : Z) : 0 <= JsDate.MonthStart leap mn <= 335.
Proof.
  unfold JsDate.MonthStart. pose proof (month_table_bound (Z.to_nat mn)).
  destruct (leap && (2 <=? mn)); lia.
Qed.

(** The instant of the regex stage is never out of range. *)
Lemma UTC_valid (Y Mo D hh mm : Z) :
  0 <= Y < 10000 -> -1 <= Mo < 100 -> 0 <= D < 100 -> 0 <= hh < 100 -> 0 <= mm < 100 ->
  JsDate.UTC Y Mo D hh mm =
    Some (JsDate.MakeDate (JsDate.MakeDay (JsDate.MakeFullYear Y) Mo D)
                          (JsDate.MakeTime hh mm 0 0)).
Proof.
  intros HY HMo HD Hh Hm. unfold JsDate.UTC, JsDate.TimeClip.
  set (v := JsDate.MakeDate _ _).
  assert (Hv : Z.abs v <= 8640000000000000); [|
    destruct (8640000000000000 <? Z.abs v) eqn:E; [lia|reflexivity]].
  subst v. unfold JsDate.MakeDate, JsDate.MakeDay, JsDate.MakeTime, JsDate.msPerDay.
  set (yr := JsDate.MakeFullYear Y).
  assert (Hyr : 0 <= yr < 10000).
  { subst yr. unfold JsDate.MakeFullYear.
    destruct ((0 <=? Y) && (Y <=? 99)) eqn:E; [|lia].
    apply andb_prop in E as [E1 E2]. lia. }
  pose proof (MonthStart_bound (JsDate.InLeapYear (yr + Mo / 12)) (Mo mod 12)) as Hms.
  set (ms := JsDate.MonthStart _ _) in *.
  unfold JsDate.DayFromYear.
  Z.div_mod_to_equations. lia.
Qed.

(** [safeDateISO] never throws. *)
Lemma safeDateISO_returns (dateParse : string -> option Z) (now : Z) (x : dateArg) :
  safeDateISO dateParse now x = Returns (safeDateISO_value dateParse now x).
Proof.
  unfold safeDateISO, safeDateISO_value. destruct (Date_new dateParse x); reflexivity.
Qed.

Lemma match_hm_bound (r g4 g5 : string) :
  match_hm r = Some (g4, g5) ->
  0 <= Number_digits g4 < 100 /\ 0 <= Number_digits g5 < 100.
Proof.
  unfold match_hm. destruct r as [|c r]; [discriminate|].
  destruct (date_time_sep c); [|discriminate].
  destruct (digits_upto 2 r) as [hh r1] eqn:E1.
  destruct (is_empty hh); [discriminate|].
  destruct r1 as [|c1 r2]; [discriminate|].
  destruct (is_char ":" c1); [|discriminate].
  destruct (digits_upto 2 r2) as [mm r3] eqn:E2.
  destruct (String.length mm =? 2)%nat; [|discriminate].
  intros H. injection H as <- <-.
  split; [exact (Number_digits_upto 2 _ _ _ E1)|exact (Number_digits_upto 2 _ _ _ E2)].
Qed.

Lemma match_ymd_bound (s g1 g2 g3 : string) (g45 : option (string * string)) :
  match_ymd s = Some (g1, g2, g3, g45) ->
  0 <= Number_digits g1 < 10000
  /\ 0 <= Number_digits g2 < 100
  /\ 0 <= Number_digits g3 < 100
  /\ match g45 with
     | Some (g4, g5) => 0 <= Number_digits g4 < 100 /\ 0 <= Number_digits g5 < 100
     | None => True
     end.
Proof.
  unfold match_ymd.
  destruct (digits_upto 4 s) as [y r1] eqn:E1.
  destruct (negb (String.length y =? 4)%nat); [discriminate|].
  destruct r1 as [|c1 r2]; [discriminate|].
  destruct (date_sep c1); [|discriminate].
  destruct (digits_upto 2 r2) as [mo r3] eqn:E2.
  destruct (is_empty mo); [discriminate|].
  destruct r3 as [|c2 r4]; [discriminate|].
  destruct (date_sep c2); [|discriminate].
  destruct (digits_upto 2 r4) as [d r5] eqn:E3.
  destruct (is_empty d); [discriminate|].
  intros H. injection H as <- <- <- <-.
  split; [exact (Number_digits_upto 4 _ _ _ E1)|].
  split; [exact (Number_digits_upto 2 _ _ _ E2)|].
  split; [exact (Number_digits_upto 2 _ _ _ E3)|].
  destruct (match_hm r5) as [[g4 g5]|] eqn:E4; [|exact I].
  exact (match_hm_bound _ _ _ E4).
Qed.



Lemma regex_stage (s : string) :
  parseFlexibleDate_regex s =
    Returns match match_ymd s with
            | Some g => Iso (ymd_time g)
            | None => EmptyText
            end
  /\ match match_ymd s with
     | Some g => JsDate.TimeClip (ymd_time g) = Some (ymd_time g)
     | None => True
     end.
Proof.
  unfold parseFlexibleDate_regex.
  destruct (match_ymd s) as [[[[g1 g2] g3] g45]|] eqn:E; [|split; [reflexivity|exact I]].
  destruct (match_ymd_bound _ _ _ _ _ E) as (H1 & H2 & H3 & H45).
  assert (Hhm : 0 <= match g45 with Some (g4, _) => Number_digits g4 | None => 0 end < 100
                /\ 0 <= match g45 with Some (_, g5) => Number_digits g5 | None => 0 end < 100).
  { destruct g45 as [[g4 g5]|]; [exact H45|lia]. }
  destruct Hhm as [H4 H5].
  pose proof (UTC_valid (Number_digits g1) (Number_digits g2 - 1) (Number_digits g3)
                        _ _ H1 ltac:(lia) H3 H4 H5) as HU.
  split.
  - rewrite HU. reflexivity.
  - unfold JsDate.UTC in HU. exact HU.
Qed.

Lemma parseFlexibleDate_resolves (dateParse : string -> option Z) (now : Z) (s : string) :
  parseFlexibleDate dateParse now s =
    Returns (if is_empty s then EmptyText else resolution_order dateParse now s).
Proof.
  unfold parseFlexibleDate, resolution_order.
  destruct (is_empty s); [reflexivity|].
  destruct (is_now_keyword _); [reflexivity|].
  unfold parseFlexibleDate_try, Date_new.
  destruct (dateParse s) as [v|]; [reflexivity|].
  cbn [JsDate.isNaN_getTime negb].
  destruct (dateParse (replaceFirst " " "T" s)) as [v|]; [reflexivity|].
  cbn [JsDate.isNaN_getTime negb].
  exact (proj1 (regex_stage s)).
Qed.

End DateFacts.

(** ** The step machine *)

Section StepFacts.

Variable cfg : Config.t.

Lemma onMessage_stepMachine (e : env) (m : Msg.t) (st : state) (s : Session.t) :
  sessions st !! Msg.chat_id m = Some s ->
  Msg.edit_date m = false ->
  Str.startsWith "\" (default EmptyString (Msg.text m)) = false ->
  is_command (Msg.text m) = false ->
  onMessage cfg e m st =
    match stepMachine cfg e (Msg.chat_id m) m s with
    | Returns (s', out) => (putSession (Msg.chat_id m) s' st, out)
    | Throws _ =>
        (endSession (Msg.chat_id m) st,
         [console_error "session error";
          sendMessage (Msg.chat_id m) "Error occurred, session canceled"])
    end.
Proof.
  intros Hs He Hb Hc. unfold onMessage. rewrite He, Hb, Hs, Hc. reflexivity.
Qed.

Lemma or_else_idem (a : option string) (b : string) :
  or_else (Some (or_else a b)) b = or_else a b.
Proof.
  unfold or_else. destruct a as [x|].
  - destruct (Str.is_empty x) eqn:E; [destruct (Str.is_empty b); reflexivity|].
    rewrite E. reflexivity.
  - destruct (Str.is_empty b); reflexivity.
Qed.

Local Arguments or_else : simpl never.

Ltac split_cases H :=
  repeat match type of H with
         | context [if ?c then _ else _] => destruct c eqn:?
         | context [match ?x with _ => _ end] => destruct x eqn:?
         | context [mbind _ ?x] => destruct x eqn:?; cbn in H
         end.

Ltac reuse :=
  repeat match goal with
         | E : ?c = _ |- context [?c] => rewrite E
         end.

(** Outside menu mode, a message that moved the dialogue one step forward
    does the same again, with the same replies, when it is handled once
    more after [/back]. *)
Lemma stepMachine_back_again (e : env) (chat : Z) (m : Msg.t) (s0 s1 : Session.t)
  (out : list call) :
  isEditMenuMode s0 = false ->
  stepMachine cfg e chat m s0 = Returns (s1, out) ->
  stepPrev (Session.step s1) = Some (Session.step s0) ->
  stepMachine cfg e chat m (fst (goBack chat s1)) = Returns (s1, out).
Proof.
  intros Hmenu Hfwd Hprev.
  destruct s0 as [uid mo em stp d pend].
  destruct mo; [|destruct em as [[]|]; try discriminate Hmenu]; clear Hmenu;
    destruct stp; cbn in Hfwd.
  all: try (injection Hfwd as <- <-; discriminate Hprev).
  all: split_cases Hfwd.
  all: try discriminate Hfwd.
  all: cbn in Hfwd.
  all: try (injection Hfwd as <- <-; try discriminate Hprev; clear Hprev).
  all: try (cbn; reuse; cbn; reuse; rewrite ?or_else_idem; reflexivity).
  all: destruct d as [di dt dat dd ddr dc dl dla dln dn [[|a]|]]; cbn.
  all: try reflexivity.
  all: unfold isEditMenuMode, sendPreview; cbn; reuse; cbn.
  all: try (rewrite ?or_else_idem; reflexivity).
  all: destruct (truthy (Attachment.path a)) eqn:Hp; cbn; rewrite ?Hp; cbn;
    rewrite ?or_else_idem; reflexivity.
Qed.

(** the clock is read for the keywords of the current time only *)
Lemma parseFlexibleDate_clock (now now' : Z) (raw : string) :
  is_now_keyword (Str.toLowerCase (Str.trim raw)) = false ->
  parseFlexibleDate (Config.dateParse cfg) now' raw
  = parseFlexibleDate (Config.dateParse cfg) now raw.
Proof. intros H. unfold parseFlexibleDate. rewrite H. reflexivity. Qed.

(** The step machine does the same when what it reads is answered the
    same. *)
Lemma stepMachine_alike (e e' : env) (chat : Z) (m : Msg.t) (s : Session.t) :
  Spec.answers_alike (Config.dateParse cfg) m (Session.step s) e e' ->
  stepMachine cfg e' chat m s = stepMachine cfg e chat m s.
Proof.
  intros [Hd Hn]. unfold stepMachine.
  destruct (Session.step s); cbn in Hd; try reflexivity.
  - destruct Hd as [Hd|Hd]; [|unfold safeDateISO_at; rewrite Hd; reflexivity].
    unfold Spec.dated_without_clock in Hd. cbv zeta in Hd.
    apply andb_prop in Hd as [Hd Hparsed].
    apply andb_prop in Hd as [Hd Hkey].
    apply andb_prop in Hd as [Hblank Hskip].
    apply negb_true_iff in Hblank, Hskip, Hkey.
    rewrite Hskip, Hblank.
    rewrite (parseFlexibleDate_clock 0 (now e') _ Hkey).
    rewrite (parseFlexibleDate_clock 0 (now e) _ Hkey).
    destruct (parseFlexibleDate (Config.dateParse cfg) 0 (text_trim m)) as [[v|]|err];
      try discriminate Hparsed; reflexivity.
  - destruct (isSkipText (Msg.text m)); [reflexivity|].
    destruct (Msg.location m) as [[]|]; [reflexivity|].
    rewrite Hd. reflexivity.
  - destruct (last (Msg.photo m)); [rewrite Hd; reflexivity|].
    destruct (Msg.document m) as [[]|]; [rewrite Hd; reflexivity|reflexivity].
  - destruct (Hn eq_refl) as (Hnow & Hid & Hex).
    unfold sendPreview, safeDateISO_at. rewrite Hnow, Hid.
    match goal with
    | |- (if isEditMenuMode ?x then _ else _) = _ => generalize x
    end.
    intros s1. destruct (isEditMenuMode s1); [reflexivity|].
    destruct (attachment_or_null (Data.attachment (Session.data s1))) as [|a];
      [reflexivity|].
    rewrite Hex. reflexivity.
Qed.

(** The preview reads the clock, the random id and the file system for
    the pending record and the photo, not for the draft. *)
Lemma stepMachine_draft_alike (e e' : env) (chat : Z) (m : Msg.t) (s s1 : Session.t)
  (out : list call) :
  Spec.draft_answers_alike (Config.dateParse cfg) m (Session.step s) e e' ->
  stepMachine cfg e chat m s = Returns (s1, out) ->
  exists s2 out2,
    stepMachine cfg e' chat m s = Returns (s2, out2)
    /\ Session.data s2 = Session.data s1
    /\ Session.step s2 = Session.step s1.
Proof.
  intros Hd H.
  destruct (Step.eqb (Session.step s) Step.note) eqn:Hnote.
  - unfold stepMachine in *. destruct (Session.step s); try discriminate Hnote.
    cbv zeta in *.
    match type of H with
    | (if isEditMenuMode ?x then _ else _) = _ => set (s1' := x) in *
    end.
    destruct (isEditMenuMode s1').
    + eauto.
    + injection H as <- <-. unfold sendPreview. eexists _, _.
      split; [reflexivity|]. split; reflexivity.
  - assert (Ha : Spec.answers_alike (Config.dateParse cfg) m (Session.step s) e e').
    { split; [exact Hd|]. intros E. rewrite E in Hnote. discriminate Hnote. }
    rewrite <- (stepMachine_alike e e' chat m s Ha) in H. eauto.
Qed.

(** the step [/back] returns to, after a message that moved a session
    outside menu mode one step forward *)
Lemma back_to_step (e : env) (chat : Z) (m : Msg.t) (s0 s1 : Session.t) (out : list call) :
  isEditMenuMode s0 = false ->
  stepMachine cfg e chat m s0 = Returns (s1, out) ->
  stepPrev (Session.step s1) = Some (Session.step s0) ->
  Session.step (fst (goBack chat s1)) = Session.step s0.
Proof.
  intros Hmenu Hfwd Hprev.
  destruct s0 as [uid mo em stp d pend].
  destruct mo; [|destruct em as [[]|]; try discriminate Hmenu]; clear Hmenu;
    destruct stp; cbn in Hfwd.
  all: try (injection Hfwd as <- <-; discriminate Hprev).
  all: split_cases Hfwd.
  all: try discriminate Hfwd.
  all: cbn in Hfwd.
  all: try (injection Hfwd as <- <-; try discriminate Hprev; clear Hprev).
  all: try reflexivity.
  all: unfold sendPreview; cbn; reflexivity.
Qed.

Lemma putSession_again (chat : Z) (s s' : Session.t) (st : state) :
  putSession chat s (putSession chat s' st) = putSession chat s st.
Proof.
  unfold putSession, set_sessions. cbn. rewrite insert_insert_eq. reflexivity.
Qed.

Lemma putSession_lookup (chat : Z) (s : Session.t) (st : state) :
  sessions (putSession chat s st) !! chat = Some s.
Proof. cbn. apply lookup_insert_eq. Qed.

(** [/back] rewrites the step and nothing else. *)
Lemma goBack_data (chat : Z) (s : Session.t) :
  let s' := fst (goBack chat s) in
  Session.data s' = Session.data s
  /\ Session.pending s' = Session.pending s
  /\ Session.mode s' = Session.mode s
  /\ Session.editMode s' = Session.editMode s
  /\ Session.userId s' = Session.userId s.
Proof.
  unfold goBack.
  destruct (isEditMenuMode s && negb (Step.eqb (Session.step s) Step.edit_menu));
    [cbn; auto 6|].
  destruct (stepPrev (Session.step s)); cbn; auto 6.
Qed.

(** The location step on a text the geocoder cannot resolve. *)
Lemma stepMachine_location_unresolved (e : env) (chat : Z) (m : Msg.t) (s : Session.t) :
  Session.step s = Step.location ->
  isSkipText (Msg.text m) = false ->
  Msg.location m = None ->
  truthy (Msg.text m) = true ->
  String.eqb (default EmptyString (Msg.text m)) "Send my location" = false ->
  String.eqb (default EmptyString (Msg.text m)) "Type location" = false ->
  geocodeLocation e (text_trim m) = None ->
  exists s' out,
    stepMachine cfg e chat m s = Returns (s', out)
    /\ Session.data s' =
         Data.set_lng (Some null)
           (Data.set_lat (Some null)
              (Data.set_location (Some (text_trim m)) (Session.data s))).
Proof.
  intros Hstep Hskip Hloc Ht H1 H2 Hgeo.
  unfold stepMachine. rewrite Hstep, Hskip, Hloc, Ht, H1, H2, Hgeo. cbn [andb negb].
  unfold advance, goto. destruct (isEditMenuMode _); eauto.
Qed.

(** A text that no stage of the parser resolves is no date for the
    engine either. *)
Lemma unresolved_not_parsed (now : Z) (raw : string) :
  parseFlexibleDate (Config.dateParse cfg) now raw = Returns EmptyText ->
  Str.is_empty raw = false ->
  Config.dateParse cfg raw = None.
Proof.
  rewrite DateFacts.parseFlexibleDate_resolves. intros H Hne. rewrite Hne in H.
  unfold Spec.resolution_order in H.
  destruct (is_now_keyword _); [discriminate H|].
  destruct (Config.dateParse cfg raw); [discriminate H|reflexivity].
Qed.

(** The date step on a text the parser cannot resolve. *)
Lemma stepMachine_date_unresolved (e : env) (chat : Z) (m : Msg.t) (s : Session.t) :
  Session.step s = Step.date ->
  isSkipText (Some (text_trim m)) = false ->
  Str.is_empty (text_trim m) = false ->
  parseFlexibleDate (Config.dateParse cfg) (now e) (text_trim m) = Returns EmptyText ->
  exists s' out,
    stepMachine cfg e chat m s = Returns (s', out)
    /\ Session.data s' =
         Data.set_dateRaw (Some (text_trim m))
           (Data.set_date (Some (now e)) (Session.data s)).
Proof.
  intros Hstep Hskip Hne Hparse.
  unfold stepMachine. rewrite Hstep, Hskip, Hne, Hparse. cbn.
  unfold safeDateISO_at, safeDateISO_value, Date_new.
  rewrite (unresolved_not_parsed _ _ Hparse Hne).
  unfold advance_prompt, goto. destruct (isEditMenuMode _); eauto.
Qed.

(** *** Skip *)

Lemma handleSkip_count (e : env) (chat : Z) (s : Session.t) :
  isEditMenuMode s = false ->
  Session.step s = Step.count ->
  handleSkip cfg e chat s =
    (Session.set_step Step.location (Session.update (Data.set_count (Some CNull)) s),
     [sendPrompt chat Step.location create None]).
Proof. intros Hm Hs. unfold handleSkip. rewrite Hm, Hs. reflexivity. Qed.

Lemma stepMachine_count_skip (e : env) (chat : Z) (m : Msg.t) (s : Session.t) :
  Session.step s = Step.count ->
  isSkipText (Msg.text m) = true ->
  exists s' out,
    stepMachine cfg e chat m s = Returns (s', out)
    /\ Session.data s' =
         match Session.mode s with
         | edit => Session.data s
         | create => Data.set_count (Some CNull) (Session.data s)
         end.
Proof.
  intros Hs Hk. unfold stepMachine. rewrite Hs, Hk.
  unfold advance_prompt, goto, is_edit.
  destruct (Session.mode s); destruct (isEditMenuMode _); eauto.
Qed.

(** *** Identifier prefixes *)

Lemma resolveDbIdFromPrefix_lookup (e : env) (st : state) (idOrPrefix : option string) :
  let raw := normalizeText idOrPrefix in
  let matching := filter (fun a => id_ilike (hex_prefix raw) a = true) (db st) in
  Config.dbEnabled cfg = true ->
  db_error e = None ->
  Str.is_empty raw = false ->
  isUuidLike (Some raw) = false ->
  (6 <= String.length (hex_prefix raw))%nat ->
  resolveDbIdFromPrefix cfg e st idOrPrefix =
    match matching with
    | [] => Returns EmptyString
    | [r] => Returns (String_id (Activity.id r))
    | _ :: _ :: _ =>
        Throws "Multiple activities match that ID prefix. Please copy the full ID from /list."
    end.
Proof.
  intros raw matching Hdb Herr Hne Huuid Hlen.
  unfold resolveDbIdFromPrefix. fold raw. rewrite Hne, Huuid, Hdb. cbn [negb].
  destruct (String.length (hex_prefix raw) <? 6)%nat eqn:E;
    [apply Nat.ltb_lt in E; lia|].
  unfold query. rewrite Herr. fold matching. cbn.
  destruct matching as [|r1 [|r2 l]]; reflexivity.
Qed.

Lemma hex_prefix_nonempty (raw : string) :
  (6 <= String.length (hex_prefix raw))%nat -> Str.is_empty raw = false.
Proof. destruct raw; [cbn; lia|reflexivity]. Qed.

(** fewer than six hexadecimal digits: no query *)
Lemma resolveDbIdFromPrefix_short (e : env) (st : state) (idOrPrefix : option string) :
  (String.length (hex_prefix (normalizeText idOrPrefix)) < 6)%nat ->
  resolveDbIdFromPrefix cfg e st idOrPrefix = Returns (normalizeText idOrPrefix).
Proof.
  intros Hlen. unfold resolveDbIdFromPrefix.
  destruct (normalizeText idOrPrefix) as [|c r] eqn:E; [reflexivity|]. cbn [Str.is_empty].
  destruct (isUuidLike _); [reflexivity|].
  destruct (negb (Config.dbEnabled cfg)); [reflexivity|].
  apply Nat.ltb_lt in Hlen. rewrite Hlen. reflexivity.
Qed.

(** the query fails: so does the lookup, with the error of the query *)
Lemma resolveDbIdFromPrefix_failing (e : env) (st : state) (idOrPrefix : option string)
  (err : string) :
  let raw := normalizeText idOrPrefix in
  Config.dbEnabled cfg = true ->
  db_error e = Some err ->
  isUuidLike (Some raw) = false ->
  (6 <= String.length (hex_prefix raw))%nat ->
  resolveDbIdFromPrefix cfg e st idOrPrefix = Throws err.
Proof.
  intros raw Hdb Herr Huuid Hlen.
  unfold resolveDbIdFromPrefix. fold raw.
  rewrite (hex_prefix_nonempty raw Hlen), Huuid, Hdb. cbn [negb].
  destruct (String.length (hex_prefix raw) <? 6)%nat eqn:E;
    [apply Nat.ltb_lt in E; lia|].
  unfold query. rewrite Herr. reflexivity.
Qed.

(** *** Authorization *)

Lemma isAllowed_iff (userId : Z) :
  isAllowed cfg userId = true <->
  Config.ALLOWED cfg = [] \/ In (Some userId) (Config.ALLOWED cfg).
Proof.
  unfold isAllowed. destruct (Config.ALLOWED cfg) as [|a l] eqn:E.
  - split; auto.
  - rewrite existsb_exists. split.
    + intros (x & Hin & Hx). right. destruct x as [z|]; [|discriminate].
      apply Z.eqb_eq in Hx. subst z. exact Hin.
    + intros [H|H]; [discriminate|]. exists (Some userId). split; [exact H|].
      apply Z.eqb_refl.
Qed.

Lemma unauthorized_rejected (e : env) (m : Msg.t) (arg : option string) (match1 : string)
  (st : state) :
  isAllowed cfg (Msg.from_id m) = false ->
  onText_new cfg m st
    = (st, [sendMessage (Msg.chat_id m) "You are not authorized to use guided input."])
  /\ onText_edit cfg e m arg st = (st, [sendMessage (Msg.chat_id m) "Not authorized"])
  /\ onText_delete cfg e m arg st = (st, [sendMessage (Msg.chat_id m) "Not authorized"])
  /\ onText_add cfg e m match1 st = (st, [sendMessage (Msg.chat_id m) "Not authorized"]).
Proof.
  intros H.
  unfold onText_new, beginGuidedFlow, onText_edit, beginEditFlow, onText_delete,
    handleDeleteById, onText_add.
  rewrite H. repeat split; reflexivity.
Qed.

(** *** The confirming step *)

Lemma set_sessions_same (st : state) : set_sessions (sessions st) st = st.
Proof. destruct st; reflexivity. Qed.

Lemma putSession_same (chat : Z) (s : Session.t) (st : state) :
  sessions st !! chat = Some s -> putSession chat s st = st.
Proof.
  intros H. unfold putSession. rewrite (insert_id _ _ _ H). apply set_sessions_same.
Qed.

(** The message handler does nothing on a session that is confirming,
    unless the text is a backslash command. *)
Lemma onMessage_confirming (e : env) (m : Msg.t) (st : state) (s : Session.t) :
  sessions st !! Msg.chat_id m = Some s ->
  Session.step s = Step.confirming ->
  Str.startsWith "\" (default EmptyString (Msg.text m)) = false ->
  onMessage cfg e m st = (st, []).
Proof.
  intros Hs Hstep Hb. unfold onMessage. rewrite Hb, Hs.
  destruct (Msg.edit_date m); [reflexivity|].
  destruct (is_command (Msg.text m)); [reflexivity|].
  unfold stepMachine. rewrite Hstep. rewrite (putSession_same _ _ _ Hs). reflexivity.
Qed.


Lemma beginEditFlow_in_session (e : env) (chat from : Z) (id : option string) (st : state) :
  is_Some (sessions st !! chat) ->
  fst (beginEditFlow cfg e chat from id st) = st.
Proof.
  intros H. unfold beginEditFlow. destruct (negb (isAllowed cfg from)); [reflexivity|].
  rewrite (bool_decide_eq_true_2 _ H). reflexivity.
Qed.

Lemma handleDeleteById_in_session (e : env) (chat from : Z) (id : option string) (st : state) :
  is_Some (sessions st !! chat) ->
  fst (handleDeleteById cfg e chat from id st) = st.
Proof.
  intros H. unfold handleDeleteById. destruct (negb (isAllowed cfg from)); [reflexivity|].
  rewrite (bool_decide_eq_true_2 _ H). reflexivity.
Qed.

Lemma onCallback_other (e : env) (cq : Callback.t) (st : state) (s : Session.t) :
  sessions st !! Callback.chat_id cq = Some s ->
  Spec.acts_on_session (Callback.data cq) = false ->
  sessions (fst (onCallback cfg e cq st)) = sessions st
  /\ activities (fst (onCallback cfg e cq st)) = activities st
  /\ db (fst (onCallback cfg e cq st)) = db st.
Proof.
  intros Hs Hacts. unfold Spec.acts_on_session in Hacts.
  repeat (apply orb_false_elim in Hacts as [Hacts ?]).
  assert (Hsome : is_Some (sessions st !! Callback.chat_id cq)) by (rewrite Hs; eauto).
  unfold onCallback. rewrite Hacts.
  repeat match goal with
         | |- context [if ?c then _ else _] =>
             destruct c eqn:?; [cbn; try congruence; auto|]
         end.
  - rewrite (beginEditFlow_in_session _ _ _ _ _ Hsome). auto.
  - rewrite (handleDeleteById_in_session _ _ _ _ _ Hsome). auto.
  - rewrite Hs. unfold onSessionCallback.
    repeat match goal with
           | H : ?c = false |- context [if ?c then _ else _] => rewrite H
           end.
    destruct (edit_field (Callback.data cq)) eqn:E.
    + exfalso. match goal with
               | H : bool_decide _ = false |- _ =>
                   apply bool_decide_eq_false_1 in H; apply H; eauto
               end.
    + repeat match goal with
             | H : ?c = false |- context [if ?c then _ else _] => rewrite H
             end.
      auto.
Qed.

Lemma onCallback_cancel (e : env) (cq : Callback.t) (st : state) (s : Session.t) :
  sessions st !! Callback.chat_id cq = Some s ->
  Callback.data cq = "_cancel" ->
  onCallback cfg e cq st =
    (endSession (Callback.chat_id cq) st,
     [editMessageReplyMarkup (Callback.chat_id cq) (Callback.message_id cq);
      sendMessage (Callback.chat_id cq) "Activity creation canceled.";
      answerCallbackQuery "Canceled"]).
Proof.
  intros Hs Hd. unfold onCallback. rewrite Hd. cbn. rewrite Hs.
  unfold onSessionCallback. rewrite Hd. reflexivity.
Qed.

Lemma onCallback_confirm (e : env) (cq : Callback.t) (st : state) (s : Session.t)
  (item : Item.t) :
  sessions st !! Callback.chat_id cq = Some s ->
  Callback.data cq = "_confirm" ->
  Session.pending s = Some item ->
  let final := ensurePublicAttachmentUrl cfg e (ensure_webPath cfg item) in
  fst (onCallback cfg e cq st) =
    match persist cfg e (Session.mode s) final st with
    | Returns (st', _) => endSession (Callback.chat_id cq) st'
    | Throws _ => putSession (Callback.chat_id cq) (Session.set_pending (Some final) s) st
    end.
Proof.
  intros Hs Hd Hp final. unfold onCallback. rewrite Hd. cbn. rewrite Hs.
  unfold onSessionCallback. rewrite Hd. cbn. unfold confirm. rewrite Hp. fold final.
  destruct (persist cfg e (Session.mode s) final st) as [[st' item']|err]; reflexivity.
Qed.

(** without a database the write is a write to the file, which succeeds *)
Lemma persist_file (e : env) (m : mode) (item : Item.t) (st : state) :
  Config.dbEnabled cfg = false ->
  persist cfg e m item st
  = Returns (set_activities (commit_file cfg m item (activities st)) st, item).
Proof. intros H. unfold persist. rewrite H. reflexivity. Qed.

End StepFacts.

(** * The claims of the specification *)

(** ** Count parsing *)

(** C3, as amended.  The four reference inputs parse as stated:
    ["1,200 Mushaf"] is the number 1200, ["0"] is null, ["8000"] is the
    number 8000 and ["approximately fifty"] is kept as typed.  In general,
    with [t] the trimmed input: an empty [t], the skip token and a [t]
    that is all zeros once spaces, commas, dots, underscores and hyphens
    are removed give null; a [t] without a digit is kept as typed; and
    when [t] is [pre], the run from its first digit, and [post], the
    result is the number the digits and dots of the run denote provided
    that is a finite decimal number and what surrounds the run is empty or
    the unit [mushaf] or [mushafs], and [t] as typed otherwise. *)
Theorem parseCountInput_rules (raw : option string) (pre run post : string) :
  let t := normalizeText raw in
  let is_null := Str.is_empty t || isSkipText (Some t)
                 || all_zeros (Str.remove count_separator t) in
  let remainder := Str.toLowerCase (Str.trim (pre ++ post)) in
  let number := Number_decimal (Str.remove not_digit_or_dot run) in
  (parseCountInput (Some "1,200 Mushaf") = CNum (1200 # 1)
   /\ parseCountInput (Some "0") = CNull
   /\ parseCountInput (Some "8000") = CNum (8000 # 1)
   /\ parseCountInput (Some "approximately fifty") = CText "approximately fifty")
  /\ (is_null = true -> parseCountInput raw = CNull)
  /\ (is_null = false -> Str.all Spec.no_digit t = true ->
      parseCountInput raw = CText t)
  /\ (is_null = false -> Spec.digit_run t pre run post ->
      forall n, number = Some n -> Number_isFinite n = true ->
                Spec.unit_only remainder = true ->
                parseCountInput raw = CNum n)
  /\ (is_null = false -> Spec.digit_run t pre run post ->
      Spec.unit_only remainder = false ->
      parseCountInput raw = CText t)
  /\ (is_null = false -> Spec.digit_run t pre run post ->
      (number = None \/ exists n, number = Some n /\ Number_isFinite n = false) ->
      parseCountInput raw = CText t).
Proof.
  intros t is_null remainder number.
  assert (Hsplit : is_null = false ->
                   Str.is_empty t = false /\ isSkipText (Some t) = false
                   /\ all_zeros (Str.remove count_separator t) = false).
  { unfold is_null. intros H.
    apply orb_false_elim in H as [H Hz]. apply orb_false_elim in H as [He Hs].
    auto. }
  split; [repeat split; vm_compute; reflexivity|].
  split; [apply CountFacts.parseCountInput_null|].
  split.
  { intros H Hnd. apply Hsplit in H as (He & Hs & _).
    apply CountFacts.parseCountInput_no_digit; assumption. }
  split.
  { intros H Hrun n Hn Hfin Hunit. apply Hsplit in H as (_ & Hs & Hz).
    rewrite (CountFacts.parseCountInput_run raw pre run post Hs Hz Hrun).
    fold number remainder. rewrite Hn, Hfin, Hunit. reflexivity. }
  split.
  { intros H Hrun Hunit. apply Hsplit in H as (_ & Hs & Hz).
    rewrite (CountFacts.parseCountInput_run raw pre run post Hs Hz Hrun).
    fold number remainder. rewrite Hunit.
    destruct number; [rewrite andb_false_r|]; reflexivity. }
  intros H Hrun Hnum. apply Hsplit in H as (_ & Hs & Hz).
  rewrite (CountFacts.parseCountInput_run raw pre run post Hs Hz Hrun).
  fold number remainder.
  destruct Hnum as [-> | (n & -> & ->)]; reflexivity.
Qed.

(** The rules of C3, each at an input: the skip token; a text without a
    digit; ["1,200 Mushaf"], whose run is ["1,200 "] with the unit after
    it; ["about 50 mushafs"], where more than the unit surrounds the run;
    and ["1.2.3 mushaf"], whose run is no number. *)
Lemma parseCountInput_rules_witness :
  parseCountInput (Some " Skip ") = CNull
  /\ parseCountInput (Some "approximately fifty") = CText "approximately fifty"
  /\ parseCountInput (Some "1,200 Mushaf") = CNum (1200 # 1)
  /\ parseCountInput (Some "about 50 mushafs") = CText "about 50 mushafs"
  /\ parseCountInput (Some "1.2.3 mushaf") = CText "1.2.3 mushaf".
Proof.
  split; [|split; [|split; [|split]]].
  - apply (proj1 (proj2
             (parseCountInput_rules (Some " Skip ") EmptyString EmptyString EmptyString))).
    vm_compute. reflexivity.
  - apply (proj1 (proj2 (proj2
             (parseCountInput_rules (Some "approximately fifty")
                EmptyString EmptyString EmptyString)))).
    + vm_compute. reflexivity.
    + vm_compute. reflexivity.
  - refine (proj1 (proj2 (proj2 (proj2
              (parseCountInput_rules (Some "1,200 Mushaf") EmptyString "1,200 " "Mushaf"))))
              _ _ (1200 # 1) _ _ _).
    + vm_compute. reflexivity.
    + repeat split; vm_compute; reflexivity.
    + vm_compute. reflexivity.
    + vm_compute. reflexivity.
    + vm_compute. reflexivity.
  - apply (proj1 (proj2 (proj2 (proj2 (proj2
             (parseCountInput_rules (Some "about 50 mushafs") "about " "50 " "mushafs")))))).
    + vm_compute. reflexivity.
    + repeat split; vm_compute; reflexivity.
    + vm_compute. reflexivity.
  - apply (proj2 (proj2 (proj2 (proj2 (proj2
             (parseCountInput_rules (Some "1.2.3 mushaf") EmptyString "1.2.3 " "mushaf")))))).
    + vm_compute. reflexivity.
    + repeat split; vm_compute; reflexivity.
    + left. vm_compute. reflexivity.
Defined.

(** C3, counterexample.  In ["1.2.3 mushaf"] the run from the first digit
    is ["1.2.3 "] and what remains is the unit alone, yet the result is
    the text as typed and no number: the digits and dots of the run,
    ["1.2.3"], are not a number. *)
Lemma parseCountInput_unit_not_numeric :
  Spec.digit_run "1.2.3 mushaf" EmptyString "1.2.3 " "mushaf"
  /\ Spec.unit_only (Str.toLowerCase (Str.trim "mushaf")) = true
  /\ parseCountInput (Some "1.2.3 mushaf") = CText "1.2.3 mushaf"
  /\ ~ (exists n, parseCountInput (Some "1.2.3 mushaf") = CNum n).
Proof.
  split; [repeat split; vm_compute; reflexivity|].
  split; [vm_compute; reflexivity|].
  split; [vm_compute; reflexivity|].
  intros [n Hn]. vm_compute in Hn. discriminate Hn.
Qed.

(** ** Date parsing *)

(** C6.  On every string [parseFlexibleDate] returns, and throws nothing:
    the empty text on the empty string, and otherwise what the order of
    resolution gives, which is the clock reading on one of the keywords
    [now], [current], [current time], [today] and [today now] (trimmed,
    in any case), else the direct parse, else the parse with the first
    space turned into [T], else the instant of the structured form
    [YYYY-MM-DD[ HH:MM]], else the empty text.  The instant of the
    structured form is always in the range of valid dates.  The keyword
    comes first whatever the engine would parse: [NOW] and [Today] with
    spaces around it give the clock reading. *)
Theorem parseFlexibleDate_total_ordered (dateParse : string -> option Z) (now : Z)
  (s : string) :
  parseFlexibleDate dateParse now s =
    Returns (if Str.is_empty s then EmptyText else Spec.resolution_order dateParse now s)
  /\ match match_ymd s with
     | Some g => JsDate.TimeClip (Spec.ymd_time g) = Some (Spec.ymd_time g)
     | None => True
     end
  /\ parseFlexibleDate dateParse now "NOW" = Returns (Iso now)
  /\ parseFlexibleDate dateParse now " Today " = Returns (Iso now).
Proof.
  split; [apply DateFacts.parseFlexibleDate_resolves|].
  split; [exact (proj2 (DateFacts.regex_stage s))|].
  split; reflexivity.
Qed.

Example parseFlexibleDate_structured :
  parseFlexibleDate refDateParse 5 "2025/13/45 7:30" = Returns (Iso 1771054200000).
Proof. vm_compute. reflexivity. Qed.

Example parseFlexibleDate_unresolved :
  parseFlexibleDate refDateParse 5 "sometime next week" = Returns EmptyText.
Proof. vm_compute. reflexivity. Qed.

(** ** The dialogue *)


Section Claims.

Variable cfg : Config.t.

Lemma reaches_step_machine_true (m : Msg.t) :
  Spec.reaches_step_machine m = true ->
  Msg.edit_date m = false
  /\ Str.startsWith "\" (default EmptyString (Msg.text m)) = false
  /\ is_command (Msg.text m) = false.
Proof.
  unfold Spec.reaches_step_machine. intros H.
  apply andb_prop in H as [H H3]. apply andb_prop in H as [H1 H2].
  apply negb_true_iff in H1, H2, H3. auto.
Qed.

(** C5.  At the date step, a typed text that no stage of the flexible
    date parser resolves sets the date of the draft to the clock reading
    of the moment and keeps the text, trimmed, in [dateRaw]; no other
    field of the draft changes. *)
Theorem date_fallback (e : env) (m : Msg.t) (st : state) (s : Session.t) :
  sessions st !! Msg.chat_id m = Some s ->
  Session.step s = Step.date ->
  Spec.date_text m = true ->
  parseFlexibleDate (Config.dateParse cfg) (now e) (text_trim m) = Returns EmptyText ->
  exists s',
    sessions (fst (onMessage cfg e m st)) !! Msg.chat_id m = Some s'
    /\ Data.date (Session.data s') = Some (now e)
    /\ Data.dateRaw (Session.data s') = Some (text_trim m)
    /\ Session.data s' =
         Data.set_dateRaw (Some (text_trim m))
           (Data.set_date (Some (now e)) (Session.data s)).
Proof.
  intros Hs Hstep Hm Hparse.
  unfold Spec.date_text in Hm. apply andb_prop in Hm as [Hm Hskip].
  apply andb_prop in Hm as [Hm Hne].
  apply negb_true_iff in Hskip, Hne.
  destruct (reaches_step_machine_true m Hm) as (He & Hb & Hc).
  rewrite (onMessage_stepMachine cfg e m st s Hs He Hb Hc).
  destruct (stepMachine_date_unresolved cfg e (Msg.chat_id m) m s Hstep Hskip Hne Hparse)
    as (s' & out & -> & Hd).
  exists s'. cbn [fst]. rewrite putSession_lookup, Hd. auto.
Qed.

(** C10.  At the location step, a location typed as free text that the
    geocoder does not resolve is stored as typed (trimmed), and the
    latitude and the longitude of the draft are both set to null,
    whatever they were; no other field of the draft changes. *)
Theorem failed_geocode_clears_coordinates (e : env) (m : Msg.t) (st : state)
  (s : Session.t) :
  sessions st !! Msg.chat_id m = Some s ->
  Session.step s = Step.location ->
  Spec.free_text_location m = true ->
  geocodeLocation e (text_trim m) = None ->
  exists s',
    sessions (fst (onMessage cfg e m st)) !! Msg.chat_id m = Some s'
    /\ Data.location (Session.data s') = Some (text_trim m)
    /\ Data.lat (Session.data s') = Some null
    /\ Data.lng (Session.data s') = Some null
    /\ Session.data s' =
         Data.set_lng (Some null)
           (Data.set_lat (Some null)
              (Data.set_location (Some (text_trim m)) (Session.data s))).
Proof.
  intros Hs Hstep Hm Hgeo.
  unfold Spec.free_text_location in Hm.
  repeat match type of Hm with
         | _ && _ = true => let H := fresh "H" in apply andb_prop in Hm as [Hm H]
         end.
  repeat match goal with
         | H : negb _ = true |- _ => apply negb_true_iff in H
         | H : bool_decide _ = true |- _ => apply bool_decide_eq_true_1 in H
         end.
  destruct (reaches_step_machine_true m Hm) as (He & Hb & Hc).
  rewrite (onMessage_stepMachine cfg e m st s Hs He Hb Hc).
  destruct (stepMachine_location_unresolved cfg e (Msg.chat_id m) m s)
    as (s' & out & -> & Hd); try assumption.
  exists s'. cbn [fst]. rewrite putSession_lookup, Hd. auto 6.
Qed.

(** C8, as amended.  [/back] writes nothing but the step of the session:
    the draft and the pending record stay as they are.  In field-menu
    edit mode it returns to the field menu; otherwise it moves to the
    previous step of the sequence, and where there is none (the first
    step) it changes nothing and says ["Already at the first step."].
    The round trip: when the state was reached by a message that moved a
    session outside menu mode one step forward, the same message handled
    again after the [/back] gives the same draft at the same step,
    provided what the step reads for the draft is answered as it was
    ([Spec.draft_answers_alike]: the clock at the date step for a text
    that reads it, the geocoder at the location step, the download at
    the attachment step); and it leads to that very state, with the same
    replies, when the preview that ends the note step is answered alike
    too ([Spec.answers_alike]).  In menu mode a written field returns
    the session to the field menu: there [/back] changes nothing, and
    neither does a message after it. *)
Theorem back_is_reversible (e : env) (mb : Msg.t) (st : state) (s : Session.t) :
  sessions st !! Msg.chat_id mb = Some s ->
  let chat := Msg.chat_id mb in
  let st' := fst (onText_back mb st) in
  let out := snd (onText_back mb st) in
  exists s',
    st' = putSession chat s' st
    /\ Session.data s' = Session.data s
    /\ Session.pending s' = Session.pending s
    /\ (if isEditMenuMode s && negb (Step.eqb (Session.step s) Step.edit_menu)
        then Session.step s' = Step.edit_menu /\ out = promptForStep chat s'
        else match stepPrev (Session.step s) with
             | Some prev => Session.step s' = prev /\ out = promptForStep chat s'
             | None => s' = s /\ st' = st
                       /\ out = [sendMessage chat "Already at the first step."]
             end)
    /\ (forall (e' : env) (m : Msg.t) (st0 : state) (s0 : Session.t) (out0 : list call),
          Msg.chat_id m = chat ->
          Spec.reaches_step_machine m = true ->
          sessions st0 !! chat = Some s0 ->
          isEditMenuMode s0 = false ->
          onMessage cfg e m st0 = (st, out0) ->
          stepPrev (Session.step s) = Some (Session.step s0) ->
          (Spec.draft_answers_alike (Config.dateParse cfg) m (Session.step s0) e e' ->
           exists s2,
             sessions (fst (onMessage cfg e' m st')) !! chat = Some s2
             /\ Session.data s2 = Session.data s
             /\ Session.step s2 = Session.step s)
          /\ (Spec.answers_alike (Config.dateParse cfg) m (Session.step s0) e e' ->
              onMessage cfg e' m st' = (st, out0)))
    /\ (forall (e' : env) (m : Msg.t),
          Msg.chat_id m = chat ->
          Spec.reaches_step_machine m = true ->
          Session.step s = Step.edit_menu ->
          st' = st /\ onMessage cfg e' m st' = (st, [])).
Proof.
  intros Hs chat st' out. subst chat st' out. unfold onText_back, onSession.
  rewrite Hs. destruct (goBack (Msg.chat_id mb) s) as [s' o] eqn:Hback. cbn [fst snd].
  exists s'. split; [reflexivity|].
  pose proof (goBack_data (Msg.chat_id mb) s) as (Hd & Hp & _).
  rewrite Hback in Hd, Hp. cbn in Hd, Hp.
  split; [exact Hd|]. split; [exact Hp|]. split; [|split].
  - unfold goBack in Hback.
    destruct (isEditMenuMode s && negb (Step.eqb (Session.step s) Step.edit_menu)).
    + injection Hback as <- <-. auto.
    + destruct (stepPrev (Session.step s)); injection Hback as <- <-; [auto|].
      split; [reflexivity|]. split; [apply putSession_same, Hs|reflexivity].
  - intros e' m st0 s0 out0 Hchat Hm Hs0 Hmenu Hfwd Hprev.
    destruct (reaches_step_machine_true m Hm) as (He & Hb & Hc).
    rewrite <- Hchat in *.
    rewrite (onMessage_stepMachine cfg e m st0 s0 Hs0 He Hb Hc) in Hfwd.
    destruct (stepMachine cfg e (Msg.chat_id m) m s0) as [[s1 o1]|err] eqn:Hstep.
    + injection Hfwd as Hst Hout. subst out0.
      assert (s1 = s).
      { rewrite <- Hst in Hs. rewrite putSession_lookup in Hs. congruence. }
      subst s1.
      pose proof (stepMachine_back_again cfg e _ m s0 s o1 Hmenu Hstep Hprev) as Hagain.
      pose proof (back_to_step cfg e _ m s0 s o1 Hmenu Hstep Hprev) as Hto.
      rewrite Hback in Hagain, Hto. cbn [fst] in Hagain, Hto.
      rewrite (onMessage_stepMachine cfg e' m _ s' (putSession_lookup _ _ _) He Hb Hc).
      split.
      * intros Ha. rewrite <- Hto in Ha.
        destruct (stepMachine_draft_alike cfg e e' _ m s' s o1 Ha Hagain)
          as (s2 & out2 & -> & Hd2 & Hs2).
        exists s2. cbn [fst]. rewrite putSession_lookup. auto.
      * intros Ha. rewrite <- Hto in Ha.
        rewrite (stepMachine_alike cfg e e' _ m s' Ha), Hagain, putSession_again.
        rewrite <- Hst at 1. rewrite putSession_again. rewrite Hst. reflexivity.
    + injection Hfwd as Hst _. rewrite <- Hst in Hs. cbn in Hs.
      rewrite lookup_delete_eq in Hs. discriminate Hs.
  - intros e' m Hchat Hm Hmenu.
    destruct (reaches_step_machine_true m Hm) as (He & Hb & Hc).
    unfold goBack in Hback. rewrite Hmenu in Hback. cbn in Hback.
    rewrite andb_false_r in Hback. injection Hback as <- <-.
    rewrite (putSession_same _ _ _ Hs). split; [reflexivity|].
    rewrite <- Hchat in Hs.
    rewrite (onMessage_stepMachine cfg e' m st s Hs He Hb Hc).
    unfold stepMachine. rewrite Hmenu. rewrite (putSession_same _ _ _ Hs). reflexivity.
Qed.

(** C7, as amended.  With the database configured, for an identifier
    that is not a full UUID.  When its hexadecimal digits, the first 32
    of them, are at least 6 and the database answers the query: if more
    than one stored id starts with those digits (compared without case)
    the lookup fails with the ambiguity error; if exactly one does, that
    id is returned in full; if none does, the result is empty.  When the
    query fails, the lookup fails with the error of the query.  When the
    identifier has fewer than 6 hexadecimal digits it is returned as it
    came, trimmed, without a lookup: whatever the table holds and whether
    or not the database answers. *)
Theorem ambiguous_prefix_rejected (e : env) (st : state) (idOrPrefix : option string) :
  let raw := normalizeText idOrPrefix in
  let matching := filter (fun a => id_ilike (hex_prefix raw) a = true) (db st) in
  Config.dbEnabled cfg = true ->
  isUuidLike (Some raw) = false ->
  ((6 <= String.length (hex_prefix raw))%nat ->
   (db_error e = None ->
    ((2 <= length matching)%nat ->
     resolveDbIdFromPrefix cfg e st idOrPrefix =
       Throws "Multiple activities match that ID prefix. Please copy the full ID from /list.")
    /\ (forall r, matching = [r] ->
        exists i, Activity.id r = Some i
                  /\ resolveDbIdFromPrefix cfg e st idOrPrefix = Returns i)
    /\ (matching = [] -> resolveDbIdFromPrefix cfg e st idOrPrefix = Returns EmptyString))
   /\ (forall err, db_error e = Some err ->
       resolveDbIdFromPrefix cfg e st idOrPrefix = Throws err))
  /\ ((String.length (hex_prefix raw) < 6)%nat ->
      forall (e' : env) (st' : state),
        resolveDbIdFromPrefix cfg e' st' idOrPrefix = Returns raw).
Proof.
  intros raw matching Hdb Huuid. split.
  - intros Hlen. split.
    + intros Herr.
      rewrite (resolveDbIdFromPrefix_lookup cfg e st idOrPrefix Hdb Herr
                 (hex_prefix_nonempty raw Hlen) Huuid Hlen).
      fold raw. fold matching. split; [|split].
      * intros H. destruct matching as [|r1 [|r2 l]]; cbn in H; [lia|lia|reflexivity].
      * intros r Hr.
        assert (Hin : r ∈ matching) by (rewrite Hr; apply list_elem_of_here).
        apply list_elem_of_filter in Hin as [Hmatch _].
        unfold id_ilike in Hmatch. destruct (Activity.id r) as [i|] eqn:E; [|discriminate].
        exists i. rewrite Hr, E. auto.
      * intros ->. reflexivity.
    + intros err Herr.
      apply (resolveDbIdFromPrefix_failing cfg e st idOrPrefix err Hdb Herr Huuid Hlen).
  - intros Hlen e' st'. apply resolveDbIdFromPrefix_short, Hlen.
Qed.

(** C9, as amended.  [isAllowed] holds exactly when the allow-list is
    empty or contains the sender id.  For a sender it does not hold for,
    [/new], [/edit], [/delete] and [/add] leave the state as it is and
    reply once: ["Not authorized"] for edit, delete and add, and ["You
    are not authorized to use guided input."] for new.  [/help] and
    [/list] answer whoever asks. *)
Theorem authorization_gating (e : env) (m : Msg.t) (arg : option string) (match1 : string)
  (st : state) :
  (isAllowed cfg (Msg.from_id m) = true <->
   Config.ALLOWED cfg = [] \/ In (Some (Msg.from_id m)) (Config.ALLOWED cfg))
  /\ (isAllowed cfg (Msg.from_id m) = false ->
      onText_new cfg m st
        = (st, [sendMessage (Msg.chat_id m) "You are not authorized to use guided input."])
      /\ onText_edit cfg e m arg st = (st, [sendMessage (Msg.chat_id m) "Not authorized"])
      /\ onText_delete cfg e m arg st = (st, [sendMessage (Msg.chat_id m) "Not authorized"])
      /\ onText_add cfg e m match1 st = (st, [sendMessage (Msg.chat_id m) "Not authorized"]))
  /\ onText_help m st = (st, [sendHelp (Msg.chat_id m)])
  /\ fst (onText_list m arg st) = st
  /\ (exists page, snd (onText_list m arg st) = [sendRecentListPage (Msg.chat_id m) page None]).
Proof.
  split; [apply isAllowed_iff|].
  split; [apply unauthorized_rejected|].
  split; [reflexivity|]. split; [reflexivity|]. eexists. reflexivity.
Qed.


End Claims.

(** The concrete states are states of the dialogue: [/edit a-1], the
    button [Edit all (guided)] and the text [skip] three times lead to the
    count step, and seven times to the preview. *)
Example reach_count_step : Run.skips 3 Run.after_edit_all = Run.at_step Step.count.
Proof. vm_compute. reflexivity. Qed.

Example reach_confirming : Run.skips 7 Run.after_edit_all = Run.confirming_state.
Proof. vm_compute. reflexivity. Qed.




(** C5 at ["sometime next week"], typed at the date step of the edit
    session of chat 7. *)
Lemma date_fallback_witness :
  exists s',
    sessions (fst (onMessage Run.open_to_all Run.world
                     (Run.text 7 42 "sometime next week") (Run.at_step Step.date))) !! 7
      = Some s'
    /\ Data.date (Session.data s') = Some (now Run.world)
    /\ Data.dateRaw (Session.data s') = Some "sometime next week".
Proof.
  destruct (date_fallback Run.open_to_all Run.world (Run.text 7 42 "sometime next week")
              (Run.at_step Step.date) (Run.editing Step.date))
    as (s' & H1 & H2 & H3 & _).
  - vm_compute. reflexivity.
  - reflexivity.
  - vm_compute. reflexivity.
  - vm_compute. reflexivity.
  - exists s'. auto.
Defined.

(** C10 at ["Kampung Baru"], typed at the location step of the edit
    session of chat 7, whose draft was seeded with coordinates. *)
Lemma failed_geocode_clears_coordinates_witness :
  exists s',
    sessions (fst (onMessage Run.open_to_all Run.world
                     (Run.text 7 42 "Kampung Baru") (Run.at_step Step.location))) !! 7
      = Some s'
    /\ Data.location (Session.data s') = Some "Kampung Baru"
    /\ Data.lat (Session.data s') = Some null
    /\ Data.lng (Session.data s') = Some null.
Proof.
  destruct (failed_geocode_clears_coordinates Run.open_to_all Run.world
              (Run.text 7 42 "Kampung Baru")
              (Run.at_step Step.location) (Run.editing Step.location))
    as (s' & H1 & H2 & H3 & H4 & _).
  - vm_compute. reflexivity.
  - reflexivity.
  - vm_compute. reflexivity.
  - reflexivity.
  - exists s'. auto.
Defined.

(** C8 at the count step of the edit session of chat 7, reached from the
    date step by the text ["2025-12-21"]: after [/back] the same text,
    sent a minute later, leads to the same state and the same prompt. *)
Lemma back_is_reversible_witness :
  let reached :=
    onMessage Run.open_to_all Run.world (Run.text 7 42 "2025-12-21")
      (Run.at_step Step.date) in
  onMessage Run.open_to_all Run.later (Run.text 7 42 "2025-12-21")
    (fst (onText_back (Run.text 7 42 "/back") (fst reached)))
  = reached
  /\ sessions (fst reached) !! 7
     = Some (Session.update (Data.set_date (Some 1766275200000)) (Run.editing Step.count)).
Proof.
  intros reached.
  destruct (back_is_reversible Run.open_to_all Run.world (Run.text 7 42 "/back")
              (fst reached)
              (Session.update (Data.set_date (Some 1766275200000))
                 (Run.editing Step.count)))
    as (s' & _ & _ & _ & _ & Hagain & _).
  - vm_compute. reflexivity.
  - destruct (Hagain Run.later (Run.text 7 42 "2025-12-21") (Run.at_step Step.date)
                (Run.editing Step.date) (snd reached)) as [_ H].
    + reflexivity.
    + vm_compute. reflexivity.
    + vm_compute. reflexivity.
    + reflexivity.
    + vm_compute. reflexivity.
    + reflexivity.
    + split; [|vm_compute; reflexivity].
      rewrite H; [vm_compute; reflexivity|].
      split; [left; vm_compute; reflexivity|discriminate].
Defined.

(** C8, counterexample.  At the date step the text ["now"] writes the
    reading of the clock.  Sent again after [/back], a minute later, it
    writes another date: the draft is not the one of never having gone
    back. *)
Lemma back_then_now_gives_another_date :
  let st1 :=
    fst (onMessage Run.open_to_all Run.world (Run.text 7 42 "now")
           (Run.at_step Step.date)) in
  let st2 := fst (onText_back (Run.text 7 42 "/back") st1) in
  let st3 := fst (onMessage Run.open_to_all Run.later (Run.text 7 42 "now") st2) in
  exists s1 s2 s3,
    sessions st1 !! 7 = Some s1
    /\ sessions st2 !! 7 = Some s2
    /\ sessions st3 !! 7 = Some s3
    /\ Session.step s1 = Step.count
    /\ Session.step s2 = Step.date
    /\ Session.step s3 = Step.count
    /\ Data.date (Session.data s1) = Some 1767225600000
    /\ Data.date (Session.data s3) = Some 1767225660000
    /\ Session.data s3 <> Session.data s1.
Proof.
  vm_compute. eexists _, _, _.
  repeat (split; [reflexivity|]). intros H. discriminate H.
Qed.

(** C7 at the prefix ["abcdef"], which two stored ids start with, and at
    ["abc-1"], which has four hexadecimal digits. *)
Lemma ambiguous_prefix_rejected_witness :
  resolveDbIdFromPrefix (Run.config [] true) Run.world Run.two_rows_6 (Some "abcdef")
  = Throws "Multiple activities match that ID prefix. Please copy the full ID from /list."
  /\ resolveDbIdFromPrefix (Run.config [] true) Run.world Run.two_rows_6 (Some "abc-1")
     = Returns "abc-1".
Proof.
  split.
  - destruct (ambiguous_prefix_rejected (Run.config [] true) Run.world Run.two_rows_6
                (Some "abcdef")) as [H _].
    + reflexivity.
    + vm_compute. reflexivity.
    + destruct H as [H _]; [vm_compute; lia|].
      destruct H as (H & _); [reflexivity|].
      apply H. vm_compute. lia.
  - destruct (ambiguous_prefix_rejected (Run.config [] true) Run.world Run.two_rows_6
                (Some "abc-1")) as [_ H].
    + reflexivity.
    + vm_compute. reflexivity.
    + apply H. vm_compute. lia.
Defined.

(** C7, counterexample.  Two stored ids start with ["abcde"], and the
    lookup of that prefix returns it as it came, without an error: a
    prefix of fewer than six hexadecimal digits is not looked up. *)
Lemma short_prefix_not_rejected :
  length (filter (fun a => id_ilike "abcde" a = true) (db Run.two_rows)) = 2%nat
  /\ resolveDbIdFromPrefix (Run.config [] true) Run.world Run.two_rows (Some "abcde")
     = Returns "abcde".
Proof. split; vm_compute; reflexivity. Qed.

(** C9 for sender 2 when the allow-list holds sender 1 only. *)
Lemma authorization_gating_witness :
  onText_new (Run.config [Some 1] false) (Run.text 7 2 "/new") Run.start
    = (Run.start, [sendMessage 7 "You are not authorized to use guided input."])
  /\ onText_edit (Run.config [Some 1] false) Run.world (Run.text 7 2 "/edit a-1")
       (Some "a-1") Run.start
     = (Run.start, [sendMessage 7 "Not authorized"])
  /\ onText_delete (Run.config [Some 1] false) Run.world (Run.text 7 2 "/delete a-1")
       (Some "a-1") Run.start
     = (Run.start, [sendMessage 7 "Not authorized"])
  /\ onText_add (Run.config [Some 1] false) Run.world (Run.text 7 2 "/add x") " x" Run.start
     = (Run.start, [sendMessage 7 "Not authorized"]).
Proof.
  apply (authorization_gating (Run.config [Some 1] false) Run.world
           (Run.text 7 2 "/new") (Some "a-1") " x" Run.start).
  vm_compute. reflexivity.
Defined.

(** C9, counterexample.  To a sender who is not allowed, [/new] replies
    ["You are not authorized to use guided input."], which is not the
    reply ["Not authorized"] of the other three commands. *)
Lemma guided_start_has_its_own_reply :
  isAllowed (Run.config [Some 1] false) 2 = false
  /\ snd (onText_new (Run.config [Some 1] false) (Run.text 7 2 "/new") Run.start)
     = [sendMessage 7 "You are not authorized to use guided input."]
  /\ snd (onText_new (Run.config [Some 1] false) (Run.text 7 2 "/new") Run.start)
     <> [sendMessage 7 "Not authorized"].
Proof.
  split; [reflexivity|]. split; [reflexivity|].
  vm_compute. intros H. discriminate H.
Qed.



(** C1, at the failing input.  The edit session of chat 7 is at the count
    step, its draft seeded with the count 1200, in guided (not menu)
    mode.  The command [/skip] reaches [handleSkip], which sets the count
    to null; the text [skip], handled by the message handler, keeps 1200;
    and the message handler itself leaves [/skip] to the command. *)
Theorem skip_command_clears_seeded_count :
  Data.count Run.seeded = Some (CNum (1200 # 1))
  /\ (Session.data <$>
        sessions (fst (onText_skip Run.open_to_all Run.world (Run.text 7 42 "/skip")
                         (Run.at_step Step.count))) !! 7)
     = Some (Data.set_count (Some CNull) Run.seeded)
  /\ (Session.data <$>
        sessions (fst (onMessage Run.open_to_all Run.world (Run.text 7 42 "skip")
                         (Run.at_step Step.count))) !! 7)
     = Some Run.seeded
  /\ onMessage Run.open_to_all Run.world (Run.text 7 42 "/skip") (Run.at_step Step.count)
     = (Run.at_step Step.count, []).
Proof. repeat split; vm_compute; reflexivity. Qed.

(** C2, at the failing input.  Chat 7 has an edit session at the count
    step.  [/new] replaces it with a fresh create session at the title
    step, its draft empty; [/edit] is rejected and leaves it as it is. *)
Theorem guided_start_overwrites_session :
  sessions (Run.at_step Step.count) !! 7 = Some (Run.editing Step.count)
  /\ onText_new Run.open_to_all (Run.text 7 42 "/new") (Run.at_step Step.count)
     = (mkState {[7 := Session.mk 42 create None Step.title Data.empty None]} ∅
                [Run.stored] [],
        [sendPrompt 7 Step.title create None])
  /\ onText_edit Run.open_to_all Run.world (Run.text 7 42 "/edit a-1") (Some "a-1")
       (Run.at_step Step.count)
     = (Run.at_step Step.count,
        [sendMessage 7 "You are already in a session. Type /cancel to stop it first."]).
Proof. repeat split; vm_compute; reflexivity. Qed.

(** * Further properties *)

(** ** Trimming *)

Module TrimFacts.
Import Str.

Lemma trimEnd_eq (c : ascii) (r : string) :
  trimEnd (String c r) =
    match trimEnd r with
    | EmptyString => if is_space c then EmptyString else String c EmptyString
    | r' => String c r'
    end.
Proof. reflexivity. Qed.

Lemma trimEnd_idem (s : string) : trimEnd (trimEnd s) = trimEnd s.
Proof.
  induction s as [|c r IH]; [reflexivity|].
  rewrite trimEnd_eq. destruct (trimEnd r) as [|c' r'] eqn:E.
  - destruct (is_space c) eqn:Hc; [reflexivity|].
    cbn. rewrite Hc. reflexivity.
  - rewrite trimEnd_eq, IH. reflexivity.
Qed.

(** a string [trimStart] leaves alone is empty or starts with a
    character that is no space *)
Lemma trimStart_fixed (t : string) :
  trimStart t = t -> trimStart (trimEnd t) = trimEnd t.
Proof.
  destruct t as [|c r]; [reflexivity|]. intros H.
  assert (Hc : is_space c = false).
  { destruct (is_space c) eqn:Hc; [|reflexivity]. exfalso.
    cbn in H. rewrite Hc in H.
    assert (L : forall x, (String.length (trimStart x) <= String.length x)%nat).
    { induction x as [|a x IHx]; cbn; [lia|]. destruct (is_space a); cbn; lia. }
    specialize (L r). rewrite H in L. cbn in L. lia. }
  rewrite trimEnd_eq. destruct (trimEnd r); rewrite ?Hc; cbn; rewrite Hc; reflexivity.
Qed.

Lemma trimStart_idem (s : string) : trimStart (trimStart s) = trimStart s.
Proof.
  induction s as [|c r IH]; [reflexivity|].
  cbn. destruct (is_space c) eqn:Hc; [exact IH|]. cbn. rewrite Hc. reflexivity.
Qed.

Lemma trim_idem (s : string) : trim (trim s) = trim s.
Proof.
  unfold trim. rewrite (trimStart_fixed _ (trimStart_idem s)). apply trimEnd_idem.
Qed.

Lemma normalizeText_idem (x : option string) :
  normalizeText (Some (normalizeText x)) = normalizeText x.
Proof. unfold normalizeText. cbn. apply trim_idem. Qed.

Lemma trimEnd_no_space (s : string) : all Law.no_space s = true -> trimEnd s = s.
Proof.
  induction s as [|c r IH]; [reflexivity|]. cbn [all]. intros H.
  apply andb_prop in H as [Hc Hr]. apply negb_true_iff in Hc.
  rewrite trimEnd_eq, (IH Hr). destruct r; [rewrite Hc|]; reflexivity.
Qed.

Lemma trim_no_space (s : string) : all Law.no_space s = true -> trim s = s.
Proof.
  intros H. unfold trim.
  assert (Hs : trimStart s = s).
  { destruct s as [|c r]; [reflexivity|]. cbn in *.
    apply andb_prop in H as [Hc _]. apply negb_true_iff in Hc. rewrite Hc. reflexivity. }
  rewrite Hs. apply trimEnd_no_space, H.
Qed.

End TrimFacts.

(** ** Characters *)

Module CharFacts.
Import Str.

Ltac each_char c := destruct c as [[] [] [] [] [] [] [] []].

Lemma digit_char (c : ascii) :
  is_digit c = true ->
  is_space c = false /\ lower_char c = c
  /\ Ascii.eqb c "s" = false /\ Ascii.eqb "/" c = false
  /\ count_separator c = false /\ count_run c = true /\ not_digit_or_dot c = false.
Proof. each_char c; intros H; try discriminate H; repeat split. Qed.

Lemma lower_char_idem (c : ascii) : lower_char (lower_char c) = lower_char c.
Proof. each_char c; reflexivity. Qed.

Lemma lower_char_space (c : ascii) : is_space (lower_char c) = is_space c.
Proof. each_char c; reflexivity. Qed.

Lemma toLowerCase_idem (s : string) : toLowerCase (toLowerCase s) = toLowerCase s.
Proof.
  induction s as [|c r IH]; [reflexivity|]. cbn. rewrite lower_char_idem, IH. reflexivity.
Qed.

Lemma all_impl (p q : ascii -> bool) (s : string) :
  (forall c, p c = true -> q c = true) -> all p s = true -> all q s = true.
Proof.
  intros H. induction s as [|c r IH]; [reflexivity|]. cbn. intros Hs.
  apply andb_prop in Hs as [Hc Hr]. rewrite (H _ Hc), (IH Hr). reflexivity.
Qed.

Lemma remove_none (cls : ascii -> bool) (s : string) :
  all (fun c => negb (cls c)) s = true -> remove cls s = s.
Proof.
  induction s as [|c r IH]; [reflexivity|]. cbn. intros H.
  apply andb_prop in H as [Hc Hr]. apply negb_true_iff in Hc.
  rewrite Hc, (IH Hr). reflexivity.
Qed.

Lemma span_all (cls : ascii -> bool) (w : string) :
  all cls w = true -> span cls w = (w, EmptyString).
Proof.
  induction w as [|c w IH]; cbn; [reflexivity|].
  intros H. apply andb_prop in H as [Hc Hw]. rewrite Hc, (IH Hw). reflexivity.
Qed.

Lemma span_fst (cls : ascii -> bool) (s : string) : all cls (fst (span cls s)) = true.
Proof.
  induction s as [|c r IH]; [reflexivity|]. cbn.
  destruct (cls c) eqn:Hc; [|reflexivity].
  destruct (span cls r) as [a b]. cbn in *. rewrite Hc, IH. reflexivity.
Qed.

Lemma seek_some (cls : ascii -> bool) (s r : string) :
  seek cls s = Some r -> all (fun c => negb (cls c)) s = false.
Proof.
  induction s as [|c s IH]; [discriminate|]. cbn.
  destruct (cls c); [reflexivity|]. cbn. exact IH.
Qed.

Lemma startsWith_refl (s : string) : startsWith s s = true.
Proof.
  induction s as [|c r IH]; [reflexivity|]. cbn. rewrite Ascii.eqb_refl. exact IH.
Qed.

Lemma drop_all (s : string) : drop (String.length s) s = EmptyString.
Proof. induction s as [|c r IH]; [reflexivity|exact IH]. Qed.

Lemma replaceFirst_self (s : string) : replaceFirst s EmptyString s = EmptyString.
Proof. rewrite StrFacts.replaceFirst_eq, startsWith_refl, drop_all. reflexivity. Qed.

Lemma all_app (cls : ascii -> bool) (a b : string) :
  all cls (a ++ b) = all cls a && all cls b.
Proof.
  induction a as [|c a IH]; [reflexivity|]. simpl. rewrite IH. apply andb_assoc.
Qed.

End CharFacts.

(** ** More on the count parser *)

Module CountMore.
Import Str CharFacts.

Lemma Qred_int (v : Z) : Qred (v # 1) = v # 1.
Proof.
  unfold Qred.
  pose proof (Z.ggcd_gcd v 1) as Hg. pose proof (Z.ggcd_correct_divisors v 1) as Hd.
  destruct (Z.ggcd v 1) as [g [a b]]. cbn [fst snd] in *.
  rewrite Z.gcd_1_r in Hg. subst g. destruct Hd as [Ha Hb].
  rewrite Z.mul_1_l in Ha, Hb. subst a b. reflexivity.
Qed.

Lemma Number_decimal_sign (numStr : string) (n : Q) :
  Number_decimal numStr = Some n -> (0 <= n)%Q.
Proof.
  unfold Number_decimal.
  pose proof (span_fst is_digit numStr) as Hip.
  destruct (span is_digit numStr) as [ip rest]. cbn in Hip.
  destruct rest as [|c fp].
  - intros H. injection H as <-. rewrite Qred_correct.
    pose proof (DateFacts.digits_value_bound ip 0 Hip ltac:(lia)).
    unfold Qle. cbn. lia.
  - destruct (is_char "." c && all is_digit fp) eqn:E; [|discriminate].
    apply andb_prop in E as [_ Hfp].
    intros H. injection H as <-. rewrite Qred_correct.
    assert (Hall : all is_digit (ip ++ fp) = true) by (rewrite all_app, Hip, Hfp; reflexivity).
    pose proof (DateFacts.digits_value_bound _ 0 Hall ltac:(lia)).
    unfold Qle. cbn. lia.
Qed.

(** X1.  A plain whole number.  A text made of one to fifteen decimal
    digits that are not all zeros parses to the number it writes. *)
Theorem parseCountInput_integer (s : string) :
  Str.is_empty s = false ->
  Str.all Str.is_digit s = true ->
  all_zeros s = false ->
  (String.length s <= 15)%nat ->
  parseCountInput (Some s) = CNum (inject_Z (Number_digits s)).
Proof.
  intros Hne Hd Hz Hlen.
  assert (Hns : all Law.no_space s = true).
  { apply (all_impl is_digit); [|exact Hd]. intros c Hc.
    unfold Law.no_space. rewrite (proj1 (digit_char c Hc)). reflexivity. }
  assert (Ht : normalizeText (Some s) = s) by (apply TrimFacts.trim_no_space, Hns).
  assert (Hskip : isSkipText (Some s) = false).
  { unfold isSkipText. rewrite Ht. destruct s as [|c r]; [discriminate|].
    cbn in Hd. apply andb_prop in Hd as [Hc _]. clear -Hc.
    each_char c; try discriminate Hc; reflexivity. }
  assert (Hsep : remove count_separator s = s).
  { apply remove_none, (all_impl is_digit); [|exact Hd]. intros c Hc.
    destruct (digit_char c Hc) as (_ & _ & _ & _ & H & _). rewrite H. reflexivity. }
  assert (Hnum : remove not_digit_or_dot s = s).
  { apply remove_none, (all_impl is_digit); [|exact Hd]. intros c Hc.
    destruct (digit_char c Hc) as (_ & _ & _ & _ & _ & _ & H). rewrite H. reflexivity. }
  assert (Hm : count_digitMatch s = Some s).
  { unfold count_digitMatch. destruct s as [|c r]; [discriminate|].
    assert (Hc : is_digit c = true) by (cbn in Hd; apply andb_prop in Hd as [Hc _]; exact Hc).
    cbn [seek]. rewrite Hc.
    rewrite (span_all count_run); [reflexivity|].
    apply (all_impl is_digit); [|exact Hd]. intros c0 Hc0. apply (digit_char c0 Hc0). }
  unfold parseCountInput. rewrite Ht, Hne, Hskip, Hsep, Hz, Hm, Hnum. cbn [orb].
  unfold Number_decimal. rewrite (span_all _ _ Hd), Qred_int.
  assert (Hfin : Number_isFinite (digits_value 0 s # 1) = true).
  { unfold Number_isFinite, Qle_bool. cbn [Qnum Qden]. rewrite !Z.mul_1_r.
    apply negb_true_iff, Z.leb_gt.
    pose proof (DateFacts.digits_value_bound s 0 Hd ltac:(lia)) as Hb.
    assert (10 ^ Z.of_nat (String.length s) <= 10 ^ 15) by (apply Z.pow_le_mono_r; lia).
    assert (10 ^ 15 < 2 ^ 1024 - 2 ^ 970) by (vm_compute; reflexivity).
    lia. }
  rewrite Hfin, replaceFirst_self. reflexivity.
Qed.

(** X2.  What the count parser returns.  The result is null, or a
    number that is finite and not negative and comes from a text with a
    digit in it, or the text itself, trimmed, which is then not empty
    and not the skip token.  The result depends on the trimmed text
    only: parsing the trimmed text again gives the same. *)
Theorem parseCountInput_results (raw : option string) :
  let t := normalizeText raw in
  match parseCountInput raw with
  | CNull => True
  | CNum n => (0 <= n)%Q /\ Number_isFinite n = true /\ Str.all Spec.no_digit t = false
  | CText t' => t' = t /\ Str.is_empty t = false /\ isSkipText (Some t) = false
  end
  /\ parseCountInput (Some t) = parseCountInput raw.
Proof.
  intros t. split.
  - unfold parseCountInput. fold t.
    destruct (is_empty t) eqn:He; [exact I|].
    destruct (isSkipText (Some t)) eqn:Hs; [exact I|]. cbn [orb].
    destruct (all_zeros _); [exact I|].
    unfold count_digitMatch.
    destruct (seek is_digit t) as [r|] eqn:Hseek; [|auto].
    destruct (Number_decimal _) as [n|] eqn:Hn; [|auto].
    destruct (Number_isFinite n) eqn:Hf; [|auto].
    destruct (_ || _); [|auto].
    split; [exact (Number_decimal_sign _ _ Hn)|]. split; [exact Hf|].
    exact (seek_some _ _ _ Hseek).
  - subst t. unfold parseCountInput. rewrite (TrimFacts.normalizeText_idem raw). reflexivity.
Qed.

End CountMore.

(** X1 at ["8000"]. *)
Lemma parseCountInput_integer_witness : parseCountInput (Some "8000") = CNum (8000 # 1).
Proof.
  apply (CountMore.parseCountInput_integer "8000"); [reflexivity..|].
  vm_compute. lia.
Defined.

(** ** The activity type *)

Module TypeFacts.
Import Str CharFacts.

Lemma replace_space_runs_no_space (s : string) : forall b,
  all Law.no_space (replace_space_runs_from b s) = true.
Proof.
  induction s as [|c r IH]; intros b; [reflexivity|]. cbn.
  destruct (is_space c) eqn:Hc.
  - destruct b; [apply IH|]. cbn. apply IH.
  - cbn. unfold Law.no_space at 1. rewrite Hc. apply IH.
Qed.

Lemma replace_space_runs_fixed (s : string) : forall b,
  all Law.no_space s = true -> replace_space_runs_from b s = s.
Proof.
  induction s as [|c r IH]; intros b H; [reflexivity|]. cbn in *.
  apply andb_prop in H as [Hc Hr]. apply negb_true_iff in Hc.
  rewrite Hc, (IH false Hr). reflexivity.
Qed.

Lemma replace_space_runs_lower (s : string) : forall b,
  toLowerCase s = s ->
  toLowerCase (replace_space_runs_from b s) = replace_space_runs_from b s.
Proof.
  induction s as [|c r IH]; intros b H; [reflexivity|]. cbn in *.
  injection H as Hc Hr.
  destruct (is_space c); [destruct b|]; cbn; rewrite ?Hc, (IH _ Hr); reflexivity.
Qed.

(** a result without an underscore had no space to replace *)
Lemma replace_space_runs_plain (s : string) : forall w,
  replace_space_runs_from false s = w -> Law.no_underscore w = true -> s = w.
Proof.
  induction s as [|c r IH]; intros w H Hw; [exact H|]. cbn in H.
  destruct (is_space c).
  - subst w. discriminate Hw.
  - subst w. cbn in Hw. apply andb_prop in Hw as [_ Hw].
    f_equal. apply IH; [reflexivity|exact Hw].
Qed.

Lemma one_of_replace_space_runs (t : string) (l : list string) :
  forallb Law.no_underscore l = true ->
  one_of t l = false -> one_of (replace_space_runs t) l = false.
Proof.
  intros Hl Ht. destruct (one_of (replace_space_runs t) l) eqn:E; [|reflexivity].
  unfold one_of in *. apply existsb_exists in E as (w & Hin & Hw).
  apply String.eqb_eq in Hw.
  assert (Hnu : Law.no_underscore w = true).
  { rewrite forallb_forall in Hl. apply Hl, Hin. }
  rewrite <- (replace_space_runs_plain t w Hw Hnu) in Hin.
  assert (existsb (String.eqb t) l = true).
  { apply existsb_exists. exists t. split; [exact Hin|apply String.eqb_refl]. }
  congruence.
Qed.

Lemma replace_space_runs_empty (t : string) :
  is_empty t = false -> is_empty (replace_space_runs t) = false.
Proof.
  destruct t as [|c r]; [discriminate|]. intros _. unfold replace_space_runs. cbn.
  destruct (is_space c); reflexivity.
Qed.

(** X3.  Normalising an activity type twice is normalising it once;
    the normalised type holds no white space and no upper-case
    letter. *)
Theorem normalizeActivityType_idempotent (raw : option string) :
  normalizeActivityType (Some (normalizeActivityType raw)) = normalizeActivityType raw
  /\ Str.all Law.no_space (normalizeActivityType raw) = true
  /\ Str.toLowerCase (normalizeActivityType raw) = normalizeActivityType raw.
Proof.
  remember (normalizeActivityType raw) as res eqn:Hres.
  unfold normalizeActivityType in Hres.
  set (t := toLowerCase (normalizeText raw)) in Hres.
  assert (Hlow : toLowerCase t = t) by apply toLowerCase_idem.
  destruct (is_empty t) eqn:He; [subst res; repeat split; reflexivity|].
  repeat match type of Hres with
         | context [if one_of t ?l then _ else _] =>
             destruct (one_of t l) eqn:?; [subst res; repeat split; reflexivity|]
         end.
  assert (Hns : all Law.no_space res = true)
    by (subst res; apply replace_space_runs_no_space).
  assert (Hlr : toLowerCase res = res)
    by (subst res; apply replace_space_runs_lower, Hlow).
  split; [|split; assumption].
  unfold normalizeActivityType, normalizeText. cbn [from_option id].
  rewrite (TrimFacts.trim_no_space res Hns), Hlr.
  assert (Hfix : replace_space_runs res = res) by apply replace_space_runs_fixed, Hns.
  rewrite Hfix. subst res. rewrite (replace_space_runs_empty t He).
  repeat match goal with
         | H : one_of t ?l = false |- context [one_of (replace_space_runs t) ?l] =>
             rewrite (one_of_replace_space_runs t l eq_refl H)
         end.
  reflexivity.
Qed.

End TypeFacts.

(** ** The dialogue *)

Section DialogueFacts.

Variable cfg : Config.t.

Local Arguments or_else : simpl never.

Ltac split_cases H :=
  repeat match type of H with
         | context [if ?c then _ else _] => destruct c eqn:?
         | context [match ?x with _ => _ end] => destruct x eqn:?
         | context [mbind _ ?x] => destruct x eqn:?; cbn in H
         end.

Lemma same_file_refl (a : option (nullable Attachment.t)) : Law.same_file a a.
Proof. left. reflexivity. Qed.

Lemma sendPreview_shape (e : env) (chat : Z) (s : Session.t) :
  let s' := fst (sendPreview cfg e chat s) in
  Session.userId s' = Session.userId s
  /\ Session.mode s' = Session.mode s
  /\ Session.editMode s' = Session.editMode s
  /\ Session.step s' = Step.confirming
  /\ is_Some (Session.pending s')
  /\ Session.data s' = Data.set_attachment (Data.attachment (Session.data s')) (Session.data s)
  /\ Law.same_file (Data.attachment (Session.data s)) (Data.attachment (Session.data s')).
Proof.
  destruct s as [uid mo em stp d pend].
  destruct d as [di dt dat dd ddr dc dl dla dln dn [[|a]|]]; cbn.
  1, 3: repeat split; eauto; apply same_file_refl.
  destruct (truthy (Attachment.path a)); cbn; repeat split; eauto.
  - right. eauto.
  - apply same_file_refl.
Qed.

Lemma stepMachine_shape (e : env) (chat : Z) (m : Msg.t) (s s' : Session.t)
  (out : list call) :
  stepMachine cfg e chat m s = Returns (s', out) ->
  Session.userId s' = Session.userId s
  /\ Session.mode s' = Session.mode s
  /\ Session.editMode s' = Session.editMode s
  /\ (Session.step s' = Session.step s
      \/ (isEditMenuMode s = false /\ stepPrev (Session.step s') = Some (Session.step s))
      \/ (isEditMenuMode s = true /\ Session.step s' = Step.edit_menu))
  /\ Law.writes (Session.step s) (Session.data s) (Session.data s')
  /\ (Session.pending s' = Session.pending s \/ Session.step s' = Step.confirming)
  /\ (Law.session_ready s -> Law.session_ready s').
Proof.
  intros H.
  destruct s as [uid mo em stp d pend].
  destruct stp; cbn in H.
  all: split_cases H; try discriminate H; cbn in H.
  all: unfold advance_prompt, advance, goto, isEditMenuMode in *; cbn in *.
  all: try (destruct mo; [|destruct em as [[]|]]; cbn in *; try discriminate).
  all: try (injection H as <- <-).
  all: try (destruct d; cbn;
            repeat split; auto using same_file_refl;
            try (unfold Law.session_ready; cbn; intros; discriminate); fail).
  all: destruct d as [di dt dat dd ddr dc dl dla dln dn [[|a]|]]; cbn.
  all: try (destruct (truthy (Attachment.path a)) eqn:Hp; cbn).
  all: repeat split; eauto using same_file_refl.
  all: try (right; eauto; fail).
  all: try (unfold Law.session_ready; cbn; intros; eauto; fail).
Qed.

Lemma goBack_ready (chat : Z) (s : Session.t) :
  Law.session_ready s -> Law.session_ready (fst (goBack chat s)).
Proof.
  unfold goBack, Law.session_ready.
  destruct (isEditMenuMode s && negb (Step.eqb (Session.step s) Step.edit_menu));
    [cbn; discriminate|].
  destruct (Session.step s) eqn:E; cbn; rewrite ?E; auto; discriminate.
Qed.

Lemma handleSkip_shape (e : env) (chat : Z) (s : Session.t) :
  let s' := fst (handleSkip cfg e chat s) in
  Session.userId s' = Session.userId s
  /\ Session.mode s' = Session.mode s
  /\ Session.editMode s' = Session.editMode s
  /\ (if isEditMenuMode s
      then s' = Session.set_step Step.edit_menu s
      else match Session.step s with
           | Step.title | Step.confirming | Step.edit_menu =>
               handleSkip cfg e chat s = (s, [])
           | _ => stepPrev (Session.step s') = Some (Session.step s)
                  /\ Law.writes (Session.step s) (Session.data s) (Session.data s')
                  /\ snd (handleSkip cfg e chat s) <> []
           end)
  /\ (Law.session_ready s -> Law.session_ready s').
Proof.
  destruct s as [uid mo em stp d pend].
  unfold handleSkip.
  destruct (isEditMenuMode _) eqn:Hm.
  - cbn. repeat split; auto. unfold Law.session_ready. cbn. discriminate.
  - destruct stp; cbn [Session.step].
    all: try (cbn; destruct d; cbn; repeat split; auto;
              unfold Law.session_ready; cbn; try discriminate; fail).
    destruct d as [di dt dat dd ddr dc dl dla dln dn [[|a]|]]; cbn.
    all: try (destruct (truthy (Attachment.path a)) eqn:Hp; cbn).
    all: repeat split; eauto using same_file_refl; try discriminate.
    all: try (right; eauto; fail).
    all: try (unfold Law.session_ready; cbn; intros; eauto; fail).
Qed.

(** ** The two tables *)

Lemma local_to_refl (chat : Z) (st : state) : Law.local_to chat st st.
Proof. intros c _. auto. Qed.

Lemma touches_refl (chat : Z) (st : state) : Law.touches chat st st.
Proof. split; [apply local_to_refl|]. intros s' Hs H. exact (H _ Hs). Qed.

Lemma touches_trans (chat : Z) (st st1 st2 : state) :
  Law.touches chat st st1 -> Law.touches chat st1 st2 -> Law.touches chat st st2.
Proof.
  intros [L1 R1] [L2 R2]. split.
  - intros c Hc. destruct (L1 c Hc) as [A1 B1]. destruct (L2 c Hc) as [A2 B2].
    split; congruence.
  - intros s' Hs H. apply (R2 _ Hs). intros s1 Hs1. exact (R1 _ Hs1 H).
Qed.

Lemma touches_putSession (chat : Z) (s' : Session.t) (st : state) :
  ((forall s, sessions st !! chat = Some s -> Law.session_ready s) ->
   Law.session_ready s') ->
  Law.touches chat st (putSession chat s' st).
Proof.
  intros H. split.
  - intros c Hc. cbn. rewrite lookup_insert_ne by congruence. auto.
  - intros s Hs Hr. cbn in Hs. rewrite lookup_insert_eq in Hs.
    injection Hs as <-. auto.
Qed.

Lemma touches_endSession (chat : Z) (st : state) :
  Law.touches chat st (endSession chat st).
Proof.
  split.
  - intros c Hc. cbn. rewrite lookup_delete_ne by congruence. auto.
  - intros s Hs. cbn in Hs. rewrite lookup_delete_eq in Hs. discriminate Hs.
Qed.

Lemma touches_startSession (chat user : Z) (mo : mode) (st : state) :
  Law.touches chat st (startSession chat user mo st).
Proof.
  apply (touches_putSession chat (Session.mk user mo None Step.title Data.empty None)).
  intros _. unfold Law.session_ready. cbn. discriminate.
Qed.

Lemma touches_menu_delete (chat : Z) (st : state) :
  Law.touches chat st (set_pendingMenu (delete chat (pendingMenuActionByChatId st)) st).
Proof.
  split.
  - intros c Hc. cbn. rewrite lookup_delete_ne by congruence. auto.
  - intros s Hs H. exact (H _ Hs).
Qed.

Lemma touches_menu_insert (chat : Z) (a : menuAction) (st : state) :
  Law.touches chat st (set_pendingMenu (<[chat := a]> (pendingMenuActionByChatId st)) st).
Proof.
  split.
  - intros c Hc. cbn. rewrite lookup_insert_ne by congruence. auto.
  - intros s Hs H. exact (H _ Hs).
Qed.

(** a handler that writes a store only *)
Lemma touches_stores (chat : Z) (st st' : state) :
  sessions st' = sessions st ->
  pendingMenuActionByChatId st' = pendingMenuActionByChatId st ->
  Law.touches chat st st'.
Proof.
  intros Hs Hp. split.
  - intros c _. rewrite Hs, Hp. auto.
  - intros s Hl H. rewrite Hs in Hl. exact (H _ Hl).
Qed.

Lemma touches_onSession (chat : Z) (st : state) (f : Session.t -> Session.t * list call)
  (absent : list call) :
  (forall s, Law.session_ready s -> Law.session_ready (fst (f s))) ->
  Law.touches chat st (fst (onSession chat st f absent)).
Proof.
  intros Hf. unfold onSession. destruct (sessions st !! chat) as [s|] eqn:Hs.
  - specialize (Hf s). destruct (f s) as [s' out]. cbn [fst] in *.
    apply touches_putSession. intros H. apply Hf, H, Hs.
  - apply touches_refl.
Qed.

Lemma touches_beginGuidedFlow (chat from : Z) (st : state) :
  Law.touches chat st (fst (beginGuidedFlow cfg chat from st)).
Proof.
  unfold beginGuidedFlow. destruct (negb (isAllowed cfg from)); cbn [fst].
  - apply touches_refl.
  - apply touches_startSession.
Qed.

Lemma touches_beginEditFlow (e : env) (chat from : Z) (id : option string) (st : state) :
  Law.touches chat st (fst (beginEditFlow cfg e chat from id st)).
Proof.
  unfold beginEditFlow.
  repeat match goal with
         | |- context [if ?c then _ else _] => destruct c; cbn [fst]
         | |- context [match ?x with _ => _ end] => destruct x; cbn [fst]
         end.
  all: try apply touches_refl.
  all: eapply touches_trans; [apply touches_startSession|].
  all: apply touches_putSession; intros _; unfold Law.session_ready; cbn; discriminate.
Qed.

Lemma deleteActivityFromDb_tables (e : env) (st st' : state) (i : string)
  (r : option string) :
  deleteActivityFromDb cfg e st i = Returns (st', r) ->
  sessions st' = sessions st
  /\ pendingMenuActionByChatId st' = pendingMenuActionByChatId st.
Proof.
  unfold deleteActivityFromDb, query.
  destruct (negb (Config.dbEnabled cfg)); [discriminate|].
  destruct (db_error e); cbn; [discriminate|].
  destruct (find (id_is i) (db st)); intros H; injection H as <- <-; auto.
Qed.

Lemma insertActivityToDb_tables (e : env) (st st' : state) (item : Item.t)
  (r : option string) :
  insertActivityToDb cfg e st item = Returns (st', r) ->
  sessions st' = sessions st
  /\ pendingMenuActionByChatId st' = pendingMenuActionByChatId st.
Proof.
  unfold insertActivityToDb, query.
  destruct (negb (Config.dbEnabled cfg)); [discriminate|].
  destruct (db_error e); cbn; [discriminate|].
  intros H; injection H as <- <-; auto.
Qed.

Lemma updateActivityInDb_tables (e : env) (st st' : state) (i : string) (item : Item.t)
  (r : option string) :
  updateActivityInDb cfg e st i item = Returns (st', r) ->
  sessions st' = sessions st
  /\ pendingMenuActionByChatId st' = pendingMenuActionByChatId st.
Proof.
  unfold updateActivityInDb, query.
  destruct (negb (Config.dbEnabled cfg)); [discriminate|].
  destruct (db_error e); cbn; [discriminate|].
  destruct (find (id_is i) (db st)); intros H; injection H as <- <-; auto.
Qed.

Lemma persist_tables (e : env) (mo : mode) (item item' : Item.t) (st st' : state) :
  persist cfg e mo item st = Returns (st', item') ->
  sessions st' = sessions st
  /\ pendingMenuActionByChatId st' = pendingMenuActionByChatId st.
Proof.
  unfold persist. destruct (Config.dbEnabled cfg).
  - destruct mo.
    + destruct (insertActivityToDb cfg e st item) as [[st1 r]|err] eqn:E; cbn;
        [|discriminate].
      intros H. injection H as <- _. exact (insertActivityToDb_tables _ _ _ _ _ E).
    + destruct (updateActivityInDb cfg e st (Item.id item) item) as [[st1 r]|err] eqn:E;
        cbn; [|discriminate].
      intros H. injection H as <- _. exact (updateActivityInDb_tables _ _ _ _ _ _ E).
  - intros H. injection H as <- _. auto.
Qed.

Lemma touches_handleDeleteById (e : env) (chat from : Z) (id : option string) (st : state) :
  Law.touches chat st (fst (handleDeleteById cfg e chat from id st)).
Proof.
  unfold handleDeleteById.
  destruct (negb (isAllowed cfg from)); [apply touches_refl|].
  destruct (bool_decide _); [apply touches_refl|].
  destruct (Str.is_empty (normalizeText id)); [apply touches_refl|].
  destruct (Config.dbEnabled cfg).
  - destruct (if negb _ then _ else _) as [i|err]; [|apply touches_refl].
    destruct (Str.is_empty i); [apply touches_refl|].
    destruct (deleteActivityFromDb cfg e st i) as [[st' [x|]]|err] eqn:E; cbn [fst];
      try apply touches_refl.
    all: destruct (deleteActivityFromDb_tables _ _ _ _ _ E); apply touches_stores; assumption.
  - destruct (_ =? _)%nat; cbn [fst]; [apply touches_refl|].
    apply touches_stores; reflexivity.
Qed.

Lemma touches_cancelCommand (chat : Z) (st : state) :
  Law.touches chat st (fst (cancelCommand chat st)).
Proof.
  unfold cancelCommand. cbn [fst].
  eapply touches_trans; [apply touches_menu_delete|apply touches_endSession].
Qed.

Lemma touches_onMessage (e : env) (m : Msg.t) (st : state) :
  Law.touches (Msg.chat_id m) st (fst (onMessage cfg e m st)).
Proof.
  unfold onMessage.
  destruct (Msg.edit_date m); [apply touches_refl|].
  destruct (Str.startsWith _ _).
  - destruct (match parse_backslash _ with Some _ => _ | None => _ end) as [cmd arg].
    repeat match goal with
           | |- context [if ?c then _ else _] => destruct c; cbn [fst]
           end.
    all: try apply touches_refl.
    + apply touches_beginGuidedFlow.
    + apply touches_cancelCommand.
    + apply touches_onSession. intros s. apply handleSkip_shape.
    + apply touches_onSession. intros s. apply goBack_ready.
    + apply touches_beginEditFlow.
    + apply touches_handleDeleteById.
  - destruct (sessions st !! Msg.chat_id m) as [s|] eqn:Hs.
    + destruct (is_command (Msg.text m)); [apply touches_refl|].
      destruct (stepMachine cfg e (Msg.chat_id m) m s) as [[s' out]|err] eqn:E; cbn [fst].
      * apply touches_putSession. intros H.
        apply (stepMachine_shape _ _ _ _ _ _ E). exact (H _ Hs).
      * apply touches_endSession.
    + destruct (pendingMenuActionByChatId st !! Msg.chat_id m) as [a|];
        [|apply touches_refl].
      destruct (is_command (Msg.text m)); [apply touches_refl|].
      destruct (Str.is_empty _); cbn [fst]; [apply touches_menu_delete|].
      destruct a; (eapply touches_trans; [apply touches_menu_delete|]).
      * apply touches_beginEditFlow.
      * apply touches_handleDeleteById.
Qed.

Lemma touches_onText_add (e : env) (m : Msg.t) (match1 : string) (st : state) :
  Law.touches (Msg.chat_id m) st (fst (onText_add cfg e m match1 st)).
Proof.
  unfold onText_add.
  destruct (negb (isAllowed cfg (Msg.from_id m))); [apply touches_refl|].
  destruct (Config.dbEnabled cfg).
  - destruct (insertActivityToDb cfg e st _) as [[st' r]|err] eqn:E; cbn [fst];
      [|apply touches_refl].
    destruct (insertActivityToDb_tables _ _ _ _ _ E). apply touches_stores; assumption.
  - apply touches_stores; reflexivity.
Qed.

Lemma sendPreview_ready (e : env) (chat : Z) (s : Session.t) :
  Law.session_ready (fst (sendPreview cfg e chat s)).
Proof. intros _. apply sendPreview_shape. Qed.

Lemma touches_onSessionCallback (e : env) (cq : Callback.t) (s : Session.t) (st : state) :
  sessions st !! Callback.chat_id cq = Some s ->
  Law.touches (Callback.chat_id cq) st (fst (onSessionCallback cfg e cq s st)).
Proof.
  intros Hs. unfold onSessionCallback.
  assert (Hready : forall s' : Session.t,
             (Law.session_ready s -> Law.session_ready s') ->
             (forall s0, sessions st !! Callback.chat_id cq = Some s0 -> Law.session_ready s0) ->
             Law.session_ready s').
  { intros s' H H0. apply H, H0, Hs. }
  destruct (Str.startsWith "_set_type:" _); cbn [fst].
  { apply touches_putSession, Hready. unfold Law.session_ready.
    destruct s as [uid mo em [] d pend]; cbn; auto; discriminate. }
  destruct (String.eqb _ "_edit_cancel"); cbn [fst]; [apply touches_endSession|].
  destruct (String.eqb _ "_edit_all"); cbn [fst].
  { apply touches_putSession. intros _. unfold Law.session_ready. cbn. discriminate. }
  destruct (String.eqb _ "_edit_preview").
  { pose proof (sendPreview_ready e (Callback.chat_id cq) s) as Hp.
    destruct (sendPreview cfg e (Callback.chat_id cq) s) as [s1 out]. cbn [fst] in *.
    apply touches_putSession. intros _. exact Hp. }
  destruct (edit_field _) as [f|] eqn:Ef; cbn [fst].
  { apply touches_putSession. intros _. unfold Law.session_ready. cbn.
    unfold edit_field in Ef.
    repeat match type of Ef with
           | context [if ?c then _ else _] => destruct c
           end; try discriminate Ef; injection Ef as <-; discriminate. }
  destruct (String.eqb _ "_confirm").
  { unfold confirm. destruct (Session.pending s) as [item|]; [|apply touches_refl].
    destruct (persist cfg e _ _ st) as [[st' item']|err] eqn:E; cbn [fst].
    - destruct (persist_tables _ _ _ _ _ _ E).
      eapply touches_trans; [apply touches_stores; eassumption|apply touches_endSession].
    - apply touches_putSession. intros _. unfold Law.session_ready. cbn. eauto. }
  destruct (String.eqb _ "_cancel"); cbn [fst]; [apply touches_endSession|apply touches_refl].
Qed.

Lemma touches_with_answer (chat : Z) (text : string) (st : state) (r : state * list call) :
  Law.touches chat st (fst r) -> Law.touches chat st (fst (with_answer text r)).
Proof. auto. Qed.

Lemma touches_onCallback (e : env) (cq : Callback.t) (st : state) :
  Law.touches (Callback.chat_id cq) st (fst (onCallback cfg e cq st)).
Proof.
  unfold onCallback.
  repeat match goal with
         | |- context [if ?c then _ else _] => destruct c; cbn [fst]
         end.
  all: try apply touches_refl.
  - apply touches_beginGuidedFlow.
  - apply touches_menu_insert.
  - apply touches_menu_insert.
  - apply touches_cancelCommand.
  - apply touches_beginEditFlow.
  - apply touches_handleDeleteById.
  - destruct (sessions st !! Callback.chat_id cq) as [s|] eqn:Hs; [|apply touches_refl].
    apply touches_onSessionCallback, Hs.
Qed.

Lemma touches_message_handlers (e : env) (m : Msg.t) (arg : option string)
  (match1 : string) (st : state) (h : state -> state * list call) :
  In h (Law.message_handlers cfg e m arg match1) ->
  Law.touches (Msg.chat_id m) st (fst (h st)).
Proof.
  unfold Law.message_handlers. cbn [In].
  intros H. repeat (destruct H as [<-|H]); try contradiction.
  - apply touches_onMessage.
  - apply touches_onText_add.
  - apply touches_refl.
  - apply touches_refl.
  - apply touches_beginGuidedFlow.
  - apply touches_cancelCommand.
  - apply touches_onSession. intros s. apply handleSkip_shape.
  - apply touches_onSession. intros s. apply goBack_ready.
  - apply touches_beginEditFlow.
  - apply touches_handleDeleteById.
  - apply touches_refl.
Qed.

Lemma touches_ready (chat : Z) (st st' : state) :
  Law.touches chat st st' -> Law.pending_ready st -> Law.pending_ready st'.
Proof.
  intros [L R] H c s Hs. destruct (decide (c = chat)) as [->|Hc].
  - apply (R _ Hs). intros s0 Hs0. exact (H _ _ Hs0).
  - destruct (L c Hc) as [A _]. rewrite A in Hs. exact (H _ _ Hs).
Qed.

(** the step machine returns: the message handler never cancels a
    session on an error of its own *)
Lemma stepMachine_returns (e : env) (chat : Z) (m : Msg.t) (s : Session.t) :
  exists s' out, stepMachine cfg e chat m s = Returns (s', out).
Proof.
  assert (R : forall x : Session.t * list call,
             exists s' out, Returns x = Returns (s', out)).
  { intros [s' out]. eauto. }
  unfold stepMachine.
  destruct (Session.step s); try apply R.
  - destruct (isSkipText _); try apply R.
    destruct (Str.is_empty _); try apply R.
    rewrite DateFacts.parseFlexibleDate_resolves. cbn. apply R.
  - destruct (isSkipText _); try apply R.
    destruct (Msg.location m) as [[la lo]|]; try apply R.
    destruct (_ && _); try apply R.
    destruct (geocodeLocation _ _); apply R.
  - destruct (last _); try apply R.
    destruct (Msg.document m) as [[f n]|]; try apply R.
    destruct (_ && _); apply R.
  - destruct (isEditMenuMode _); apply R.
Qed.

(** X4.  A handler acts on the chat of its event only: whatever the
    message or the button press, the sessions and the pending menu
    prompts of every other chat are after the handler what they were
    before it.  This holds for the message handler, for each of the
    command handlers and for the callback handler. *)
Theorem other_chats_untouched (e : env) (m : Msg.t) (cq : Callback.t)
  (arg : option string) (match1 : string) (st : state) :
  Forall (fun h => Law.local_to (Msg.chat_id m) st (fst (h st)))
         (Law.message_handlers cfg e m arg match1)
  /\ Law.local_to (Callback.chat_id cq) st (fst (onCallback cfg e cq st)).
Proof.
  split.
  - apply List.Forall_forall. intros h Hh.
    apply (touches_message_handlers e m arg match1 st h Hh).
  - apply touches_onCallback.
Qed.

(** X5.  Linear advance.  A message that reaches the step machine of a
    chat with a session never ends the session: the handler writes the
    session back with the same owner, mode and edit mode, at the same
    step (a prompt repeated), or, outside field-menu mode, at the step
    that follows it in the sequence, or, in field-menu mode, at the
    field menu; and the draft differs from what it was in the fields of
    the step only (the note step, which ends in the preview, may also
    write the [webPath] of the attachment). *)
Theorem linear_advance (e : env) (m : Msg.t) (st : state) (s : Session.t) :
  sessions st !! Msg.chat_id m = Some s ->
  Spec.reaches_step_machine m = true ->
  exists s',
    fst (onMessage cfg e m st) = putSession (Msg.chat_id m) s' st
    /\ Session.userId s' = Session.userId s
    /\ Session.mode s' = Session.mode s
    /\ Session.editMode s' = Session.editMode s
    /\ (Session.step s' = Session.step s
        \/ (isEditMenuMode s = false /\ stepPrev (Session.step s') = Some (Session.step s))
        \/ (isEditMenuMode s = true /\ Session.step s' = Step.edit_menu))
    /\ Law.writes (Session.step s) (Session.data s) (Session.data s').
Proof.
  intros Hs Hm. destruct (reaches_step_machine_true m Hm) as (He & Hb & Hc).
  rewrite (onMessage_stepMachine cfg e m st s Hs He Hb Hc).
  destruct (stepMachine_returns e (Msg.chat_id m) m s) as (s' & out & E).
  rewrite E. exists s'. cbn [fst].
  destruct (stepMachine_shape _ _ _ _ _ _ E) as (H1 & H2 & H3 & H4 & H5 & _).
  auto 10.
Qed.

(** X6.  A session that is confirming has a pending record: this holds
    of a state without sessions, every handler keeps it, and where it
    holds the confirm button pressed on a confirming session never
    answers that there is nothing to confirm. *)
Theorem confirming_has_pending (e : env) (m : Msg.t) (cq : Callback.t)
  (arg : option string) (match1 : string) (st : state) :
  Law.pending_ready st ->
  Law.pending_ready (set_sessions ∅ st)
  /\ Forall (fun h => Law.pending_ready (fst (h st)))
            (Law.message_handlers cfg e m arg match1)
  /\ Law.pending_ready (fst (onCallback cfg e cq st))
  /\ (forall s, sessions st !! Callback.chat_id cq = Some s ->
                Session.step s = Step.confirming ->
                Callback.data cq = "_confirm" ->
                snd (onCallback cfg e cq st) <> [answerCallbackQuery "Nothing to confirm."]).
Proof.
  intros H. split; [|split; [|split]].
  - apply map_Forall_empty.
  - apply List.Forall_forall. intros h Hh.
    exact (touches_ready _ _ _ (touches_message_handlers e m arg match1 st h Hh) H).
  - exact (touches_ready _ _ _ (touches_onCallback e cq st) H).
  - intros s Hs Hstep Hd.
    destruct (H _ _ Hs Hstep) as [item Hp].
    unfold onCallback. rewrite Hd. cbn. rewrite Hs.
    unfold onSessionCallback. rewrite Hd. cbn. unfold confirm. rewrite Hp.
    destruct (persist _ _ _ _ _) as [[st' item']|err]; cbn; discriminate.
Qed.

(** X7.  The command [/skip] on a chat with a session.  In field-menu
    mode it returns to the field menu and leaves the draft as it is.
    Otherwise, at the title step, at the confirming step and at the
    field menu it does nothing and sends nothing; at each other step
    it moves the session one step forward, writes the fields of that
    step only and sends a reply.  The owner, the mode and the edit
    mode stay. *)
Theorem skip_command_steps (e : env) (m : Msg.t) (st : state) (s : Session.t) :
  sessions st !! Msg.chat_id m = Some s ->
  exists s' out,
    onText_skip cfg e m st = (putSession (Msg.chat_id m) s' st, out)
    /\ Session.userId s' = Session.userId s
    /\ Session.mode s' = Session.mode s
    /\ Session.editMode s' = Session.editMode s
    /\ (if isEditMenuMode s
        then s' = Session.set_step Step.edit_menu s
        else match Session.step s with
             | Step.title | Step.confirming | Step.edit_menu =>
                 onText_skip cfg e m st = (st, [])
             | _ => stepPrev (Session.step s') = Some (Session.step s)
                    /\ Law.writes (Session.step s) (Session.data s) (Session.data s')
                    /\ out <> []
             end).
Proof.
  intros Hs. unfold onText_skip, onSession. rewrite Hs.
  pose proof (handleSkip_shape e (Msg.chat_id m) s) as (H1 & H2 & H3 & H4 & _).
  destruct (handleSkip cfg e (Msg.chat_id m) s) as [s' out] eqn:E. cbn [fst snd] in *.
  exists s', out. repeat (split; [assumption || reflexivity|]).
  destruct (isEditMenuMode s); [exact H4|].
  destruct (Session.step s); try exact H4.
  all: injection H4 as -> ->; rewrite (putSession_same _ _ _ Hs); reflexivity.
Qed.

(** the stores a write goes to do not depend on the session table *)
Lemma persist_sessions (e : env) (mo : mode) (item : Item.t) (t : gmap Z Session.t)
  (st : state) :
  persist cfg e mo item (set_sessions t st) =
    match persist cfg e mo item st with
    | Returns (st', item') => Returns (set_sessions t st', item')
    | Throws err => Throws err
    end.
Proof.
  unfold persist, insertActivityToDb, updateActivityInDb, query.
  destruct (Config.dbEnabled cfg); cbn; [|reflexivity].
  destruct mo; destruct (db_error e); cbn; try reflexivity.
  destruct (find _ _); reflexivity.
Qed.

(** X8.  The confirm button stores the pending record of the session
    whatever the step and the draft of the session are: for two
    sessions with the same pending record and the same mode, the file
    and the table after the button press are the same, the calls made
    are the same, and when the session is gone afterwards (the write
    succeeded) the whole state is the same. *)
Theorem confirm_ignores_step (e : env) (cq : Callback.t) (st : state)
  (s1 s2 : Session.t) (item : Item.t) :
  Callback.data cq = "_confirm" ->
  Session.pending s1 = Some item ->
  Session.pending s2 = Some item ->
  Session.mode s1 = Session.mode s2 ->
  let r1 := onCallback cfg e cq (putSession (Callback.chat_id cq) s1 st) in
  let r2 := onCallback cfg e cq (putSession (Callback.chat_id cq) s2 st) in
  activities (fst r1) = activities (fst r2)
  /\ db (fst r1) = db (fst r2)
  /\ snd r1 = snd r2
  /\ (sessions (fst r1) !! Callback.chat_id cq = None -> fst r1 = fst r2).
Proof.
  intros Hd H1 H2 Hm r1 r2. subst r1 r2.
  unfold onCallback. rewrite Hd. cbn. rewrite !lookup_insert_eq.
  unfold onSessionCallback. rewrite Hd. cbn. unfold confirm. rewrite H1, H2, Hm.
  unfold putSession. rewrite !persist_sessions.
  destruct (persist cfg e (Session.mode s2) _ st) as [[st' item']|err] eqn:E; cbn.
  - unfold endSession, set_sessions. cbn. rewrite !delete_insert_eq. auto.
  - repeat split; auto. rewrite lookup_insert_eq. discriminate.
Qed.

(** *** Backslash commands *)

Lemma parse_backslash_word (w : string) :
  Str.all Str.is_word w = true ->
  parse_backslash w = if Str.is_empty w then None else Some (w, EmptyString).
Proof.
  intros H. unfold parse_backslash. rewrite (CharFacts.span_all _ _ H).
  destruct (Str.is_empty w); reflexivity.
Qed.

(** X9.  A text that is a backslash and a word (letters, digits and
    underscores, in any case) runs the handler of the command of that
    name: [new], [cancel], [start], [menu] and [help] do what the
    slash command does; [skip] and [back] do what the slash command
    does when the chat has a session and, unlike it, answer ["No active
    session."] when it has none; and a word that is no command is
    answered with the tip to use a slash. *)
Theorem backslash_commands (e : env) (m : Msg.t) (w : string) (st : state) :
  Msg.edit_date m = false ->
  Msg.text m = Some ("\" ++ w) ->
  Str.all Str.is_word w = true ->
  let cmd := Str.toLowerCase w in
  let chat := Msg.chat_id m in
  let in_session (r : state * list call) :=
    if bool_decide (is_Some (sessions st !! chat)) then r
    else (st, [sendMessage chat "No active session."]) in
  (cmd = "new" -> onMessage cfg e m st = onText_new cfg m st)
  /\ (cmd = "cancel" -> onMessage cfg e m st = onText_cancel m st)
  /\ (cmd = "start" \/ cmd = "menu" -> onMessage cfg e m st = onText_start m st)
  /\ (cmd = "help" -> onMessage cfg e m st = onText_help m st)
  /\ (cmd = "skip" -> onMessage cfg e m st = in_session (onText_skip cfg e m st))
  /\ (cmd = "back" -> onMessage cfg e m st = in_session (onText_back m st))
  /\ (one_of cmd command_words = false ->
      onMessage cfg e m st = (st, [sendMessage chat slash_tip_text])).
Proof.
  intros He Ht Hw cmd chat in_session.
  assert (Hrun : forall c, cmd = c ->
            onMessage cfg e m st =
              if String.eqb c "start" || String.eqb c "menu" then (st, [sendMainMenu chat])
              else if String.eqb c "help" then (st, [sendHelp chat])
              else if String.eqb c "new" then beginGuidedFlow cfg chat (Msg.from_id m) st
              else if String.eqb c "list"
              then (st, [sendRecentListPage chat (list_page (Str.trim EmptyString)) None])
              else if String.eqb c "cancel" then cancelCommand chat st
              else if String.eqb c "skip"
              then onSession chat st (handleSkip cfg e chat)
                     [sendMessage chat "No active session."]
              else if String.eqb c "back"
              then onSession chat st (goBack chat) [sendMessage chat "No active session."]
              else if String.eqb c "edit"
              then beginEditFlow cfg e chat (Msg.from_id m) (Some EmptyString) st
              else if String.eqb c "delete"
              then handleDeleteById cfg e chat (Msg.from_id m) (Some EmptyString) st
              else (st, [sendMessage chat slash_tip_text])).
  { intros c Hc. unfold onMessage. rewrite He, Ht. cbn [from_option id].
    change (Str.startsWith "\" ("\" ++ w)) with true.
    change (Str.drop 1 ("\" ++ w)) with w.
    rewrite (parse_backslash_word w Hw). cbv iota.
    destruct w as [|a w']; [subst cmd; cbn in Hc; subst c; reflexivity|].
    cbn [Str.is_empty]. fold cmd. rewrite Hc. reflexivity. }
  assert (Hin : forall (f : Session.t -> Session.t * list call),
            onSession chat st f [sendMessage chat "No active session."]
            = in_session (onSession chat st f [])).
  { intros f. unfold in_session, onSession.
    destruct (sessions st !! chat) as [s|] eqn:Hs.
    - rewrite bool_decide_eq_true_2 by eauto. reflexivity.
    - rewrite bool_decide_eq_false_2 by (intros [x Hx]; discriminate Hx). reflexivity. }
  repeat split.
  - intros Hc. rewrite (Hrun _ Hc). reflexivity.
  - intros Hc. rewrite (Hrun _ Hc). reflexivity.
  - intros [Hc|Hc]; rewrite (Hrun _ Hc); reflexivity.
  - intros Hc. rewrite (Hrun _ Hc). reflexivity.
  - intros Hc. rewrite (Hrun _ Hc). cbn. apply Hin.
  - intros Hc. rewrite (Hrun _ Hc). cbn. apply Hin.
  - intros Hc. rewrite (Hrun cmd eq_refl).
    unfold one_of, command_words in Hc. cbn [existsb] in Hc.
    repeat (apply orb_false_elim in Hc as [? Hc]).
    repeat match goal with
           | H : String.eqb cmd ?x = false |- _ => rewrite H; clear H
           end.
    reflexivity.
Qed.

(** X10.  After [/cancel] the chat has no session and no pending menu
    prompt, the file and the table are as they were, a second
    [/cancel] changes nothing more, and a message of the chat that is no
    backslash command is then ignored: the state stays and nothing is
    sent. *)
Theorem cancel_clears (e : env) (m m' : Msg.t) (st : state) :
  let st' := fst (onText_cancel m st) in
  sessions st' !! Msg.chat_id m = None
  /\ pendingMenuActionByChatId st' !! Msg.chat_id m = None
  /\ activities st' = activities st
  /\ db st' = db st
  /\ onText_cancel m st' = (st', [sendMessage (Msg.chat_id m) "Canceled."])
  /\ (Msg.chat_id m' = Msg.chat_id m ->
      Str.startsWith "\" (default EmptyString (Msg.text m')) = false ->
      onMessage cfg e m' st' = (st', [])).
Proof.
  intros st'. subst st'. unfold onText_cancel, cancelCommand. cbn [fst].
  split; [apply lookup_delete_eq|].
  split; [apply lookup_delete_eq|].
  split; [reflexivity|]. split; [reflexivity|]. split.
  - unfold endSession, set_sessions, set_pendingMenu. cbn.
    rewrite !delete_delete_eq. reflexivity.
  - intros Hc Hb. unfold onMessage. rewrite Hb, Hc. cbn [sessions pendingMenuActionByChatId
      endSession set_sessions set_pendingMenu].
    rewrite !lookup_delete_eq. destruct (Msg.edit_date m'); reflexivity.
Qed.

(** X11.  The field menu.  In an edit session, a field button moves the
    session to the step of that field, in field-menu mode, with the
    draft as it was; the message that answers then leaves the session
    in field-menu mode, back at the field menu or still at the step of
    the field (a prompt repeated), and the draft differs from what it
    was before the button in the fields of that step only. *)
Theorem field_menu_round_trip (e e' : env) (cq : Callback.t) (m : Msg.t) (st : state)
  (s : Session.t) (f : Step.t) :
  sessions st !! Callback.chat_id cq = Some s ->
  Session.mode s = edit ->
  edit_field (Callback.data cq) = Some f ->
  Msg.chat_id m = Callback.chat_id cq ->
  Spec.reaches_step_machine m = true ->
  let st1 := fst (onCallback cfg e cq st) in
  exists s1 s2,
    sessions st1 !! Callback.chat_id cq = Some s1
    /\ s1 = Session.set_step f (Session.set_editMode (Some menu) s)
    /\ fst (onMessage cfg e' m st1) = putSession (Callback.chat_id cq) s2 st
    /\ (Session.step s2 = Step.edit_menu \/ Session.step s2 = f)
    /\ isEditMenuMode s2 = true
    /\ Law.writes f (Session.data s) (Session.data s2).
Proof.
  intros Hs Hmode Hf Hchat Hm st1.
  assert (Hst1 : st1 = putSession (Callback.chat_id cq)
                         (Session.set_step f (Session.set_editMode (Some menu) s)) st).
  { subst st1. unfold edit_field in Hf.
    repeat match type of Hf with
           | context [if String.eqb ?a ?b then _ else _] =>
               destruct (String.eqb a b) eqn:?
           end; try discriminate Hf; injection Hf as <-.
    all: match goal with
         | H : String.eqb _ _ = true |- _ => apply String.eqb_eq in H
         end.
    all: unfold onCallback; match goal with H : Callback.data _ = _ |- _ => rewrite H end.
    all: cbn; rewrite Hs; unfold onSessionCallback;
      match goal with H : Callback.data _ = _ |- _ => rewrite H end.
    all: reflexivity. }
  set (s1 := Session.set_step f (Session.set_editMode (Some menu) s)) in *.
  exists s1.
  assert (Hs1 : sessions st1 !! Msg.chat_id m = Some s1).
  { rewrite Hst1, Hchat. apply putSession_lookup. }
  destruct (reaches_step_machine_true m Hm) as (He & Hb & Hc).
  rewrite (onMessage_stepMachine cfg e' m st1 s1 Hs1 He Hb Hc).
  destruct (stepMachine_returns e' (Msg.chat_id m) m s1) as (s2 & out & E).
  rewrite E. exists s2. cbn [fst].
  destruct (stepMachine_shape _ _ _ _ _ _ E) as (_ & H2 & H3 & H4 & H5 & _).
  assert (Hmenu : isEditMenuMode s1 = true).
  { unfold isEditMenuMode. subst s1. cbn. rewrite Hmode. reflexivity. }
  rewrite <- Hchat. split; [exact Hs1|]. split; [reflexivity|].
  split; [rewrite Hst1, Hchat; apply putSession_again|].
  split.
  { destruct H4 as [H4|[[H4 _]|[_ H4]]]; auto. rewrite Hmenu in H4. discriminate H4. }
  split.
  { unfold isEditMenuMode. rewrite H2, H3. exact Hmenu. }
  exact H5.
Qed.

End DialogueFacts.

(** X5 at the count step of the edit session of chat 7, on the text
    ["1,200 Mushaf"]. *)
Lemma linear_advance_witness :
  exists s',
    fst (onMessage Run.open_to_all Run.world (Run.text 7 42 "1,200 Mushaf")
           (Run.at_step Step.count))
    = putSession 7 s' (Run.at_step Step.count)
    /\ Session.mode s' = edit
    /\ (Session.step s' = Step.count
        \/ (false = false /\ stepPrev (Session.step s') = Some Step.count)
        \/ (false = true /\ Session.step s' = Step.edit_menu))
    /\ Law.writes Step.count Run.seeded (Session.data s').
Proof.
  destruct (linear_advance Run.open_to_all Run.world (Run.text 7 42 "1,200 Mushaf")
              (Run.at_step Step.count) (Run.editing Step.count))
    as (s' & H1 & _ & H3 & _ & H5 & H6).
  - vm_compute. reflexivity.
  - vm_compute. reflexivity.
  - exists s'. auto.
Defined.

(** X6 at the confirming session of chat 7: after the type button the
    session is still ready. *)
Lemma confirming_has_pending_witness :
  Law.pending_ready
    (fst (onCallback Run.open_to_all Run.world (Run.press 7 42 "_set_type:arrival")
            Run.confirming_state))
  /\ snd (onCallback Run.open_to_all Run.world (Run.press 7 42 "_confirm")
            Run.confirming_state)
     <> [answerCallbackQuery "Nothing to confirm."].
Proof.
  assert (H : Law.pending_ready Run.confirming_state).
  { apply map_Forall_singleton. intros _. eexists. reflexivity. }
  split.
  - apply (confirming_has_pending Run.open_to_all Run.world (Run.text 7 42 "x")
             (Run.press 7 42 "_set_type:arrival") None EmptyString Run.confirming_state H).
  - apply (proj2 (proj2 (proj2
             (confirming_has_pending Run.open_to_all Run.world (Run.text 7 42 "x")
                (Run.press 7 42 "_confirm") None EmptyString Run.confirming_state H)))
             Run.previewed).
    + vm_compute. reflexivity.
    + reflexivity.
    + reflexivity.
Defined.

(** X7 at the count step of the edit session of chat 7. *)
Lemma skip_command_steps_witness :
  exists s' out,
    onText_skip Run.open_to_all Run.world (Run.text 7 42 "/skip") (Run.at_step Step.count)
    = (putSession 7 s' (Run.at_step Step.count), out)
    /\ stepPrev (Session.step s') = Some Step.count
    /\ Law.writes Step.count Run.seeded (Session.data s')
    /\ out <> [].
Proof.
  destruct (skip_command_steps Run.open_to_all Run.world (Run.text 7 42 "/skip")
              (Run.at_step Step.count) (Run.editing Step.count))
    as (s' & out & H1 & _ & _ & _ & H5).
  - vm_compute. reflexivity.
  - exists s', out. cbn in H5. tauto.
Defined.

(** X8 for the confirming session of chat 7 and the session it becomes
    after [/back] and another note: the old button stores the same
    record, the one with the old note. *)
Lemma confirm_ignores_step_witness :
  fst (onCallback Run.open_to_all Run.world (Run.press 7 42 "_confirm")
         (putSession 7
            (Session.set_step Step.note
               (Session.update (Data.set_note (Some "changed")) Run.previewed))
            Run.start))
  = fst (onCallback Run.open_to_all Run.world (Run.press 7 42 "_confirm")
           (putSession 7 Run.previewed Run.start)).
Proof.
  pose proof (confirm_ignores_step Run.open_to_all Run.world (Run.press 7 42 "_confirm")
                Run.start Run.previewed
                (Session.set_step Step.note
                   (Session.update (Data.set_note (Some "changed")) Run.previewed))
                _ eq_refl eq_refl eq_refl eq_refl) as (_ & _ & _ & H).
  symmetry. apply H. vm_compute. reflexivity.
Defined.

(** X9 at the text [\Back], in the edit session of chat 7 at the count
    step. *)
Lemma backslash_commands_witness :
  onMessage Run.open_to_all Run.world (Run.text 7 42 "\Back") (Run.at_step Step.count)
  = onText_back (Run.text 7 42 "\Back") (Run.at_step Step.count).
Proof.
  apply (proj1 (proj2 (proj2 (proj2 (proj2 (proj2
           (backslash_commands Run.open_to_all Run.world (Run.text 7 42 "\Back") "Back"
              (Run.at_step Step.count) eq_refl eq_refl eq_refl))))))).
  reflexivity.
Defined.

(** X11 for the edit session [/edit a-1] opens in chat 7: the button
    [Count], then the text ["500"]. *)
Lemma field_menu_round_trip_witness :
  exists s2,
    fst (onMessage Run.open_to_all Run.world (Run.text 7 42 "500")
           (fst (onCallback Run.open_to_all Run.world (Run.press 7 42 "_edit_field_count")
                   (putSession 7 (Session.mk 42 edit (Some menu) Step.edit_menu Run.seeded None)
                      Run.start))))
    = putSession 7 s2
        (putSession 7 (Session.mk 42 edit (Some menu) Step.edit_menu Run.seeded None) Run.start)
    /\ (Session.step s2 = Step.edit_menu \/ Session.step s2 = Step.count)
    /\ Law.writes Step.count Run.seeded (Session.data s2).
Proof.
  destruct (field_menu_round_trip Run.open_to_all Run.world Run.world
              (Run.press 7 42 "_edit_field_count") (Run.text 7 42 "500")
              (putSession 7 (Session.mk 42 edit (Some menu) Step.edit_menu Run.seeded None)
                 Run.start)
              (Session.mk 42 edit (Some menu) Step.edit_menu Run.seeded None) Step.count)
    as (s1 & s2 & _ & _ & H3 & H4 & _ & H6).
  - vm_compute. reflexivity.
  - reflexivity.
  - reflexivity.
  - reflexivity.
  - vm_compute. reflexivity.
  - exists s2. auto.
Defined.

(** ** The two ways to skip, and full identifiers *)

Section SkipFacts.

Variable cfg : Config.t.

Local Arguments or_else : simpl never.

Lemma isSkipText_trimmed (x : option string) :
  isSkipText (Some (Str.trim (default EmptyString x))) = isSkipText x.
Proof.
  unfold isSkipText. change (Str.trim (default EmptyString x)) with (normalizeText x).
  rewrite TrimFacts.normalizeText_idem. reflexivity.
Qed.

Lemma isSkipText_truthy (x : option string) : isSkipText x = true -> truthy x = true.
Proof.
  destruct x as [[|c r]|]; [discriminate|reflexivity|discriminate].
Qed.

(** X12.  The two ways to skip, in a create session.  For a message
    whose text is the skip token and that reaches the step machine
    (the word [skip], say), without a photo or a document: at the date,
    count, attachment and note steps the message does what the command
    [/skip] does, to the state and in its replies; at the type step it
    does so when the draft has no type yet, and at the location step it
    leaves the same state when the draft has no location yet; at the
    title step the command does nothing, while the message makes its
    text the title. *)
Theorem skip_paths_in_create (e : env) (m : Msg.t) (st : state) (s : Session.t) :
  sessions st !! Msg.chat_id m = Some s ->
  Session.mode s = create ->
  Spec.reaches_step_machine m = true ->
  isSkipText (Msg.text m) = true ->
  Msg.photo m = [] ->
  Msg.document m = None ->
  match Session.step s with
  | Step.date | Step.count | Step.attachment | Step.note =>
      onMessage cfg e m st = onText_skip cfg e m st
  | Step.type =>
      truthy (Data.activity_type (Session.data s)) = false ->
      onMessage cfg e m st = onText_skip cfg e m st
  | Step.location =>
      truthy (Data.location (Session.data s)) = false ->
      fst (onMessage cfg e m st) = fst (onText_skip cfg e m st)
  | Step.title =>
      onText_skip cfg e m st = (st, [])
      /\ fst (onMessage cfg e m st)
         = putSession (Msg.chat_id m)
             (Session.set_step Step.type (Session.update (Data.set_title (Msg.text m)) s)) st
  | Step.confirming | Step.edit_menu =>
      onMessage cfg e m st = (st, []) /\ onText_skip cfg e m st = (st, [])
  end.
Proof.
  intros Hs Hmode Hm Hskip Hphoto Hdoc.
  destruct (reaches_step_machine_true m Hm) as (He & Hb & Hc).
  rewrite (onMessage_stepMachine cfg e m st s Hs He Hb Hc).
  unfold onText_skip, onSession. rewrite Hs.
  pose proof (isSkipText_truthy _ Hskip) as Htr.
  pose proof (isSkipText_trimmed (Msg.text m)) as Htrim. rewrite Hskip in Htrim.
  destruct s as [uid mo em stp d pend]. cbn in Hmode. subst mo.
  unfold stepMachine, handleSkip, isEditMenuMode, text_trim.
  cbn [Session.step Session.mode Session.editMode is_edit Session.data].
  destruct stp; rewrite ?Htrim, ?Hskip, ?Htr, ?Hphoto, ?Hdoc; cbn.
  - split; [rewrite (putSession_same _ _ _ Hs); reflexivity|].
    destruct (Msg.text m); [reflexivity|discriminate Htr].
  - intros Ht. unfold or_else. destruct (Data.activity_type d) as [x|]; [|reflexivity].
    cbn in Ht. apply negb_false_iff in Ht. rewrite Ht. reflexivity.
  - reflexivity.
  - reflexivity.
  - intros Ht. unfold or_else. destruct (Data.location d) as [x|]; [|reflexivity].
    cbn in Ht. apply negb_false_iff in Ht. rewrite Ht. reflexivity.
  - reflexivity.
  - reflexivity.
  - rewrite (putSession_same _ _ _ Hs). auto.
  - rewrite (putSession_same _ _ _ Hs). auto.
Qed.

Lemma hex_group_length (n : nat) : forall s r,
  hex_group n s = Some r -> String.length s = (n + String.length r)%nat.
Proof.
  induction n as [|n IH]; intros s r H.
  - destruct s; injection H as <-; reflexivity.
  - destruct s as [|c s]; [discriminate|]. cbn in H.
    destruct (Str.is_hex c); [|discriminate]. cbn. rewrite (IH _ _ H). reflexivity.
Qed.

Lemma dash_then_length (n : nat) (s r : string) :
  dash_then (hex_group n) s = Some r -> String.length s = (1 + n + String.length r)%nat.
Proof.
  unfold dash_then. destruct s as [|c s]; [discriminate|].
  destruct (Ascii.eqb c "-") eqn:E.
  - apply Ascii.eqb_eq in E. subst c. intros H. cbn. rewrite (hex_group_length _ _ _ H).
    reflexivity.
  - intros H. exfalso. revert H E. CharFacts.each_char c; intros H E;
      solve [discriminate H | discriminate E].
Qed.

(** X13.  A full identifier is not looked up.  A text [isUuidLike]
    accepts has 36 characters once trimmed, and [resolveDbIdFromPrefix]
    returns it, trimmed, without a query: whether a database is
    configured or not, and whether it answers or not. *)
Theorem full_uuid_not_looked_up (e : env) (st : state) (id : option string) :
  isUuidLike id = true ->
  String.length (normalizeText id) = 36%nat
  /\ resolveDbIdFromPrefix cfg e st id = Returns (normalizeText id).
Proof.
  intros H.
  assert (Hraw : isUuidLike (Some (normalizeText id)) = true).
  { unfold isUuidLike in *. rewrite TrimFacts.normalizeText_idem. exact H. }
  assert (Hlen : String.length (normalizeText id) = 36%nat).
  { unfold isUuidLike in H.
    destruct (hex_group 8 (normalizeText id)) as [r1|] eqn:E1; [|discriminate].
    destruct (dash_then (hex_group 4) r1) as [r2|] eqn:E2; [|discriminate].
    destruct (dash_then (hex_group 4) r2) as [r3|] eqn:E3; [|discriminate].
    destruct (dash_then (hex_group 4) r3) as [r4|] eqn:E4; [|discriminate].
    destruct (dash_then (hex_group 12) r4) as [r5|] eqn:E5; [|discriminate].
    destruct r5; [|discriminate].
    rewrite (hex_group_length _ _ _ E1), (dash_then_length _ _ _ E2),
      (dash_then_length _ _ _ E3), (dash_then_length _ _ _ E4),
      (dash_then_length _ _ _ E5). reflexivity. }
  split; [exact Hlen|].
  unfold resolveDbIdFromPrefix. rewrite Hraw.
  destruct (normalizeText id); [discriminate Hlen|reflexivity].
Qed.

End SkipFacts.

(** X12 at the count step of a create session, on the word [skip]. *)
Lemma skip_paths_in_create_witness :
  onMessage Run.open_to_all Run.world (Run.text 7 42 "skip")
    (putSession 7 (Session.mk 42 create None Step.count Data.empty None) Run.start)
  = onText_skip Run.open_to_all Run.world (Run.text 7 42 "skip")
      (putSession 7 (Session.mk 42 create None Step.count Data.empty None) Run.start).
Proof.
  apply (skip_paths_in_create Run.open_to_all Run.world (Run.text 7 42 "skip")
           (putSession 7 (Session.mk 42 create None Step.count Data.empty None) Run.start)
           (Session.mk 42 create None Step.count Data.empty None)).
  - vm_compute. reflexivity.
  - reflexivity.
  - vm_compute. reflexivity.
  - vm_compute. reflexivity.
  - reflexivity.
  - reflexivity.
Defined.

(** X13 at an identifier typed with spaces around it, while the
    database fails. *)
Lemma full_uuid_not_looked_up_witness :
  resolveDbIdFromPrefix (Run.config [] true)
    (mkEnv 0 EmptyString (fun _ => None) (fun _ => false) (fun _ => false)
           (Some "connection refused") EmptyString (fun _ => None))
    Run.two_rows (Some " 0B5E3C1A-7d24-4f6e-9a10-5c2d8e7f4b31 ")
  = Returns "0B5E3C1A-7d24-4f6e-9a10-5c2d8e7f4b31".
Proof.
  apply (full_uuid_not_looked_up (Run.config [] true)
           (mkEnv 0 EmptyString (fun _ => None) (fun _ => false) (fun _ => false)
                  (Some "connection refused") EmptyString (fun _ => None))
           Run.two_rows (Some " 0B5E3C1A-7d24-4f6e-9a10-5c2d8e7f4b31 ")).
  vm_compute. reflexivity.
Defined.

(** ** Senders who are not allowed *)

Section GateFacts.

Variable cfg : Config.t.

Lemma writes_nothing_refl (chat : Z) (st : state) : Law.writes_nothing chat st st.
Proof. repeat split; auto. Qed.

Lemma writes_nothing_trans (chat : Z) (st st1 st2 : state) :
  Law.writes_nothing chat st st1 -> Law.writes_nothing chat st1 st2 ->
  Law.writes_nothing chat st st2.
Proof.
  intros (A1 & B1 & C1) (A2 & B2 & C2). repeat split; try congruence. auto.
Qed.

Lemma writes_nothing_menu (chat : Z) (t : gmap Z menuAction) (st : state) :
  Law.writes_nothing chat st (set_pendingMenu t st).
Proof. repeat split; auto. Qed.

Lemma writes_nothing_endSession (chat : Z) (st : state) :
  Law.writes_nothing chat st (endSession chat st).
Proof. repeat split. intros _. cbn. apply lookup_delete_eq. Qed.

Lemma writes_nothing_putSession (chat : Z) (s s' : Session.t) (st : state) :
  sessions st !! chat = Some s -> Law.writes_nothing chat st (putSession chat s' st).
Proof. intros Hs. repeat split. intros H. congruence. Qed.

Lemma writes_nothing_onSession (chat : Z) (st : state)
  (f : Session.t -> Session.t * list call) (absent : list call) :
  Law.writes_nothing chat st (fst (onSession chat st f absent)).
Proof.
  unfold onSession. destruct (sessions st !! chat) as [s|] eqn:Hs.
  - destruct (f s) as [s' out]. exact (writes_nothing_putSession chat s s' st Hs).
  - apply writes_nothing_refl.
Qed.

Lemma beginGuidedFlow_refused (chat from : Z) (st : state) :
  isAllowed cfg from = false -> fst (beginGuidedFlow cfg chat from st) = st.
Proof. intros H. unfold beginGuidedFlow. rewrite H. reflexivity. Qed.

Lemma beginEditFlow_refused (e : env) (chat from : Z) (id : option string) (st : state) :
  isAllowed cfg from = false -> fst (beginEditFlow cfg e chat from id st) = st.
Proof. intros H. unfold beginEditFlow. rewrite H. reflexivity. Qed.

Lemma handleDeleteById_refused (e : env) (chat from : Z) (id : option string) (st : state) :
  isAllowed cfg from = false -> fst (handleDeleteById cfg e chat from id st) = st.
Proof. intros H. unfold handleDeleteById. rewrite H. reflexivity. Qed.

Lemma writes_nothing_cancelCommand (chat : Z) (st : state) :
  Law.writes_nothing chat st (fst (cancelCommand chat st)).
Proof.
  unfold cancelCommand. cbn [fst].
  eapply writes_nothing_trans; [apply writes_nothing_menu|apply writes_nothing_endSession].
Qed.

Lemma writes_nothing_onMessage (e : env) (m : Msg.t) (st : state) :
  isAllowed cfg (Msg.from_id m) = false ->
  Law.writes_nothing (Msg.chat_id m) st (fst (onMessage cfg e m st)).
Proof.
  intros Hal. unfold onMessage.
  destruct (Msg.edit_date m); [apply writes_nothing_refl|].
  destruct (Str.startsWith _ _).
  - destruct (match parse_backslash _ with Some _ => _ | None => _ end) as [cmd arg].
    repeat match goal with
           | |- context [if ?c then _ else _] => destruct c; cbn [fst]
           end.
    all: try apply writes_nothing_refl.
    + rewrite (beginGuidedFlow_refused _ _ _ Hal). apply writes_nothing_refl.
    + apply writes_nothing_cancelCommand.
    + apply writes_nothing_onSession.
    + apply writes_nothing_onSession.
    + rewrite (beginEditFlow_refused _ _ _ _ _ Hal). apply writes_nothing_refl.
    + rewrite (handleDeleteById_refused _ _ _ _ _ Hal). apply writes_nothing_refl.
  - destruct (sessions st !! Msg.chat_id m) as [s|] eqn:Hs.
    + destruct (is_command (Msg.text m)); [apply writes_nothing_refl|].
      destruct (stepMachine cfg e (Msg.chat_id m) m s) as [[s' out]|err]; cbn [fst].
      * exact (writes_nothing_putSession _ s s' st Hs).
      * apply writes_nothing_endSession.
    + destruct (pendingMenuActionByChatId st !! Msg.chat_id m) as [a|];
        [|apply writes_nothing_refl].
      destruct (is_command (Msg.text m)); [apply writes_nothing_refl|].
      destruct (Str.is_empty _); cbn [fst]; [apply writes_nothing_menu|].
      destruct a.
      * rewrite (beginEditFlow_refused _ _ _ _ _ Hal). apply writes_nothing_menu.
      * rewrite (handleDeleteById_refused _ _ _ _ _ Hal). apply writes_nothing_menu.
Qed.

Lemma writes_nothing_onSessionCallback (e : env) (cq : Callback.t) (s : Session.t)
  (st : state) :
  sessions st !! Callback.chat_id cq = Some s ->
  String.eqb (Callback.data cq) "_confirm" = false ->
  Law.writes_nothing (Callback.chat_id cq) st (fst (onSessionCallback cfg e cq s st)).
Proof.
  intros Hs Hd. unfold onSessionCallback. rewrite Hd.
  repeat match goal with
         | |- context [if ?c then _ else _] => destruct c; cbn [fst]
         end.
  all: try (destruct (sendPreview cfg e (Callback.chat_id cq) s) as [s1 out]; cbn [fst]).
  all: try (destruct (edit_field _); cbn [fst]).
  all: try apply writes_nothing_endSession.
  all: try apply writes_nothing_refl.
  all: eapply writes_nothing_putSession; exact Hs.
Qed.

(** X14.  A sender who is not allowed writes nothing.  Whatever such a
    sender sends, the message handler and every command handler leave
    the file and the table as they are and give no session to a chat
    that has none; so does the callback handler on every button but
    the confirm button, which does not look at the sender. *)
Theorem unauthorized_writes_nothing (e : env) (m : Msg.t) (cq : Callback.t)
  (arg : option string) (match1 : string) (st : state) :
  (isAllowed cfg (Msg.from_id m) = false ->
   Forall (fun h => Law.writes_nothing (Msg.chat_id m) st (fst (h st)))
          (Law.message_handlers cfg e m arg match1))
  /\ (isAllowed cfg (Callback.from_id cq) = false ->
      Callback.data cq <> "_confirm" ->
      Law.writes_nothing (Callback.chat_id cq) st (fst (onCallback cfg e cq st))).
Proof.
  split.
  - intros Hal. unfold Law.message_handlers. repeat apply Forall_cons_2; [..|apply Forall_nil_2].
    + apply writes_nothing_onMessage, Hal.
    + unfold onText_add. rewrite Hal. apply writes_nothing_refl.
    + apply writes_nothing_refl.
    + apply writes_nothing_refl.
    + unfold onText_new. rewrite (beginGuidedFlow_refused _ _ _ Hal).
      apply writes_nothing_refl.
    + apply writes_nothing_cancelCommand.
    + apply writes_nothing_onSession.
    + apply writes_nothing_onSession.
    + unfold onText_edit. rewrite (beginEditFlow_refused _ _ _ _ _ Hal).
      apply writes_nothing_refl.
    + unfold onText_delete. rewrite (handleDeleteById_refused _ _ _ _ _ Hal).
      apply writes_nothing_refl.
    + apply writes_nothing_refl.
  - intros Hal Hd. apply String.eqb_neq in Hd. unfold onCallback, with_answer.
    repeat match goal with
           | |- context [if ?c then _ else _] => destruct c; cbn [fst]
           end.
    all: try apply writes_nothing_refl.
    all: try apply writes_nothing_menu.
    + rewrite (beginGuidedFlow_refused _ _ _ Hal). apply writes_nothing_refl.
    + apply writes_nothing_cancelCommand.
    + rewrite (beginEditFlow_refused _ _ _ _ _ Hal). apply writes_nothing_refl.
    + rewrite (handleDeleteById_refused _ _ _ _ _ Hal). apply writes_nothing_refl.
    + destruct (sessions st !! Callback.chat_id cq) as [s|] eqn:Hs;
        [|apply writes_nothing_refl].
      apply writes_nothing_onSessionCallback; assumption.
Qed.

End GateFacts.

(** X14 for sender 2, who is not on the allow-list, deleting the
    record of the file by the button of the list. *)
Lemma unauthorized_writes_nothing_witness :
  activities (fst (onCallback (Run.config [Some 1] false) Run.world
                     (Run.press 7 2 "_list_delete:a-1") Run.start))
  = [Run.stored].
Proof.
  apply (proj2 (unauthorized_writes_nothing (Run.config [Some 1] false) Run.world
                  (Run.text 7 2 "x") (Run.press 7 2 "_list_delete:a-1") None EmptyString
                  Run.start)).
  - reflexivity.
  - discriminate.
Defined.

(** ** The table and the file *)

Section StoreFacts.

Variable cfg : Config.t.

Local Arguments or_else : simpl never.

Lemma find_snoc {A : Type} (p : A -> bool) (l : list A) (x : A) :
  find p (l ++ [x]) =
    match find p l with
    | Some y => Some y
    | None => if p x then Some x else None
    end.
Proof.
  induction l as [|a l IH]; cbn; [reflexivity|].
  destruct (p a); [reflexivity|exact IH].
Qed.

Lemma id_is_row (i j : string) (item : Item.t) (b : bool) :
  id_is j (row_of_item cfg i item b) = String.eqb i j.
Proof. reflexivity. Qed.

Lemma id_is_eq (i j : string) (a : Activity.t) :
  id_is i a = true -> id_is j a = true -> i = j.
Proof.
  unfold id_is. intros Hi Hj. apply String.eqb_eq in Hi, Hj. congruence.
Qed.

Lemma id_is_other (i j : string) (a : Activity.t) :
  i <> j -> id_is i a = true -> id_is j a = false.
Proof.
  intros Hne Hi. destruct (id_is j a) eqn:Hj; [|reflexivity].
  destruct (Hne (id_is_eq _ _ _ Hi Hj)).
Qed.

Lemma find_replaced (i j : string) (x : Activity.t) (l : list Activity.t) :
  id_is i x = true ->
  find (id_is j) (map (fun a => if id_is i a then x else a) l) =
    if String.eqb i j then (if existsb (id_is i) l then Some x else None)
    else find (id_is j) l.
Proof.
  intros Hx. induction l as [|a l IH]; cbn.
  - destruct (String.eqb i j); reflexivity.
  - destruct (id_is i a) eqn:Ha; cbn.
    + destruct (String.eqb i j) eqn:E.
      * apply String.eqb_eq in E. subst j. rewrite Hx. reflexivity.
      * apply String.eqb_neq in E.
        rewrite (id_is_other _ _ _ E Hx), (id_is_other _ _ _ E Ha), IH.
        reflexivity.
    + destruct (String.eqb i j) eqn:E.
      * apply String.eqb_eq in E. subst j. rewrite Ha. exact IH.
      * rewrite IH. reflexivity.
Qed.

Lemma find_existsb {A : Type} (p : A -> bool) (l : list A) :
  existsb p l = bool_decide (is_Some (find p l)).
Proof.
  induction l as [|a l IH]; cbn; [reflexivity|].
  destruct (p a); [|exact IH]. symmetry. apply bool_decide_eq_true_2. eauto.
Qed.

Lemma find_filtered (i j : string) (l : list Activity.t) :
  find (id_is j) (filter (fun a => id_is i a = false) l) =
    if String.eqb i j then None else find (id_is j) l.
Proof.
  induction l as [|a l IH]; [destruct (String.eqb i j); reflexivity|].
  rewrite filter_cons. destruct (decide (id_is i a = false)) as [Ha|Ha].
  - cbn. destruct (String.eqb i j) eqn:E.
    + apply String.eqb_eq in E. subst j. rewrite Ha. exact IH.
    + rewrite IH. reflexivity.
  - apply not_false_is_true in Ha. rewrite IH. cbn.
    destruct (String.eqb i j) eqn:E; [reflexivity|].
    apply String.eqb_neq in E. rewrite (id_is_other _ _ _ E Ha). reflexivity.
Qed.

Lemma filter_all {A : Type} (P : A -> Prop) `{!forall x, Decision (P x)} (l : list A) :
  length (filter P l) = length l -> filter P l = l.
Proof.
  induction l as [|a l IH]; [reflexivity|].
  rewrite filter_cons. destruct (decide (P a)); cbn.
  - intros Hl. f_equal. apply IH. lia.
  - intros Hl. pose proof (length_filter P l). lia.
Qed.

(** X15.  Insert, then look up.  With the database configured and
    answering, and the id it gives the new row not yet in the table,
    the insert returns that id, adds one row, and a lookup of the id
    then finds the row written for the item; the lookup of any other
    id answers what it did before. *)
Theorem insert_then_get (e : env) (st : state) (item : Item.t) :
  Config.dbEnabled cfg = true ->
  db_error e = None ->
  find (id_is (db_new_id e)) (db st) = None ->
  exists st',
    insertActivityToDb cfg e st item = Returns (st', Some (db_new_id e))
    /\ getActivityFromDbById cfg e st' (db_new_id e)
       = Returns (Some (row_of_item cfg (db_new_id e) item false))
    /\ (forall i, i <> db_new_id e ->
          getActivityFromDbById cfg e st' i = getActivityFromDbById cfg e st i)
    /\ length (db st') = S (length (db st)).
Proof.
  intros Hdb Herr Hfresh.
  unfold insertActivityToDb, getActivityFromDbById, query. rewrite Hdb, Herr. cbn.
  eexists. split; [reflexivity|]. cbn. rewrite ?Hdb, ?Herr. cbn.
  split; [|split].
  - rewrite find_snoc, Hfresh, id_is_row, String.eqb_refl. reflexivity.
  - intros i Hi. rewrite find_snoc, id_is_row.
    apply not_eq_sym, String.eqb_neq in Hi. rewrite Hi.
    destruct (find (id_is i) (db st)); reflexivity.
  - rewrite length_app. cbn. lia.
Qed.

(** X16.  Update, then look up.  With the database configured and
    answering: the update of an id that is in the table returns the
    id, keeps the number of rows, and a lookup of the id then finds the
    row written for the item, while the lookup of any other id answers
    what it did before; the update of an id that is not in the table
    returns no id and leaves the state as it is. *)
Theorem update_then_get (e : env) (st : state) (i : string) (item : Item.t) :
  Config.dbEnabled cfg = true ->
  db_error e = None ->
  (is_Some (find (id_is i) (db st)) ->
   exists st',
     updateActivityInDb cfg e st i item = Returns (st', Some i)
     /\ getActivityFromDbById cfg e st' i = Returns (Some (row_of_item cfg i item true))
     /\ (forall j, j <> i ->
           getActivityFromDbById cfg e st' j = getActivityFromDbById cfg e st j)
     /\ length (db st') = length (db st))
  /\ (find (id_is i) (db st) = None ->
      updateActivityInDb cfg e st i item = Returns (st, None)).
Proof.
  intros Hdb Herr.
  unfold updateActivityInDb, getActivityFromDbById, query. rewrite Hdb, Herr. cbn.
  split.
  - intros [old Hold]. rewrite Hold. eexists. split; [reflexivity|]. cbn.
    rewrite ?Hdb, ?Herr. cbn. split; [|split].
    + rewrite find_replaced by apply String.eqb_refl.
      rewrite String.eqb_refl, find_existsb, Hold.
      rewrite bool_decide_eq_true_2 by eauto. reflexivity.
    + intros j Hj. rewrite find_replaced by apply String.eqb_refl.
      apply not_eq_sym, String.eqb_neq in Hj. rewrite Hj. reflexivity.
    + apply length_map.
  - intros ->. reflexivity.
Qed.

(** X17.  Delete, then look up.  With the database configured and
    answering, the delete returns; it returns the id exactly when a
    row has it, and the state as it was when none has; afterwards a
    lookup of the id finds nothing, and the lookup of any other id
    answers what it did before. *)
Theorem delete_then_get (e : env) (st : state) (i : string) :
  Config.dbEnabled cfg = true ->
  db_error e = None ->
  exists st' r,
    deleteActivityFromDb cfg e st i = Returns (st', r)
    /\ (r = Some i <-> is_Some (find (id_is i) (db st)))
    /\ (r = None -> st' = st)
    /\ getActivityFromDbById cfg e st' i = Returns None
    /\ (forall j, j <> i ->
          getActivityFromDbById cfg e st' j = getActivityFromDbById cfg e st j).
Proof.
  intros Hdb Herr.
  unfold deleteActivityFromDb, getActivityFromDbById, query. rewrite Hdb, Herr. cbn.
  destruct (find (id_is i) (db st)) as [old|] eqn:Hold.
  - eexists _, _. split; [reflexivity|]. cbn. rewrite ?Hdb, ?Herr. cbn.
    split; [split; eauto|]. split; [discriminate|]. split.
    + rewrite find_filtered, String.eqb_refl. reflexivity.
    + intros j Hj. rewrite find_filtered.
      apply not_eq_sym, String.eqb_neq in Hj. rewrite Hj. reflexivity.
  - exists st, None. split; [reflexivity|]. rewrite ?Hdb, ?Herr. cbn.
    split; [split; [discriminate|intros [x Hx]; discriminate Hx]|].
    split; [reflexivity|]. split; [rewrite Hold; reflexivity|reflexivity].
Qed.

Lemma filter_keeps_all (i : string) (l : list Activity.t) :
  (length (filter (fun a => id_is i a = false) l) =? length l)%nat
  = negb (existsb (id_is i) l).
Proof.
  induction l as [|a l IH]; [reflexivity|].
  rewrite filter_cons. cbn [existsb length].
  destruct (decide (id_is i a = false)) as [Ha|Ha].
  - rewrite Ha. cbn. exact IH.
  - apply not_false_is_true in Ha. rewrite Ha. cbn.
    pose proof (length_filter (fun a => id_is i a = false) l).
    apply Nat.eqb_neq. lia.
Qed.

Lemma set_activities_same (st : state) : set_activities (activities st) st = st.
Proof. destruct st; reflexivity. Qed.

(** X18.  Delete from the file.  Without a database, for a sender who
    is allowed, in a chat without a session, [/delete] with an id that
    is not empty removes from the file every record whose id, as a
    string, is the id given (trimmed), and keeps the others in their
    order; it answers that the record was deleted when there was one
    and that it was not found when there was none; and the same
    command once more finds nothing and changes nothing. *)
Theorem delete_from_file (e : env) (chat from : Z) (id : option string) (st : state) :
  Config.dbEnabled cfg = false ->
  isAllowed cfg from = true ->
  sessions st !! chat = None ->
  Str.is_empty (normalizeText id) = false ->
  let nid := normalizeText id in
  let r := handleDeleteById cfg e chat from id st in
  fst r = set_activities (filter (fun a => id_is nid a = false) (activities st)) st
  /\ snd r = [sendMessage chat
                (if existsb (id_is nid) (activities st)
                 then "Deleted: " ++ nid ++ " (local file)"
                 else "Not found: " ++ nid)]
  /\ handleDeleteById cfg e chat from id (fst r)
     = (fst r, [sendMessage chat ("Not found: " ++ nid)]).
Proof.
  intros Hdb Hal Hs Hne nid r.
  assert (Hrun : forall st0, sessions st0 !! chat = None ->
            handleDeleteById cfg e chat from id st0 =
              if existsb (id_is nid) (activities st0)
              then (set_activities (filter (fun a => id_is nid a = false) (activities st0)) st0,
                    [sendMessage chat ("Deleted: " ++ nid ++ " (local file)")])
              else (st0, [sendMessage chat ("Not found: " ++ nid)])).
  { intros st0 Hs0. unfold handleDeleteById. rewrite Hal, Hne, Hdb. cbn [negb].
    rewrite bool_decide_eq_false_2 by (rewrite Hs0; intros [x Hx]; discriminate Hx).
    fold nid. rewrite filter_keeps_all.
    destruct (existsb (id_is nid) (activities st0)); reflexivity. }
  subst r. rewrite (Hrun st Hs).
  destruct (existsb (id_is nid) (activities st)) eqn:Hex; cbn [fst snd].
  - split; [reflexivity|]. split; [reflexivity|].
    rewrite Hrun by exact Hs. cbn [activities set_activities].
    rewrite find_existsb, find_filtered, String.eqb_refl.
    rewrite bool_decide_eq_false_2 by (intros [x Hx]; discriminate Hx). reflexivity.
  - assert (Hall : filter (fun a => id_is nid a = false) (activities st) = activities st).
    { apply filter_all. apply Nat.eqb_eq. rewrite filter_keeps_all, Hex. reflexivity. }
    rewrite Hall, set_activities_same. split; [reflexivity|]. split; [reflexivity|].
    rewrite (Hrun st Hs), Hex. reflexivity.
Qed.

Lemma replace_first_split (p : Activity.t -> bool) (x : Activity.t) (l : list Activity.t) :
  existsb p l = true ->
  exists l1 old l2,
    l = (l1 ++ old :: l2)%list /\ p old = true /\ existsb p l1 = false
    /\ replace_first p x l = (l1 ++ x :: l2)%list.
Proof.
  induction l as [|a l IH]; [discriminate|]. cbn.
  destruct (p a) eqn:Ha.
  - intros _. exists [], a, l. auto.
  - cbn. intros H. destruct (IH H) as (l1 & old & l2 & -> & Hold & Hl1 & Hr).
    exists (a :: l1), old, l2. cbn. rewrite Ha, Hl1, Hr. auto.
Qed.

(** X19.  What the confirm callback writes to the file, when the sort
    of the file keeps its records (it permutes them).  A create adds
    the record to the records of the file, and so does an edit whose id
    no record has; an edit whose id some record has puts the record in
    the place of the first record with that id and keeps every other
    record, those with the same id too. *)
Theorem commit_file_records (item : Item.t) (arr : list Activity.t) :
  (forall l, Config.sort_by_date cfg l ≡ₚ l) ->
  let x := Activity_of_item item in
  commit_file cfg create item arr ≡ₚ x :: arr
  /\ (existsb (id_is (Item.id item)) arr = false ->
      commit_file cfg edit item arr ≡ₚ x :: arr)
  /\ (existsb (id_is (Item.id item)) arr = true ->
      exists l1 old l2,
        arr = (l1 ++ old :: l2)%list
        /\ id_is (Item.id item) old = true
        /\ existsb (id_is (Item.id item)) l1 = false
        /\ commit_file cfg edit item arr ≡ₚ (l1 ++ x :: l2)%list
        /\ length (commit_file cfg edit item arr) = length arr).
Proof.
  intros Hsort x. unfold commit_file. fold x. split; [|split].
  - rewrite Hsort. symmetry. apply Permutation_cons_append.
  - intros ->. rewrite Hsort. symmetry. apply Permutation_cons_append.
  - intros Hex. rewrite Hex.
    destruct (replace_first_split _ x arr Hex) as (l1 & old & l2 & -> & Hold & Hl1 & Hr).
    exists l1, old, l2. rewrite Hr. repeat split; auto.
    rewrite (Permutation_length (Hsort _)), !length_app. reflexivity.
Qed.

(** X20.  An ambiguous prefix changes nothing.  With the database
    configured and answering, for a sender who is allowed in a chat
    without a session: when the id given is no full UUID, has at least
    six hexadecimal digits and more than one stored id starts with
    them, [/edit] opens no session and [/delete] deletes no row; each
    leaves the state as it is and answers with the ambiguity error. *)
Theorem ambiguous_prefix_changes_nothing (e : env) (chat from : Z) (id : option string)
  (st : state) :
  let raw := normalizeText id in
  let matching := filter (fun a => id_ilike (hex_prefix raw) a = true) (db st) in
  let error :=
    "Multiple activities match that ID prefix. Please copy the full ID from /list." in
  Config.dbEnabled cfg = true ->
  db_error e = None ->
  isAllowed cfg from = true ->
  sessions st !! chat = None ->
  Str.is_empty raw = false ->
  isUuidLike (Some raw) = false ->
  (6 <= String.length (hex_prefix raw))%nat ->
  (2 <= length matching)%nat ->
  beginEditFlow cfg e chat from id st = (st, [sendMessage chat error])
  /\ handleDeleteById cfg e chat from id st
     = (st, [console_error "Delete failed"; sendMessage chat ("Delete failed: " ++ error)]).
Proof.
  intros raw matching error Hdb Herr Hal Hs Hne Huuid Hlen Hmany.
  assert (Hres : resolveDbIdFromPrefix cfg e st (Some raw) = Throws error).
  { pose proof (resolveDbIdFromPrefix_lookup cfg e st (Some raw)) as H. cbn zeta in H.
    assert (Hraw : normalizeText (Some raw) = raw) by apply TrimFacts.normalizeText_idem.
    rewrite Hraw in H. fold matching in H.
    rewrite (H Hdb Herr Hne Huuid Hlen).
    destruct matching as [|r1 [|r2 l]]; cbn in Hmany; [lia|lia|reflexivity]. }
  assert (Hno : bool_decide (is_Some (sessions st !! chat)) = false).
  { apply bool_decide_eq_false_2. rewrite Hs. intros [x Hx]. discriminate Hx. }
  split.
  - unfold beginEditFlow. rewrite Hal, Hno. fold raw. rewrite Hne, Hdb, Huuid. cbn [negb andb].
    rewrite Hres. reflexivity.
  - unfold handleDeleteById. rewrite Hal, Hno. fold raw. rewrite Hne, Hdb, Huuid. cbn [negb].
    rewrite Hres. reflexivity.
Qed.

Lemma ensure_webPath_id (item : Item.t) : Item.id (ensure_webPath cfg item) = Item.id item.
Proof.
  unfold ensure_webPath. destruct (Item.attachment item) as [|a]; [reflexivity|].
  destruct (_ && _); reflexivity.
Qed.

Lemma ensurePublicAttachmentUrl_id (e : env) (item : Item.t) :
  Item.id (ensurePublicAttachmentUrl cfg e item) = Item.id item.
Proof.
  unfold ensurePublicAttachmentUrl. destruct (Item.attachment item) as [|a]; [reflexivity|].
  repeat match goal with
         | |- context [if ?c then _ else _] => destruct c; try reflexivity
         end.
  destruct (r2_upload _ _); reflexivity.
Qed.

(** X21.  Confirming the edit of a record that is no longer stored.
    With the database, the update finds no row: nothing is written, and
    the handler still removes the session, announces the record and
    answers that it was saved.  Without it, the record is added to the
    file. *)
Theorem edit_of_missing_record (e : env) (cq : Callback.t) (st : state) (s : Session.t)
  (item : Item.t) :
  sessions st !! Callback.chat_id cq = Some s ->
  Callback.data cq = "_confirm" ->
  Session.mode s = edit ->
  Session.pending s = Some item ->
  let chat := Callback.chat_id cq in
  let final := ensurePublicAttachmentUrl cfg e (ensure_webPath cfg item) in
  (Config.dbEnabled cfg = true ->
   db_error e = None ->
   find (id_is (Item.id item)) (db st) = None ->
   onCallback cfg e cq st =
     (endSession chat st,
      [editMessageReplyMarkup chat (Callback.message_id cq);
       announceToChannelIfConfigured final "#AU";
       sendSavedMessage chat final edit;
       answerCallbackQuery "Saved"]))
  /\ (Config.dbEnabled cfg = false ->
      existsb (id_is (Item.id item)) (activities st) = false ->
      fst (onCallback cfg e cq st) =
        endSession chat
          (set_activities
             (Config.sort_by_date cfg (activities st ++ [Activity_of_item final])) st)).
Proof.
  intros Hs Hd Hmode Hp chat final.
  assert (Hid : Item.id final = Item.id item).
  { unfold final. rewrite ensurePublicAttachmentUrl_id. apply ensure_webPath_id. }
  assert (Hrun : onCallback cfg e cq st = confirm cfg e cq s st).
  { unfold onCallback. rewrite Hd. cbn. rewrite Hs. unfold onSessionCallback.
    rewrite Hd. reflexivity. }
  rewrite Hrun. unfold confirm. rewrite Hp, Hmode. fold final chat. split.
  - intros Hdb Herr Hfind. unfold persist, updateActivityInDb, query.
    rewrite Hdb, Herr, Hid, Hfind. reflexivity.
  - intros Hdb Hex. unfold persist, commit_file. rewrite Hdb, Hid, Hex. reflexivity.
Qed.

Lemma or_else_empty (x : string) : or_else (Some x) EmptyString = x.
Proof. unfold or_else. destruct x; reflexivity. Qed.

(** X22.  What an edit recovers of a row of the table.  The draft seeded
    from the row written for an item has the id of the row and the
    date, the coordinates (or null) and the non-empty type of the item;
    its title is that of the item, or ["Activity"] when the item had
    none; its location and its note are those of the item, or empty; a
    count that was a number comes back as the text that prints it; and
    an attachment, if any, comes back as a type and a URL, without the
    local path and the file id. *)
Theorem edit_recovers_from_table (e : env) (i : string) (item : Item.t) (on_update : bool) :
  let d := seed cfg e (row_of_item cfg i item on_update) in
  Data.id d = Some i
  /\ Data.title d = Some (or_else (Item.title item) "Activity")
  /\ Data.activity_type d = string_or_null (Item.activity_type item)
  /\ Data.date d = Some (Item.date item)
  /\ Data.dateRaw d = None
  /\ Data.count d = match Item.count item with
                    | Some (CNum q) => Some (CText (Config.Number_toString cfg q))
                    | Some (CText t) => Some (CText t)
                    | Some CNull | None => Some CNull
                    end
  /\ Data.location d = Some (or_else (Item.location item) EmptyString)
  /\ Data.lat d = Some (number_or_null (Item.lat item))
  /\ Data.lng d = Some (number_or_null (Item.lng item))
  /\ Data.note d = Some (or_else (Item.note item) EmptyString)
  /\ (Data.attachment d = None
      \/ exists ty url,
           Data.attachment d = Some (value (Attachment.mk (Some ty) None None (Some url)))).
Proof.
  destruct item as [id ti ty da co lo la ln no att au aty]. cbn.
  split; [reflexivity|]. split; [rewrite or_else_empty; reflexivity|].
  split; [unfold string_or_null; destruct (truthy ty) eqn:E; rewrite ?E; reflexivity|].
  split; [reflexivity|]. split; [reflexivity|].
  split; [destruct co as [[| |]|]; reflexivity|].
  split.
  { unfold string_or_null. destruct lo as [x|]; [|reflexivity]. cbn.
    destruct (Str.is_empty x) eqn:E; cbn; [|rewrite or_else_empty]; unfold or_else;
      rewrite ?E; reflexivity. }
  split; [destruct la as [[|q]|]; reflexivity|].
  split; [destruct ln as [[|q]|]; reflexivity|].
  split.
  { unfold string_or_null. destruct no as [x|]; [|reflexivity]. cbn.
    destruct (Str.is_empty x) eqn:E; cbn; unfold or_else; rewrite ?E; reflexivity. }
  destruct (_ || _); eauto.
Qed.

(** X23.  What an edit recovers of a record of the file.  The draft
    seeded from the record stored for an item has its id, date, count
    and coordinates (or null), its title, location and note, or empty
    ones, and no type, whatever the type of the item was: without a
    database, [/edit] of a record the bot stored opens a session whose
    draft has no type. *)
Theorem edit_recovers_from_file (e : env) (chat from : Z) (id : option string) (st : state)
  (item : Item.t) :
  let d := seed cfg e (Activity_of_item item) in
  (Data.id d = Some (Item.id item)
   /\ Data.title d = Some (or_else (Item.title item) EmptyString)
   /\ Data.activity_type d = None
   /\ Data.date d = Some (Item.date item)
   /\ Data.count d = Some (default CNull (Item.count item))
   /\ Data.location d = Some (or_else (Item.location item) EmptyString)
   /\ Data.lat d = Some (number_or_null (Item.lat item))
   /\ Data.lng d = Some (number_or_null (Item.lng item))
   /\ Data.note d = Some (or_else (Item.note item) EmptyString))
  /\ (Config.dbEnabled cfg = false ->
      isAllowed cfg from = true ->
      sessions st !! chat = None ->
      Str.is_empty (normalizeText id) = false ->
      find (id_is (normalizeText id)) (activities st) = Some (Activity_of_item item) ->
      exists s,
        sessions (fst (beginEditFlow cfg e chat from id st)) !! chat = Some s
        /\ Session.data s = d
        /\ Data.activity_type (Session.data s) = None).
Proof.
  intros d. split.
  - subst d. destruct item as [i ti ty da co lo la ln no att au aty]. cbn.
    repeat split; try reflexivity.
    all: try (destruct la as [[|q]|]; reflexivity).
    all: try (destruct ln as [[|q]|]; reflexivity).
    all: destruct no as [x|]; [|reflexivity]; cbn; unfold or_else;
      destruct (Str.is_empty x); reflexivity.
  - intros Hdb Hal Hs Hne Hfind. unfold beginEditFlow.
    rewrite Hal, Hne, Hdb. cbn [negb andb].
    rewrite bool_decide_eq_false_2 by (rewrite Hs; intros [x Hx]; discriminate Hx).
    rewrite Hne, Hfind. cbn [fst]. eexists. split; [apply putSession_lookup|].
    split; reflexivity.
Qed.

End StoreFacts.

(** the sort of the configuration of the concrete runs keeps the records *)
Lemma insert_by_date_perm (key : Activity.t -> Z) (a : Activity.t) (l : list Activity.t) :
  Run.insert_by_date key a l ≡ₚ a :: l.
Proof.
  induction l as [|b l IH]; cbn; [reflexivity|].
  destruct (key a <? key b); [reflexivity|].
  rewrite IH. apply Permutation_swap.
Qed.

Lemma sort_by_date_perm (allowed : list (option Z)) (db : bool) (l : list Activity.t) :
  Config.sort_by_date (Run.config allowed db) l ≡ₚ l.
Proof.
  cbn. induction l as [|a l IH]; cbn; [reflexivity|].
  rewrite insert_by_date_perm, IH. reflexivity.
Qed.

(** X15 on the table of two rows. *)
Lemma insert_then_get_witness :
  exists st',
    insertActivityToDb (Run.config [] true) Run.world Run.two_rows
      (add_item (Run.config [] true) Run.world " Quran class | 2025-12-20 | 40")
    = Returns (st', Some (db_new_id Run.world))
    /\ getActivityFromDbById (Run.config [] true) Run.world st' (db_new_id Run.world)
       = Returns (Some (row_of_item (Run.config [] true) (db_new_id Run.world)
                          (add_item (Run.config [] true) Run.world
                             " Quran class | 2025-12-20 | 40")
                          false))
    /\ length (db st') = 3%nat.
Proof.
  destruct (insert_then_get (Run.config [] true) Run.world Run.two_rows
              (add_item (Run.config [] true) Run.world " Quran class | 2025-12-20 | 40"))
    as (st' & H1 & H2 & _ & H4).
  - reflexivity.
  - reflexivity.
  - vm_compute. reflexivity.
  - exists st'. auto.
Defined.

(** X16 on the first of the two rows. *)
Lemma update_then_get_witness :
  exists st',
    updateActivityInDb (Run.config [] true) Run.world Run.two_rows
      "abcde111-1111-4111-8111-111111111111"
      (add_item (Run.config [] true) Run.world " Quran class | 2025-12-20 | 40")
    = Returns (st', Some "abcde111-1111-4111-8111-111111111111")
    /\ length (db st') = 2%nat.
Proof.
  destruct (proj1 (update_then_get (Run.config [] true) Run.world Run.two_rows
                     "abcde111-1111-4111-8111-111111111111"
                     (add_item (Run.config [] true) Run.world
                        " Quran class | 2025-12-20 | 40")
                     eq_refl eq_refl))
    as (st' & H1 & _ & _ & H4).
  - vm_compute. eauto.
  - exists st'. auto.
Defined.

(** X17 on the first of the two rows. *)
Lemma delete_then_get_witness :
  exists st' r,
    deleteActivityFromDb (Run.config [] true) Run.world Run.two_rows
      "abcde111-1111-4111-8111-111111111111"
    = Returns (st', r)
    /\ getActivityFromDbById (Run.config [] true) Run.world st'
         "abcde111-1111-4111-8111-111111111111"
       = Returns None.
Proof.
  destruct (delete_then_get (Run.config [] true) Run.world Run.two_rows
              "abcde111-1111-4111-8111-111111111111" eq_refl eq_refl)
    as (st' & r & H1 & _ & _ & H4 & _).
  exists st', r. auto.
Defined.

(** X18 for [/delete a-1] on the file of one record. *)
Lemma delete_from_file_witness :
  fst (handleDeleteById Run.open_to_all Run.world 7 42 (Some " a-1 ") Run.start)
  = set_activities [] Run.start.
Proof.
  rewrite (proj1 (delete_from_file Run.open_to_all Run.world 7 42 (Some " a-1 ") Run.start
                    eq_refl eq_refl eq_refl eq_refl)).
  vm_compute. reflexivity.
Defined.

(** X19 for the edit of the stored record of the concrete runs. *)
Lemma commit_file_records_witness :
  length (commit_file Run.open_to_all edit
            (Item.mk "a-1" (Some "Quran distribution") None 1766188800000 None None
                     None None None null None None)
            [Run.stored; Run.stored])
  = 2%nat.
Proof.
  destruct (proj2 (proj2
              (commit_file_records Run.open_to_all
                 (Item.mk "a-1" (Some "Quran distribution") None 1766188800000 None None
                          None None None null None None)
                 [Run.stored; Run.stored] (sort_by_date_perm [] false)))
              eq_refl)
    as (l1 & old & l2 & _ & _ & _ & _ & H).
  exact H.
Defined.

(** X20 for the prefix ["abcdef"], which two stored ids start with. *)
Lemma ambiguous_prefix_changes_nothing_witness :
  fst (handleDeleteById (Run.config [] true) Run.world 7 42 (Some "abcdef") Run.two_rows_6)
  = Run.two_rows_6
  /\ fst (beginEditFlow (Run.config [] true) Run.world 7 42 (Some "abcdef") Run.two_rows_6)
     = Run.two_rows_6.
Proof.
  destruct (ambiguous_prefix_changes_nothing (Run.config [] true) Run.world 7 42
              (Some "abcdef") Run.two_rows_6)
    as [H1 H2].
  - reflexivity.
  - reflexivity.
  - reflexivity.
  - reflexivity.
  - vm_compute. reflexivity.
  - vm_compute. reflexivity.
  - vm_compute. lia.
  - vm_compute. lia.
  - rewrite H1, H2. auto.
Defined.

(** X21 for the confirming session of chat 7 when the table does not
    hold the record, and when the file does not. *)
Lemma edit_of_missing_record_witness :
  fst (onCallback (Run.config [] true) Run.world (Run.press 7 42 "_confirm")
         (putSession 7 Run.previewed Run.two_rows))
  = Run.two_rows
  /\ length (activities
              (fst (onCallback Run.open_to_all Run.world (Run.press 7 42 "_confirm")
                      (set_activities [] Run.confirming_state))))
     = 1%nat.
Proof.
  destruct (edit_of_missing_record (Run.config [] true) Run.world (Run.press 7 42 "_confirm")
              (putSession 7 Run.previewed Run.two_rows) Run.previewed
              _ ltac:(vm_compute; reflexivity) eq_refl eq_refl eq_refl)
    as [H1 _].
  destruct (edit_of_missing_record Run.open_to_all Run.world (Run.press 7 42 "_confirm")
              (set_activities [] Run.confirming_state) Run.previewed
              _ ltac:(vm_compute; reflexivity) eq_refl eq_refl eq_refl)
    as [_ H2].
  split.
  - rewrite (H1 eq_refl eq_refl ltac:(vm_compute; reflexivity)). vm_compute. reflexivity.
  - rewrite (H2 eq_refl eq_refl). vm_compute. reflexivity.
Defined.

(** X23 for [/edit a-1] on a file that holds a record with a type. *)
Lemma edit_recovers_from_file_witness :
  exists s,
    sessions (fst (beginEditFlow Run.open_to_all Run.world 7 42 (Some "a-1")
                     (set_activities
                        [Activity_of_item
                           (Item.mk "a-1" (Some "Quran class") (Some "class") 1766188800000
                                    None None None None None null None None)]
                        Run.start))) !! 7
    = Some s
    /\ Data.activity_type (Session.data s) = None.
Proof.
  destruct (proj2 (edit_recovers_from_file Run.open_to_all Run.world 7 42 (Some "a-1")
                     (set_activities
                        [Activity_of_item
                           (Item.mk "a-1" (Some "Quran class") (Some "class") 1766188800000
                                    None None None None None null None None)]
                        Run.start)
                     (Item.mk "a-1" (Some "Quran class") (Some "class") 1766188800000
                              None None None None None null None None))
              eq_refl eq_refl eq_refl eq_refl eq_refl)
    as (s & H1 & _ & H3).
  exists s. auto.
Defined.

(** ** Keyboards and the recent list *)

Section KeyboardFacts.

Variable cfg : Config.t.

Local Arguments or_else : simpl never.

(** X24.  Every button of the main menu, of the type keyboard, of the
    field menu and of the preview is an action the callback handler
    knows: pressed in any state, none is answered with ["Unknown
    action"]. *)
Theorem offered_buttons_are_known (e : env) (cq : Callback.t) (st : state) :
  In (Callback.data cq)
     (concat (mainMenuKeyboard ++ activityTypeKeyboard ++ editMenuKeyboard
              ++ previewKeyboard)%list) ->
  snd (onCallback cfg e cq st) <> [answerCallbackQuery "Unknown action"].
Proof.
  cbn [concat app mainMenuKeyboard activityTypeKeyboard editMenuKeyboard previewKeyboard In].
  intros H.
  repeat (destruct H as [H|H]; [symmetry in H|]); try contradiction.
  all: unfold onCallback; rewrite H; cbn.
  all: try discriminate.
  all: try (destruct (isAllowed cfg _); cbn; discriminate).
  all: destruct (sessions st !! Callback.chat_id cq) as [s|]; [|discriminate].
  all: unfold onSessionCallback; rewrite H; cbn.
  all: try discriminate.
  all: try (destruct (Session.step s); cbn; discriminate).
  unfold confirm. destruct (Session.pending s); [|discriminate].
  destruct (persist _ _ _ _ _) as [[st' item']|err]; cbn; discriminate.
Qed.

(** X25.  A button of the type keyboard stores the type it names.  In
    a chat with a session, the draft gets the type after the colon of
    the button as it is (the six names are their own normal forms), no
    other field of the draft changes, and the session moves to the date
    step when it was at the type step and stays where it was
    otherwise. *)
Theorem type_buttons_set_their_type (e : env) (cq : Callback.t) (st : state)
  (s : Session.t) :
  In (Callback.data cq) (concat activityTypeKeyboard) ->
  sessions st !! Callback.chat_id cq = Some s ->
  let t := after "_set_type:" (Callback.data cq) in
  fst (onCallback cfg e cq st)
  = putSession (Callback.chat_id cq)
      (Session.set_step
         (if Step.eqb (Session.step s) Step.type then Step.date else Session.step s)
         (Session.update (Data.set_activity_type (Some t)) s))
      st.
Proof.
  cbn [concat app activityTypeKeyboard In]. intros H Hs.
  repeat (destruct H as [H|H]; [symmetry in H|]); try contradiction.
  all: unfold onCallback; rewrite H; cbn; rewrite Hs.
  all: unfold onSessionCallback; rewrite H; cbn.
  all: destruct s as [uid mo em [] d pend]; reflexivity.
Qed.

Lemma list_item_in (rows : list Activity.t) (r : Activity.t) :
  In r rows ->
  Str.is_empty (list_row_id r) = false ->
  In ["_list_edit:" ++ list_row_id r; "_list_delete:" ++ list_row_id r]
     (flat_map (fun r =>
                  let id := list_row_id r in
                  if Str.is_empty id then []
                  else [["_list_edit:" ++ id; "_list_delete:" ++ id]])
               rows).
Proof.
  intros Hin Hne. apply in_flat_map. exists r. split; [exact Hin|].
  cbn zeta. rewrite Hne. left. reflexivity.
Qed.

(** X26.  The buttons of a row of the recent list act on that row.  For
    a row with an id, the list keyboard has a pair of buttons whose
    data are the id after [_list_edit:] and after [_list_delete:]; and
    pressing them runs the edit flow, or the delete, on exactly that
    id. *)
Theorem list_buttons_act_on_their_row (e : env) (cq : Callback.t) (st : state)
  (rows : list Activity.t) (p : nat) (hasNext : bool) (r : Activity.t) :
  In r rows ->
  Str.is_empty (list_row_id r) = false ->
  let id := list_row_id r in
  let chat := Callback.chat_id cq in
  In ["_list_edit:" ++ id; "_list_delete:" ++ id] (buildRecentListKeyboard cfg rows p hasNext)
  /\ (Callback.data cq = "_list_edit:" ++ id ->
      onCallback cfg e cq st
      = with_answer "Edit" (beginEditFlow cfg e chat (Callback.from_id cq) (Some id) st))
  /\ (Callback.data cq = "_list_delete:" ++ id ->
      onCallback cfg e cq st
      = with_answer "Deleting"
          (handleDeleteById cfg e chat (Callback.from_id cq) (Some id) st)).
Proof.
  intros Hin Hne id chat.
  assert (Htrim : Str.trim id = id) by apply TrimFacts.trim_idem.
  split; [|split].
  - unfold buildRecentListKeyboard. apply in_or_app. left.
    apply list_item_in; assumption.
  - intros Hd. unfold onCallback. rewrite Hd.
    change (after "_list_edit:" ("_list_edit:" ++ id)) with id.
    rewrite Htrim. reflexivity.
  - intros Hd. unfold onCallback. rewrite Hd.
    change (after "_list_delete:" ("_list_delete:" ++ id)) with id.
    rewrite Htrim. reflexivity.
Qed.

End KeyboardFacts.

Section ListFacts.

Variable cfg : Config.t.
Variable newest_first : list Activity.t -> list Activity.t.

Lemma page_window {A : Type} (l : list A) (off : nat) :
  take 6 (take 7 (drop off l)) = take 6 (drop off l)
  /\ (6 <? length (take 7 (drop off l)))%nat = (off + 6 <? length l)%nat.
Proof.
  split.
  - rewrite take_take. reflexivity.
  - rewrite length_take, length_drop.
    destruct (Nat.ltb_spec 6 (7 `min` (length l - off)));
      destruct (Nat.ltb_spec (off + 6) (length l)); lia.
Qed.

Lemma fetchRecentListPage_eq (e : env) (st : state) (k : nat) :
  (Config.dbEnabled cfg = true -> db_error e = None) ->
  let shown := if Config.dbEnabled cfg then map listed (newest_first (db st))
               else newest_first (activities st) in
  fetchRecentListPage cfg newest_first e st k
  = Returns (ListPage.mk (take 6 (drop (k * 6) shown)) k (k * 6 + 6 <? length shown)%nat).
Proof.
  intros Hq shown. subst shown. unfold fetchRecentListPage, RECENT_LIST_PAGE_SIZE, slice.
  destruct (Config.dbEnabled cfg).
  - unfold query. rewrite (Hq eq_refl). cbn [mbind outcome_bind].
    change (6 - 0)%nat with 6%nat. change (6 + 1)%nat with 7%nat. cbn [drop].
    destruct (page_window (newest_first (db st)) (k * 6)) as [H1 H2].
    rewrite drop_0, firstn_map, H1, skipn_map, firstn_map, !length_map, H2. reflexivity.
  - replace (k * 6 + 6 + 1 - k * 6)%nat with 7%nat by lia.
    change (6 - 0)%nat with 6%nat.
    destruct (page_window (newest_first (activities st)) (k * 6)) as [H1 H2].
    rewrite drop_0, H1, H2. reflexivity.
Qed.

Lemma pages_cover {A : Type} (l : list A) (k : nat) :
  flat_map (fun j => take 6 (drop (j * 6) l)) (seq 0 (S k)) = take (S k * 6) l.
Proof.
  induction k as [|k IH]; [cbn; apply app_nil_r|].
  rewrite seq_S, flat_map_app, IH. cbn [flat_map]. rewrite app_nil_r.
  change (0 + S k)%nat with (S k). rewrite take_take_drop. f_equal. lia.
Qed.


End ListFacts.

(** X24 at the confirm button. *)
Lemma offered_buttons_are_known_witness :
  exists out,
    snd (onCallback Run.open_to_all Run.world (Run.press 7 42 "_confirm")
           Run.confirming_state) = out
    /\ out <> [answerCallbackQuery "Unknown action"].
Proof.
  eexists. split; [reflexivity|].
  apply (offered_buttons_are_known Run.open_to_all Run.world (Run.press 7 42 "_confirm")
           Run.confirming_state).
  cbn. tauto.
Defined.

(** X25 at the button [Arrival], pressed at the type step. *)
Lemma type_buttons_set_their_type_witness :
  fst (onCallback Run.open_to_all Run.world (Run.press 7 42 "_set_type:arrival")
         (Run.at_step Step.type))
  = putSession 7
      (Session.set_step Step.date
         (Session.update (Data.set_activity_type (Some "arrival")) (Run.editing Step.type)))
      (Run.at_step Step.type).
Proof.
  apply (type_buttons_set_their_type Run.open_to_all Run.world
           (Run.press 7 42 "_set_type:arrival") (Run.at_step Step.type)
           (Run.editing Step.type)).
  - cbn. tauto.
  - vm_compute. reflexivity.
Defined.

(** X26 at the stored record of the concrete runs. *)
Lemma list_buttons_act_on_their_row_witness :
  In ["_list_edit:a-1"; "_list_delete:a-1"]
     (buildRecentListKeyboard Run.open_to_all [Run.stored] 0 false)
  /\ onCallback Run.open_to_all Run.world (Run.press 7 42 "_list_delete:a-1") Run.start
     = with_answer "Deleting"
         (handleDeleteById Run.open_to_all Run.world 7 42 (Some "a-1") Run.start).
Proof.
  destruct (list_buttons_act_on_their_row Run.open_to_all Run.world
              (Run.press 7 42 "_list_delete:a-1") Run.start [Run.stored] 0 false Run.stored)
    as (H1 & _ & H3).
  - left. reflexivity.
  - vm_compute. reflexivity.
  - split; [exact H1|]. apply H3. reflexivity.
Defined.


(** ** The rendering helpers *)

Module RenderFacts.
Import Str CharFacts.

Lemma digit_is_special (c : ascii) : is_digit c = true -> markdown_special c = true.
Proof. each_char c; intros H; try discriminate H; reflexivity. Qed.

Lemma escape_class_none (cls : ascii -> bool) (s : string) :
  all (fun c => negb (cls c)) s = true -> escape_class cls s = s.
Proof.
  induction s as [|c r IH]; [reflexivity|]. cbn. intros H.
  apply andb_prop in H as [Hc Hr]. apply negb_true_iff in Hc.
  rewrite Hc, (IH Hr). reflexivity.
Qed.

Lemma escape_class_length (cls : ascii -> bool) (s : string) :
  all cls s = true ->
  String.length (escape_class cls s) = (2 * String.length s)%nat.
Proof.
  induction s as [|c r IH]; [reflexivity|]. cbn. intros H.
  apply andb_prop in H as [Hc Hr]. rewrite Hc. cbn. rewrite (IH Hr). lia.
Qed.

Lemma unescape_escape (cls : ascii -> bool) (s : string) :
  all (fun c => negb (is_char "\" c)) s = true ->
  Law.unescape (escape_class cls s) = s.
Proof.
  induction s as [|c r IH]; [reflexivity|]. cbn [all escape_class]. intros H.
  apply andb_prop in H as [Hc Hr]. apply negb_true_iff in Hc.
  destruct (cls c).
  - cbn. rewrite (IH Hr). reflexivity.
  - cbn [Law.unescape]. rewrite Hc, (IH Hr). reflexivity.
Qed.


Lemma trimStart_all (p : ascii -> bool) (s : string) :
  all p s = true -> all p (trimStart s) = true.
Proof.
  induction s as [|c r IH]; [reflexivity|]. cbn. intros H.
  apply andb_prop in H as [Hc Hr]. destruct (is_space c); [apply IH, Hr|].
  cbn. rewrite Hc, Hr. reflexivity.
Qed.

Lemma trimEnd_all (p : ascii -> bool) (s : string) :
  all p s = true -> all p (trimEnd s) = true.
Proof.
  induction s as [|c r IH]; [reflexivity|]. intros H. cbn in H.
  apply andb_prop in H as [Hc Hr]. rewrite TrimFacts.trimEnd_eq.
  specialize (IH Hr). destruct (trimEnd r) as [|c' r'].
  - destruct (is_space c); [reflexivity|]. cbn. rewrite Hc. reflexivity.
  - cbn in *. rewrite Hc, IH. reflexivity.
Qed.

Lemma trim_all (p : ascii -> bool) (s : string) : all p s = true -> all p (trim s) = true.
Proof. intros H. apply trimEnd_all, trimStart_all, H. Qed.

Lemma split_char_cons (a : ascii) (s : string) : split_char a s <> [].
Proof.
  induction s as [|c r IH]; cbn; [discriminate|].
  destruct (Ascii.eqb c a); [discriminate|]. destruct (split_char a r); discriminate.
Qed.

Lemma split_char_head (a : ascii) (s : string) :
  all (Law.not_char a) (hd EmptyString (split_char a s)) = true.
Proof.
  induction s as [|c r IH]; [reflexivity|]. cbn.
  destruct (Ascii.eqb c a) eqn:E; [reflexivity|].
  destruct (split_char a r) as [|h t]; cbn in *.
  - unfold Law.not_char, is_char. rewrite Ascii.eqb_sym, E. reflexivity.
  - unfold Law.not_char at 1. unfold is_char. rewrite Ascii.eqb_sym, E. exact IH.
Qed.

Lemma split_char_none (a : ascii) (s : string) :
  all (Law.not_char a) s = true -> split_char a s = [s].
Proof.
  induction s as [|c r IH]; [reflexivity|]. cbn. intros H.
  apply andb_prop in H as [Hc Hr]. unfold Law.not_char, is_char in Hc.
  apply negb_true_iff in Hc. rewrite Ascii.eqb_sym, Hc, (IH Hr). reflexivity.
Qed.


End RenderFacts.
